(** * simple-agent: the agent loops of src/03 .. src/08, embedded and verified

    The repository is a series of stand-alone TypeScript examples that each
    hand-roll the same control loop: send the transcript to a chat-completion
    service, append its answer, run every requested tool and append the
    results, until the service answers with plain text or an iteration ceiling
    is hit.  This file embeds those loops as functions over an explicit state
    and proves (or refutes) the properties the specification states for them.

    Conventions of the embedding

    - Everything outside the program (the remote service, the shell, the file
      system, the terminal, the clock, the JSON codec of the runtime) is a
      field of [Env]; the program is a function of an [Env].
    - A JavaScript function that can throw is a computation in [M], a state
      and exception monad over [Sys] = the outside world plus a chronological
      trace of what the run did (service requests, handler invocations,
      console lines).
    - A handler table (a JS object literal used as a dictionary) is a
      [gmap string Handler]; only own properties are modelled.  A name that
      every JavaScript object inherits ([inherited]: constructor, toString,
      ...) is found by [table[name]] in the sources and is not in the model;
      the properties of whole runs that rest on an unregistered name not
      being found are stated for a service that asks for no such name
      ([plain_names]).
    - [while (iteration < LIMIT) { iteration++; ... }] is a structural
      recursion on [LIMIT - iteration], the number of iterations the
      condition still admits.  Where the source fixes the ceiling by a
      constant, the model takes it as an argument ([..._with]) and the
      source's function is the instance at that constant.
    - A function of the sources that returns nothing still has a local
      [messages]; the model returns its final value.
    - Turning a value into text (a template literal, [String(v)], a property
      key, [join]) is [to_text]: the runtime's [ToString], or a TypeError
      for a value that holds an object with an own [toString] property,
      which the conversion cannot call.  [eval] may throw any value.
    - Texts are byte sequences in UTF-8; [trim] removes the white space of
      ECMAScript, whose characters take one, two or three bytes.

    01-basic-call.ts and 02-with-tool.ts send a single request and have no
    loop; they are not embedded. *)

From Stdlib Require Import String Ascii List ZArith Lia Bool.
From stdpp Require Import base option list gmap strings.

Local Open Scope string_scope.
Local Open Scope list_scope.

(* ================================================================== *)
(** * JavaScript values and errors *)
(* ================================================================== *)

(** The result of [JSON.parse].  [undefined] is not a JSON value: a value
    that may be [undefined] has type [option JValue]. *)
#[warnings="-register-all"]
Inductive JValue : Type :=
| JNull
| JBool (b : bool)
| JNum (n : Z)
| JStr (s : string)
| JArr (items : list JValue)
| JObj (fields : list (string * JValue)).

(** What a [catch (e: any)] clause of the sources looks at. *)
Record JsError : Type := mkError {
  e_name : string;
  e_message : string;
  e_stderr : option string
}.

Definition TypeError (msg : string) : JsError := mkError "TypeError" msg None.
Definition SyntaxError (msg : string) : JsError := mkError "SyntaxError" msg None.

Inductive Completion (A : Type) : Type :=
| Normal (a : A)
| Throw (e : JsError).
Arguments Normal {A} a.
Arguments Throw {A} e.

(** The own property [k] of an object literal; a later duplicate key wins. *)
Definition own (k : string) (fields : list (string * JValue)) : option JValue :=
  fold_left (fun acc kv => if String.eqb k (fst kv) then Some (snd kv) else acc)
            fields None.

(** [v.k]: reading a property of [null] throws, an object gives its own
    property, any other value gives [undefined]. *)
Definition prop (v : JValue) (k : string) : Completion (option JValue) :=
  match v with
  | JNull => Throw (TypeError "Cannot read properties of null")
  | JObj fields => Normal (own k fields)
  | _ => Normal None
  end.

(** [x || y] on strings that may be undefined: the empty string is falsy. *)
Definition or_else (x : option string) (y : string) : string :=
  match x with
  | Some s => if String.eqb s "" then y else s
  | None => y
  end.

(** The double quote, for the texts that contain one. *)
Definition dq : string := String (ascii_of_nat 34) EmptyString.

Definition is_nullish (v : option JValue) : bool :=
  match v with
  | None | Some JNull => true
  | Some _ => false
  end.

(** Whether a template literal, [String(v)], a property key or
    [Array.prototype.join] can turn the value into text.  The conversion of
    an object calls its [toString]: a value read by [JSON.parse] has the
    inherited one, unless it has an own property of that name, which is
    data and cannot be called; the conversion then throws a TypeError
    (the inherited [valueOf] returns the object itself).  An array is
    converted by joining the texts of its items. *)
Fixpoint convertible (v : JValue) : bool :=
  match v with
  | JArr items => forallb convertible items
  | JObj fields =>
      match own "toString" fields with
      | None => true
      | Some _ => false
      end
  | _ => true
  end.

(** The same for a value that may be [undefined]. *)
Definition stringable (v : option JValue) : bool :=
  match v with
  | Some x => convertible x
  | None => true
  end.

(** No object inside the value has a property named [toString]: the value
    and every value read from it can be turned into text. *)
Fixpoint tame (v : JValue) : bool :=
  match v with
  | JArr items => forallb tame items
  | JObj fields =>
      forallb (fun kv => negb (String.eqb "toString" (fst kv)) && tame (snd kv)) fields
  | _ => true
  end.

(** The properties of [Object.prototype]: [table[name]] finds them in every
    object literal, although the literal does not list them. *)
Definition inherited : list string :=
  ["constructor"; "hasOwnProperty"; "isPrototypeOf"; "propertyIsEnumerable";
   "toLocaleString"; "toString"; "valueOf"; "__proto__";
   "__defineGetter__"; "__defineSetter__"; "__lookupGetter__"; "__lookupSetter__"].

Definition is_inherited (name : string) : bool :=
  existsb (String.eqb name) inherited.

(* ================================================================== *)
(** * String helpers: trim and the code-fence removal of createPlan *)
(* ================================================================== *)

(** Texts are sequences of bytes in UTF-8.  [String.prototype.trim] removes
    the white space and the line terminators of ECMAScript: U+0009 to
    U+000D and U+0020, which take one byte, and U+00A0, U+1680, U+2000 to
    U+200A, U+2028, U+2029, U+202F, U+205F, U+3000 and U+FEFF, which take
    two or three. *)
Definition is_space (c : ascii) : bool :=
  let n := nat_of_ascii c in
  (Nat.eqb n 32) || ((Nat.leb 9 n) && (Nat.leb n 13)).

(** The three bytes are one of the white-space characters from U+1680 on. *)
Definition wide_space (a b c : ascii) : bool :=
  let n := nat_of_ascii a in
  let m := nat_of_ascii b in
  let k := nat_of_ascii c in
  ((Nat.eqb n 225) && (Nat.eqb m 154) && (Nat.eqb k 128)) ||
  ((Nat.eqb n 226) && (Nat.eqb m 128) &&
   (((Nat.leb 128 k) && (Nat.leb k 138)) || (Nat.eqb k 168) || (Nat.eqb k 169)
    || (Nat.eqb k 175))) ||
  ((Nat.eqb n 226) && (Nat.eqb m 129) && (Nat.eqb k 159)) ||
  ((Nat.eqb n 227) && (Nat.eqb m 128) && (Nat.eqb k 128)) ||
  ((Nat.eqb n 239) && (Nat.eqb m 187) && (Nat.eqb k 191)).

(** The number of bytes of the white-space character at the head of the
    text, [0] when the text does not start with one. *)
Definition space_width (s : string) : nat :=
  match s with
  | String a rest =>
      if is_space a then 1
      else
        match rest with
        | String b rest' =>
            if (Nat.eqb (nat_of_ascii a) 194) && (Nat.eqb (nat_of_ascii b) 160) then 2
            else
              match rest' with
              | String c _ => if wide_space a b c then 3 else 0
              | EmptyString => 0
              end
        | EmptyString => 0
        end
  | EmptyString => 0
  end.

(** Drop [skip] bytes, then the white space at the head of what is left. *)
Fixpoint drop_space (skip : nat) (s : string) : string :=
  match s with
  | EmptyString => EmptyString
  | String _ rest =>
      match skip with
      | S k => drop_space k rest
      | O =>
          match space_width s with
          | O => s
          | S k => drop_space k rest
          end
      end
  end.

Definition trimStart (s : string) : string := drop_space 0 s.

(** The text is white space only. *)
Definition blank (s : string) : bool :=
  match trimStart s with
  | EmptyString => true
  | String _ _ => false
  end.

(** Cut the text where what is left of it is white space only. *)
Fixpoint trimEnd (s : string) : string :=
  match s with
  | EmptyString => EmptyString
  | String c rest => if blank s then EmptyString else String c (trimEnd rest)
  end.

Definition trim (s : string) : string := trimStart (trimEnd s).

Definition newline : ascii := ascii_of_nat 10.

(** Whether the text that follows a match of [p] at the head of [s] starts
    with a line feed (the optional [\n] of the two regular expressions). *)
Definition newline_follows (p s : string) : bool :=
  match String.get (String.length p) s with
  | Some c => Ascii.eqb c newline
  | None => false
  end.

(** [s.replace(/p\n?/g, "")] for a literal [p]: scan from the left, drop each
    occurrence of [p] and one line feed right after it, and resume after the
    dropped text.  [skip] counts the characters of the current match that
    are still to be dropped. *)
Fixpoint remove_from (p : string) (skip : nat) (s : string) : string :=
  match s with
  | EmptyString => EmptyString
  | String c rest =>
      match skip with
      | S k => remove_from p k rest
      | O =>
          if String.prefix p s
          then remove_from p
                 (String.length p - 1 + (if newline_follows p s then 1 else 0))
                 rest
          else String c (remove_from p 0 rest)
      end
  end.

Definition remove_all (p s : string) : string := remove_from p 0 s.

Definition fence : string := "```".
Definition fence_json : string := "```json".

(** [text.replace(/```json\n?/g, "").replace(/```\n?/g, "").trim()]
    (06-planning.ts line 165, 07-adaptive-agent.ts line 183). *)
Definition cleanJson (text : string) : string :=
  trim (remove_all fence (remove_all fence_json text)).

Definition backtick : ascii := ascii_of_nat 96.

(** [s] does not contain the character [c]. *)
Fixpoint free_of (c : ascii) (s : string) : bool :=
  match s with
  | EmptyString => true
  | String a rest => negb (Ascii.eqb a c) && free_of c rest
  end.

(** A text wrapped the way chat models wrap JSON: the opening fence with
    its language tag on a line, the text, the closing fence on a line. *)
Definition fenced (body : string) : string :=
  fence_json +:+ String newline (body +:+ String newline fence).

(* ================================================================== *)
(** * Transcript *)
(* ================================================================== *)

Record ToolCall : Type := mkCall {
  tc_id : string;
  tc_name : string;
  tc_arguments : string        (* toolCall.function.arguments, JSON text *)
}.

(** [response.choices[0].message]. *)
Record AssistantMessage : Type := mkAssistant {
  content : option string;               (* string | null *)
  tool_calls : option (list ToolCall)    (* absent, or an array *)
}.

(** The replan section createPlan appends to its prompt: the previous plan
    and the two joined lists. *)
Record ReplanSection : Type := mkReplanSection {
  rs_previousPlan : JValue;
  rs_completed : string;
  rs_discoveries : string
}.

(** The content of a [system] turn.  The instruction texts are fixed
    templates; only the values spliced into them are kept. *)
Inductive SystemPrompt : Type :=
| StaticPrompt (source : string)                 (* 03, 04, 06 react, 08 *)
| CustomPrompt (text : string)                   (* 08: the caller's prompt *)
| SkillsPrompt (skills : list (string * string)) (* 05: name and description *)
| PlannerPrompt (replan : option ReplanSection)  (* 06 and 07, planning *)
| ExecutorPrompt (plan : JValue).                (* 06 and 07, execution *)

Inductive Message : Type :=
| MSystem (prompt : SystemPrompt)
| MUser (text : string)
| MAssistant (message : AssistantMessage)
| MTool (tool_call_id : string) (result : string).

(** An entry of a [tools] array: the declared function name and its
    required parameters (descriptions and parameter types are left out). *)
Record Tool : Type := mkTool {
  fn_name : string;
  fn_required : list string
}.

(** The argument of [client.chat.completions.create]. *)
Record Request : Type := mkRequest {
  rq_messages : list Message;
  rq_tools : list Tool      (* [] when the request has no [tools] key *)
}.

(** [message.tool_calls], with an absent array read as empty: the loops
    test [!message.tool_calls?.length] before they iterate. *)
Definition calls (m : AssistantMessage) : list ToolCall :=
  match tool_calls m with
  | Some l => l
  | None => []
  end.

Definition no_calls (m : AssistantMessage) : bool :=
  match calls m with
  | [] => true
  | _ :: _ => false
  end.

(* ================================================================== *)
(** * The outside world, the trace and the monad *)
(* ================================================================== *)

(** Everything the examples reach through an import or a global. *)
(** What [eval] throws: an Error object, or any other value (as far as it
    is JSON data or [undefined]). *)
Inductive Thrown : Type :=
| ThrownError (e : JsError)
| ThrownValue (v : option JValue).

Record Env : Type := mkEnv {
  World : Type;
  (** [(await client.chat.completions.create(request)).choices[0].message] *)
  chat_create : Request -> World -> AssistantMessage * World;
  (** [JSON.parse]; [None] when it throws a SyntaxError *)
  JSON_parse : string -> option JValue;
  (** [execSync(command, { encoding: "utf-8", timeout })]; the timeout in
      milliseconds, absent in 05's list_dir *)
  execSync : option JValue -> option N -> World -> (JsError + string) * World;
  (** [readFileSync(path, "utf-8")] *)
  readFileSync : option JValue -> World -> JsError + string;
  (** [writeFileSync(path, content, "utf-8")] *)
  writeFileSync : option JValue -> option JValue -> World -> (JsError + unit) * World;
  (** [existsSync(path)] *)
  existsSync : option JValue -> World -> bool;
  (** 08's [ask(question)]: the trimmed line the user types *)
  ask : string -> World -> string * World;
  (** [new Date().toLocaleTimeString("ru-RU")] *)
  toLocaleTimeString : World -> string;
  (** the text a template literal gives for an interpolated value, for
      the values whose conversion does not throw ([stringable]) *)
  ToString : option JValue -> string;
  (** [s.length] of a string, in UTF-16 code units *)
  utf16_length : string -> nat;
  (** [s.toLowerCase()] *)
  toLowerCase : string -> string;
  (** [parseInt(s)]; [None] for NaN *)
  parseInt : string -> option Z;
  (** [eval(expression)] of 05's calculate *)
  js_eval : option JValue -> World -> (Thrown + option JValue) * World
}.

(** One [console.log] statement of the sources (consecutive statements of
    one branch are one line here); the values it prints, not the rendered
    text. *)
Inductive Line : Type :=
| LIteration (iteration : nat)            (* --- Итерация i --- *)
| LTool (name : string) (args : JValue)   (* Tool: name(args) / 🔧 name(...) *)
| LResult (result : string)               (* Результат: ... / → ... *)
| LAnswer (content : option string)       (* Агент завершил работу. Ответ: ... *)
| LLimit                                  (* Достигнут лимит итераций! *)
| LThought (thought : option JValue)      (* 💭 ... *)
| LReplan (reason : option JValue)        (* 🔄 РЕПЛАН: ... *)
| LExecuted (iteration : nat) (content : option string)
                                          (* ✅ Выполнение завершено (i итераций) Итог: ... *)
| LBanner (task : string)                 (* ADAPTIVE AGENT banner, 📌 Задача *)
| LPlan (isReplan : bool) (plan : JValue) (* printPlan *)
| LAttempt (version : nat)                (* ⚡ ВЫПОЛНЕНИЕ (план vN) *)
| LAgentDone                              (* 🎉 Агент завершил задачу. *)
| LReplanLimit                            (* ⚠️ Достигнут лимит репланов. ... *)
| LReplanning (replanCount : nat)         (* 📋 РЕПЛАН #n... *)
| LPlanUnparsed (planText : string)       (* ❌ Не удалось распарсить план: ... *)
| LPhase (phase : nat)                    (* 06: banner and phase headers *)
| LGoal (plan : JValue)                   (* 06: 🎯 Цель, then 📝 Шагов and the steps *)
| LSay (content : option string)          (* 08: 🤖 ... *)
| LWizard (what : string) (shown : list (option JValue))
                                          (* 08: what a wizard handler displays *)
| LBye.                                   (* 08: 👋 Завершено. *)

Inductive Event : Type :=
| EvRequest (request : Request)            (* a decision request *)
| EvInvoke (name : string) (args : JValue) (* a call of a handler *)
| EvLog (line : Line)                      (* console.log *)
| EvClose.                                 (* rl.close() *)

Section Monad.

Context {E : Env}.

Record Sys : Type := mkSys {
  world : World E;
  trace : list Event      (* oldest first *)
}.

Definition M (A : Type) : Type := Sys -> Completion A * Sys.

Definition ret {A : Type} (a : A) : M A := fun s => (Normal a, s).

Definition throw {A : Type} (e : JsError) : M A := fun s => (Throw e, s).

Definition bind {A B : Type} (m : M A) (k : A -> M B) : M B :=
  fun s =>
    match m s with
    | (Normal a, s') => k a s'
    | (Throw e, s') => (Throw e, s')
    end.

(** [try { m } catch (e) { h e }] *)
Definition try_catch {A : Type} (m : M A) (h : JsError -> M A) : M A :=
  fun s =>
    match m s with
    | (Normal a, s') => (Normal a, s')
    | (Throw e, s') => h e s'
    end.

Definition lift {A : Type} (c : Completion A) : M A := fun s => (c, s).

Definition emit (ev : Event) : M unit :=
  fun s => (Normal tt, mkSys (world s) (trace s ++ [ev])).

Definition log (l : Line) : M unit := emit (EvLog l).

(** A primitive that changes the world and may throw. *)
Definition effect {A : Type} (f : World E -> (JsError + A) * World E) : M A :=
  fun s =>
    match f (world s) with
    | (inr a, w) => (Normal a, mkSys w (trace s))
    | (inl e, w) => (Throw e, mkSys w (trace s))
    end.

(** A primitive that only looks at the world. *)
Definition observe {A : Type} (f : World E -> JsError + A) : M A :=
  fun s =>
    match f (world s) with
    | inr a => (Normal a, s)
    | inl e => (Throw e, s)
    end.

Definition parse (text : string) : M JValue :=
  match JSON_parse E text with
  | Some v => ret v
  | None => throw (SyntaxError "Unexpected token in JSON")
  end.

(** The decision request: recorded in the trace, answered by the world. *)
Definition create (request : Request) : M AssistantMessage :=
  fun s =>
    let (message, w) := chat_create E request (world s) in
    (Normal message, mkSys w (trace s ++ [EvRequest request])).

(** [({ k }) => ...]: destructuring the argument of a handler. *)
Definition destructure (args : JValue) (k : string) : M (option JValue) :=
  lift (prop args k).

(** [v.length] *)
Definition length_of (v : option JValue) : M (option JValue) :=
  match v with
  | None | Some JNull => throw (TypeError "Cannot read properties of undefined")
  | Some (JStr s) => ret (Some (JNum (Z.of_nat (utf16_length E s))))
  | Some (JArr items) => ret (Some (JNum (Z.of_nat (length items))))
  | Some (JObj fields) => ret (own "length" fields)
  | Some _ => ret None
  end.

(** [`${v}`] and [String(v)]: the text of the value, or a TypeError. *)
Definition to_text (v : option JValue) : M string :=
  if stringable v then ret (ToString E v)
  else throw (TypeError "Cannot convert object to primitive value").

Definition Handler : Type := JValue -> M string.

(** [toolHandlers[name]?.(args) ?? fallback]: every handler of the sources
    returns a string, so the fallback is taken exactly when the name has no
    entry.  The call is recorded in the trace.  The table holds the
    registered entries; what the sources find under a name of [inherited]
    is not modelled, and the properties that depend on it are stated for
    [plain_names]. *)
Definition invoke (handlers : gmap string Handler) (name : string)
    (args : JValue) (fallback : string) : M string :=
  match handlers !! name with
  | Some handler => bind (emit (EvInvoke name args)) (fun _ => handler args)
  | None => ret fallback
  end.

(** [for (const x of xs) { acc = body(x, acc) }] *)
Fixpoint for_each {A S : Type} (body : A -> S -> M S) (xs : list A) (acc : S) : M S :=
  match xs with
  | [] => ret acc
  | x :: rest => bind (body x acc) (for_each body rest)
  end.

End Monad.

Arguments Sys : clear implicits.
Arguments M : clear implicits.
Arguments Handler : clear implicits.

Notation "'let*' x ':=' m 'in' k" := (bind m (fun x => k))
  (at level 10, x name, m at level 100, k at level 200, only parsing).
Notation "m ';;' k" := (bind m (fun _ => k))
  (at level 100, k at level 200, right associativity, only parsing).

Definition error_text : string := "Ошибка: ".

(** [`Tool "${name}" не найден`] *)
Definition not_found (name : string) : string :=
  "Tool " +:+ dq +:+ name +:+ dq +:+ " не найден".

(* ================================================================== *)
(** * src/04-real-tools.ts *)
(* ================================================================== *)

Module F04.
Section Source.
Context {E : Env}.

Definition tools : list Tool :=
  [ mkTool "run_bash" ["command"]; mkTool "read_file" ["path"] ].

Definition run_bash : Handler E := fun args =>
  let* command := destructure args "command" in
  try_catch
    (let* out := effect (execSync E command (Some 5000%N)) in ret (trim out))
    (fun e => ret (error_text +:+ e_message e)).

Definition read_file : Handler E := fun args =>
  let* path := destructure args "path" in
  try_catch
    (observe (readFileSync E path))
    (fun e => ret (error_text +:+ e_message e)).

Definition toolHandlers : gmap string (Handler E) :=
  <["run_bash" := run_bash]> (<["read_file" := read_file]> ∅).

(** The body of [for (const toolCall of message.tool_calls)], lines 103-118. *)
Definition answer (toolCall : ToolCall) (messages : list Message) : M E (list Message) :=
  let name := tc_name toolCall in
  let* args := parse (tc_arguments toolCall) in
  log (LTool name args) ;;
  let* result := invoke toolHandlers name args (not_found name) in
  log (LResult result) ;;
  ret (messages ++ [MTool (tc_id toolCall) result]).

(** [while (iteration < LIMIT)], lines 84-119; [remaining = LIMIT - iteration].
    The function returns nothing; the model returns the final [messages]. *)
Fixpoint loop (remaining iteration : nat) (messages : list Message) : M E (list Message) :=
  match remaining with
  | O => ret messages
  | S remaining' =>
      let iteration := S iteration in
      log (LIteration iteration) ;;
      let* message := create (mkRequest messages tools) in
      let messages := messages ++ [MAssistant message] in
      if no_calls message
      then log (LAnswer (content message)) ;; ret messages
      else
        let* messages := for_each answer (calls message) messages in
        loop remaining' iteration messages
  end.

Definition agentLoop_with (LIMIT : nat) (userMessage : string) : M E (list Message) :=
  loop LIMIT 0 [MSystem (StaticPrompt "04"); MUser userMessage].

Definition agentLoop : string -> M E (list Message) := agentLoop_with 10.

End Source.
End F04.

(* ================================================================== *)
(** * src/03-agent-loop.ts *)
(* ================================================================== *)

(** What a function of the sources hands back: [undefined] when it ends
    without a value, or the [message.content] it returns. *)
Inductive Returned : Type :=
| Undefined
| Value (content : option string).

Module F03.
Section Source.
Context {E : Env}.

Definition tools : list Tool :=
  [ mkTool "get_weather" ["city"]; mkTool "get_time" ["city"] ].

(** [data[city] ?? `Нет данных для ${city}`]: the key is the text of [city].
    Under a key of [inherited] the source finds a member of
    [Object.prototype], which is no text; the model gives the text for a
    city without data, and no property below rests on what that text is. *)
Definition get_weather : Handler E := fun args =>
  let* city := destructure args "city" in
  let* key := to_text city in
  if String.eqb key "Москва" then ret "−5°C, снег"
  else if String.eqb key "Анапа" then ret "+8°C, облачно"
  else ret ("Нет данных для " +:+ key).

Definition get_time : Handler E := fun args =>
  let* city := destructure args "city" in
  let* place := to_text city in
  let* now := observe (fun w => inr (toLocaleTimeString E w)) in
  ret ("Сейчас в " +:+ place +:+ ": " +:+ now).

Definition toolHandlers : gmap string (Handler E) :=
  <["get_weather" := get_weather]> (<["get_time" := get_time]> ∅).

(** [`Ошибка: tool "${name}" не найден`] *)
Definition unknown_tool (name : string) : string :=
  error_text +:+ "tool " +:+ dq +:+ name +:+ dq +:+ " не найден".

(** The body of [for (const toolCall of message.tool_calls)], lines 525-544. *)
Definition answer (toolCall : ToolCall) (messages : list Message) : M E (list Message) :=
  let name := tc_name toolCall in
  let* args := parse (tc_arguments toolCall) in
  log (LTool name args) ;;
  let* result := invoke toolHandlers name args (unknown_tool name) in
  log (LResult result) ;;
  ret (messages ++ [MTool (tc_id toolCall) result]).

(** [while (iteration < MAX_ITERATIONS)], lines 502-548, with the statement
    after the loop; [remaining = MAX_ITERATIONS - iteration].  The result is
    paired with the final value of the local [messages]. *)
Fixpoint loop (remaining iteration : nat) (messages : list Message)
    : M E (Returned * list Message) :=
  match remaining with
  | O => log LLimit ;; ret (Undefined, messages)
  | S remaining' =>
      let iteration := S iteration in
      log (LIteration iteration) ;;
      let* message := create (mkRequest messages tools) in
      let messages := messages ++ [MAssistant message] in
      if no_calls message
      then log (LAnswer (content message)) ;; ret (Value (content message), messages)
      else
        let* messages := for_each answer (calls message) messages in
        loop remaining' iteration messages
  end.

Definition agentLoop_with (MAX_ITERATIONS : nat) (userMessage : string)
    : M E (Returned * list Message) :=
  loop MAX_ITERATIONS 0 [MSystem (StaticPrompt "03"); MUser userMessage].

Definition agentLoop : string -> M E (Returned * list Message) := agentLoop_with 10.

End Source.
End F03.

(* ================================================================== *)
(** * src/07-adaptive-agent.ts *)
(* ================================================================== *)

Inductive Status : Type := completed | replan_requested.

Record ReplanContext : Type := mkReplanContext {
  reason : option JValue;
  completedSteps : option JValue;
  discoveries : option JValue
}.

Record ExecutionResult : Type := mkResult {
  status : Status;
  replanContext : option ReplanContext
}.

(** The optional second argument of createPlan. *)
Record PlanContext : Type := mkPlanContext {
  previousPlan : option JValue;
  pc_completedSteps : option JValue;
  pc_discoveries : option JValue
}.

(** How adaptiveAgent ended: its two [return] statements, or the end of its
    body.  The function itself returns nothing. *)
Inductive Terminal : Type := Done | Aborted | LoopExit.

(** Truthiness of a JSON value. *)
Definition truthy (v : JValue) : bool :=
  match v with
  | JNull => false
  | JBool b => b
  | JNum n => negb (Z.eqb n 0)
  | JStr s => negb (String.eqb s "")
  | JArr _ | JObj _ => true
  end.

Module F07.
Section Source.
Context {E : Env}.

Definition executionTools : list Tool :=
  [ mkTool "think" ["thought"];
    mkTool "run_bash" ["command"];
    mkTool "read_file" ["path"];
    mkTool "write_file" ["path"; "content"];
    mkTool "request_replan" ["reason"; "completed_steps"; "discoveries"] ].

Definition think : Handler E := fun _ => ret "OK".

Definition run_bash : Handler E := fun args =>
  let* command := destructure args "command" in
  try_catch
    (let* out := effect (execSync E command (Some 10000%N)) in ret (trim out))
    (fun e => ret (error_text +:+ or_else (e_stderr e) (e_message e))).

Definition read_file : Handler E := fun args =>
  let* path := destructure args "path" in
  try_catch
    (observe (readFileSync E path))
    (fun e => ret (error_text +:+ e_message e)).

Definition write_file : Handler E := fun args =>
  let* path := destructure args "path" in
  let* content := destructure args "content" in
  try_catch
    (effect (writeFileSync E path content) ;;
     let* shown := to_text path in
     let* len := length_of content in
     let* bytes := to_text len in
     ret ("✅ Файл " +:+ shown +:+ " записан (" +:+ bytes +:+ " байт)"))
    (fun e => ret (error_text +:+ e_message e)).

Definition request_replan : Handler E := fun _ => ret "REPLAN_REQUESTED".

Definition toolHandlers : gmap string (Handler E) :=
  <["think" := think]> (<["run_bash" := run_bash]> (<["read_file" := read_file]>
  (<["write_file" := write_file]> (<["request_replan" := request_replan]> ∅)))).

(** [xs?.join(sep) || fallback] of createPlan: nothing to join when [xs] is
    nullish, a TypeError when it is not an array or when an item cannot be
    turned into text; [null] items join as empty text. *)
Definition join_or (xs : option JValue) (sep fallback : string) : M E string :=
  match xs with
  | None | Some JNull => ret fallback
  | Some (JArr items) =>
      if forallb convertible items
      then
        let text := String.concat sep
          (map (fun v => match v with JNull => "" | _ => ToString E (Some v) end) items) in
        ret (or_else (Some text) fallback)
      else throw (TypeError "Cannot convert object to primitive value")
  | Some _ => throw (TypeError "join is not a function")
  end.

(** Lines 145-185. *)
Definition createPlan (task : string) (context : option PlanContext) : M E JValue :=
  let* replan :=
    match context with
    | Some c =>
        match previousPlan c with
        | Some p =>
            if truthy p
            then
              let* done := join_or (pc_completedSteps c) ", " "ничего" in
              let* found := join_or (pc_discoveries c) "; " "нет" in
              ret (Some (mkReplanSection p done found))
            else ret None
        | None => ret None
        end
    | None => ret None
    end in
  let* message := create (mkRequest [MSystem (PlannerPrompt replan); MUser task] []) in
  let text := match content message with Some t => t | None => "" end in
  parse (cleanJson text).

(** The callback of [plan.steps.forEach], lines 191-194 (and lines 175-178
    of 06): the step must not be null, and its [id], [tool], [action] and
    [reason] are turned into text. *)
Definition printStep (step : JValue) : M E unit :=
  let* id := lift (prop step "id") in
  to_text id ;;
  let* tool := lift (prop step "tool") in
  to_text tool ;;
  let* action := lift (prop step "action") in
  to_text action ;;
  let* why := lift (prop step "reason") in
  to_text why ;;
  ret tt.

(** Lines 187-196: [plan.goal] needs a plan that is not null and is turned
    into text, [plan.steps.forEach] needs an array. *)
Definition printPlan (plan : JValue) (isReplan : bool) : M E unit :=
  let* goal := lift (prop plan "goal") in
  to_text goal ;;
  log (LPlan isReplan plan) ;;
  let* steps := lift (prop plan "steps") in
  match steps with
  | Some (JArr items) => for_each (fun step _ => printStep step) items tt
  | _ => throw (TypeError "plan.steps.forEach is not a function")
  end.

(** Lines 284-288: the preview of a write_file call turns [args.path] into
    text, reads [args.content.length] and turns it into text. *)
Definition argsPreview (name : string) (args : JValue) : M E unit :=
  if String.eqb name "write_file"
  then
    let* path := lift (prop args "path") in
    to_text path ;;
    let* text := lift (prop args "content") in
    let* len := length_of text in
    to_text len ;;
    ret tt
  else ret tt.

(** What one pass through the body of the [for] loop does next. *)
Inductive Flow : Type :=
| Next (messages : list Message)                              (* go on with the next call *)
| Return (messages : list Message) (result : ExecutionResult). (* [return] from the function *)

(** The body of [for (const toolCall of message.tool_calls)], lines 261-299.
    The three branches come first; the [messages.push] of lines 294-298 is
    shared by the branches that do not return. *)
Definition answer (toolCall : ToolCall) (messages : list Message) : M E Flow :=
  let name := tc_name toolCall in
  let* args := parse (tc_arguments toolCall) in
  let* returned :=
    if String.eqb name "think"
    then
      let* thought := lift (prop args "thought") in
      to_text thought ;;
      log (LThought thought) ;;
      ret None
    else if String.eqb name "request_replan"
    then
      let* why := lift (prop args "reason") in
      to_text why ;;
      log (LReplan why) ;;
      let messages := messages ++ [MTool (tc_id toolCall) "REPLAN_REQUESTED"] in
      let* steps := lift (prop args "completed_steps") in
      let* found := lift (prop args "discoveries") in
      ret (Some (Return messages
                   (mkResult replan_requested (Some (mkReplanContext why steps found)))))
    else
      argsPreview name args ;;
      log (LTool name args) ;;
      let* result := invoke toolHandlers name args (not_found name) in
      log (LResult result) ;;
      ret None in
  match returned with
  | Some flow => ret flow
  | None =>
      let* text := invoke toolHandlers name args "OK" in
      ret (Next (messages ++ [MTool (tc_id toolCall) text]))
  end.

Fixpoint for_calls (toolCalls : list ToolCall) (messages : list Message) : M E Flow :=
  match toolCalls with
  | [] => ret (Next messages)
  | toolCall :: rest =>
      let* flow := answer toolCall messages in
      match flow with
      | Next messages => for_calls rest messages
      | Return messages result => ret (Return messages result)
      end
  end.

(** [while (iteration < LIMIT)], lines 243-302, with the [return] after the
    loop; [remaining = LIMIT - iteration].  The result is paired with the
    final value of the local [messages]. *)
Fixpoint loop (remaining iteration : nat) (messages : list Message)
    : M E (ExecutionResult * list Message) :=
  match remaining with
  | O => ret (mkResult completed None, messages)
  | S remaining' =>
      let iteration := S iteration in
      let* message := create (mkRequest messages executionTools) in
      let messages := messages ++ [MAssistant message] in
      if no_calls message
      then
        log (LExecuted iteration (content message)) ;;
        ret (mkResult completed None, messages)
      else
        let* flow := for_calls (calls message) messages in
        match flow with
        | Next messages => loop remaining' iteration messages
        | Return messages result => ret (result, messages)
        end
  end.

Definition executeWithReact_with (LIMIT : nat) (task : string) (plan : JValue)
    : M E (ExecutionResult * list Message) :=
  loop LIMIT 0 [MSystem (ExecutorPrompt plan); MUser task].

Definition executeWithReact : string -> JValue -> M E (ExecutionResult * list Message) :=
  executeWithReact_with 20.

(** [while (replanCount <= MAX_REPLANS)], lines 321-345;
    [remaining = MAX_REPLANS + 1 - replanCount]. *)
Fixpoint attempts (MAX_REPLANS remaining replanCount : nat) (task : string) (plan : JValue)
    : M E Terminal :=
  match remaining with
  | O => ret LoopExit
  | S remaining' =>
      log (LAttempt (replanCount + 1)) ;;
      let* outcome := executeWithReact task plan in
      let result := fst outcome in
      match status result with
      | completed => log LAgentDone ;; ret Done
      | replan_requested =>
          let replanCount := S replanCount in
          if Nat.ltb MAX_REPLANS replanCount
          then log LReplanLimit ;; ret Aborted
          else
            log (LReplanning replanCount) ;;
            let* plan' := createPlan task
              (Some (mkPlanContext (Some plan)
                       (match replanContext result with
                        | Some c => completedSteps c | None => None end)
                       (match replanContext result with
                        | Some c => discoveries c | None => None end))) in
            printPlan plan' true ;;
            attempts MAX_REPLANS remaining' replanCount task plan'
      end
  end.

Definition adaptiveAgent_with (MAX_REPLANS : nat) (task : string) : M E Terminal :=
  log (LBanner task) ;;
  let* plan := createPlan task None in
  printPlan plan false ;;
  attempts MAX_REPLANS (MAX_REPLANS + 1) 0 task plan.

Definition adaptiveAgent : string -> M E Terminal := adaptiveAgent_with 3.

(** Lines 352-359: [process.argv[2] || "..."], then the call. *)
Definition default_task : string :=
  "Проанализируй все .ts файлы в директории src/. " +:+
  "Найди дублирование кода между файлами (общие паттерны, " +:+
  "повторяющиеся импорты, похожие функции). " +:+
  "Создай файл REFACTORING.md с конкретными рекомендациями.".

Definition start (argument : option string) : M E Terminal :=
  adaptiveAgent (or_else argument default_task).

End Source.
End F07.

(* ================================================================== *)
(** * src/05-skills.ts *)
(* ================================================================== *)

Module F05.
Section Source.
Context {E : Env}.

Record Skill : Type := mkSkill {
  name : string;
  description : string;
  tools : list Tool;
  handlers : gmap string (Handler E)
}.

Definition read_file : Handler E := fun args =>
  let* path := destructure args "path" in
  try_catch (observe (readFileSync E path))
            (fun e => ret (error_text +:+ e_message e)).

Definition write_file : Handler E := fun args =>
  let* path := destructure args "path" in
  let* text := destructure args "content" in
  try_catch (effect (writeFileSync E path text) ;;
             let* shown := to_text path in
             ret ("Файл " +:+ shown +:+ " записан"))
            (fun e => ret (error_text +:+ e_message e)).

Definition list_dir : Handler E := fun args =>
  let* path := destructure args "path" in
  try_catch (let* shown := to_text path in
             effect (execSync E (Some (JStr ("ls -la " +:+ shown))) None))
            (fun e => ret (error_text +:+ e_message e)).

Definition filesystemSkill : Skill :=
  mkSkill "filesystem"
    "Умеешь работать с файлами: читать, писать, просматривать директории."
    [ mkTool "read_file" ["path"]; mkTool "write_file" ["path"; "content"];
      mkTool "list_dir" ["path"] ]
    (<["read_file" := read_file]> (<["write_file" := write_file]>
     (<["list_dir" := list_dir]> ∅))).

Definition run_bash : Handler E := fun args =>
  let* command := destructure args "command" in
  try_catch (let* out := effect (execSync E command (Some 5000%N)) in ret (trim out))
            (fun e => ret (error_text +:+ e_message e)).

Definition bashSkill : Skill :=
  mkSkill "bash" "Умеешь выполнять bash-команды в терминале."
    [ mkTool "run_bash" ["command"] ]
    (<["run_bash" := run_bash]> ∅).

(** [eval(expression)]: its value, or what it throws. *)
Definition evaluate (expression : option JValue) : M E (Thrown + option JValue) :=
  fun s => let (outcome, w) := js_eval E expression (world s) in
           (Normal outcome, mkSys w (trace s)).

(** [`${e.message}`] in the [catch] clause of calculate, for what was
    thrown: reading a property of [null] or [undefined] throws. *)
Definition thrown_message (thrown : Thrown) : M E string :=
  match thrown with
  | ThrownError e => ret (e_message e)
  | ThrownValue None => throw (TypeError "Cannot read properties of undefined")
  | ThrownValue (Some v) =>
      let* message := lift (prop v "message") in
      to_text message
  end.

(** Lines 137-140: [try { return String(eval(expression)); }
    catch (e) { return `Ошибка: ${e.message}`; }]. *)
Definition calculate : Handler E := fun args =>
  let* expression := destructure args "expression" in
  let* outcome := evaluate expression in
  match outcome with
  | inr v => try_catch (to_text v) (fun e => ret (error_text +:+ e_message e))
  | inl thrown =>
      let* message := thrown_message thrown in
      ret (error_text +:+ message)
  end.

Definition mathSkill : Skill :=
  mkSkill "math" "Умеешь вычислять математические выражения."
    [ mkTool "calculate" ["expression"] ]
    (<["calculate" := calculate]> ∅).

(** [Object.assign(target, source)]: the properties of [source] are written
    over those of [target]. *)
Definition assign (target source : gmap string (Handler E)) : gmap string (Handler E) :=
  source ∪ target.

(** What the closure [run] captures. *)
Record Agent : Type := mkAgent {
  allTools : list Tool;
  allHandlers : gmap string (Handler E);
  systemPrompt : SystemPrompt
}.

(** Lines 145-157. *)
Definition createAgent (skills : list Skill) : Agent :=
  mkAgent
    (flat_map tools skills)
    (fold_left assign (map handlers skills) ∅)
    (SkillsPrompt (map (fun s => (name s, description s)) skills)).

Definition answer (agent : Agent) (toolCall : ToolCall) (messages : list Message)
    : M E (list Message) :=
  let name := tc_name toolCall in
  let* args := parse (tc_arguments toolCall) in
  log (LTool name args) ;;
  let* result := invoke (allHandlers agent) name args (not_found name) in
  log (LResult result) ;;
  ret (messages ++ [MTool (tc_id toolCall) result]).

(** [while (iteration < 10)] of [run], lines 167-200. *)
Fixpoint loop (agent : Agent) (remaining iteration : nat) (messages : list Message)
    : M E (Returned * list Message) :=
  match remaining with
  | O => ret (Undefined, messages)
  | S remaining' =>
      let iteration := S iteration in
      log (LIteration iteration) ;;
      let* message := create (mkRequest messages (allTools agent)) in
      let messages := messages ++ [MAssistant message] in
      if no_calls message
      then log (LAnswer (content message)) ;; ret (Value (content message), messages)
      else
        let* messages := for_each (answer agent) (calls message) messages in
        loop agent remaining' iteration messages
  end.

Definition run (agent : Agent) (userMessage : string) : M E (Returned * list Message) :=
  loop agent 10 0 [MSystem (systemPrompt agent); MUser userMessage].

(** Lines 205-215: the agent of [main], and its run. *)
Definition agent : Agent := createAgent [filesystemSkill; bashSkill; mathSkill].

Definition main : M E (Returned * list Message) :=
  run agent
    ("Посмотри файлы проекта в текущей директории, " +:+
     "посчитай общее количество строк кода во всех .ts файлах в src/, " +:+
     "и создай файл STATS.md с результатами анализа.").

End Source.
End F05.

(* ================================================================== *)
(** * src/06-planning.ts *)
(* ================================================================== *)

Module F06.
Section Source.
Context {E : Env}.

Definition tools : list Tool :=
  [ mkTool "think" ["thought"];
    mkTool "run_bash" ["command"];
    mkTool "read_file" ["path"];
    mkTool "write_file" ["path"; "content"] ].

Definition think : Handler E := fun args =>
  let* _thought := destructure args "thought" in
  ret "OK".

(** run_bash, read_file and write_file are written out in 06 exactly as in
    07 (lines 92-113 here, lines 111-132 there). *)
Definition toolHandlers : gmap string (Handler E) :=
  <["think" := think]> (<["run_bash" := F07.run_bash]> (<["read_file" := F07.read_file]>
  (<["write_file" := F07.write_file]> ∅))).

(** Lines 219-237. *)
Definition answer (toolCall : ToolCall) (messages : list Message) : M E (list Message) :=
  let name := tc_name toolCall in
  let* args := parse (tc_arguments toolCall) in
  F07.argsPreview name args ;;
  log (LTool name args) ;;
  let* result := invoke toolHandlers name args (not_found name) in
  log (LResult result) ;;
  ret (messages ++ [MTool (tc_id toolCall) result]).

(** [while (iteration < 15)] of planThenExecute, lines 200-238. *)
Fixpoint loop (remaining iteration : nat) (messages : list Message) : M E (list Message) :=
  match remaining with
  | O => ret messages
  | S remaining' =>
      let iteration := S iteration in
      log (LIteration iteration) ;;
      let* message := create (mkRequest messages tools) in
      let messages := messages ++ [MAssistant message] in
      if no_calls message
      then log (LAnswer (content message)) ;; ret messages
      else
        let* messages := for_each answer (calls message) messages in
        loop remaining' iteration messages
  end.

(** Lines 173-178: [plan.goal], [plan.steps.length] and
    [plan.steps.forEach], each value printed being turned into text. *)
Definition showPlan (plan : JValue) : M E unit :=
  let* goal := lift (prop plan "goal") in
  to_text goal ;;
  log (LGoal plan) ;;
  let* steps := lift (prop plan "steps") in
  let* count := length_of steps in
  to_text count ;;
  match steps with
  | Some (JArr items) => for_each (fun step _ => F07.printStep step) items tt
  | _ => throw (TypeError "plan.steps.forEach is not a function")
  end.

(** Lines 121-239.  The function returns nothing; the model returns the
    final [messages] of the execution phase, or [None] when it returned
    before creating them. *)
Definition planThenExecute (userMessage : string) : M E (option (list Message)) :=
  log (LPhase 1) ;;
  let* planResponse := create (mkRequest [MSystem (PlannerPrompt None); MUser userMessage] []) in
  let planText := match content planResponse with Some t => t | None => "" end in
  let* parsed :=
    try_catch (let* plan := parse (cleanJson planText) in ret (Some plan))
              (fun _ => log (LPlanUnparsed planText) ;; ret None) in
  match parsed with
  | None => ret None
  | Some plan =>
      showPlan plan ;;
      log (LPhase 2) ;;
      let* messages := loop 15 0 [MSystem (ExecutorPrompt plan); MUser userMessage] in
      ret (Some messages)
  end.

(** The body of the [for] loop of reactAgent, lines 295-326. *)
Definition react_answer (toolCall : ToolCall) (messages : list Message) : M E (list Message) :=
  let name := tc_name toolCall in
  let* args := parse (tc_arguments toolCall) in
  if String.eqb name "think"
  then
    let* thought := lift (prop args "thought") in
    to_text thought ;;
    log (LThought thought) ;;
    ret (messages ++ [MTool (tc_id toolCall) "OK"])
  else
    F07.argsPreview name args ;;
    log (LTool name args) ;;
    let* result := invoke toolHandlers name args (not_found name) in
    log (LResult result) ;;
    ret (messages ++ [MTool (tc_id toolCall) result]).

(** [while (iteration < 20)] of reactAgent, lines 277-327. *)
Fixpoint react_loop (remaining iteration : nat) (messages : list Message)
    : M E (list Message) :=
  match remaining with
  | O => ret messages
  | S remaining' =>
      let iteration := S iteration in
      let* message := create (mkRequest messages tools) in
      let messages := messages ++ [MAssistant message] in
      if no_calls message
      then log (LExecuted iteration (content message)) ;; ret messages
      else
        let* messages := for_each react_answer (calls message) messages in
        react_loop remaining' iteration messages
  end.

Definition reactAgent (userMessage : string) : M E (list Message) :=
  react_loop 20 0 [MSystem (StaticPrompt "06 react"); MUser userMessage].

(** Lines 334-351: [process.argv[2] ?? "plan"].  The usage line is recorded
    as [LPhase 0]. *)
Definition main (argument : option string) : M E unit :=
  let task :=
    "Проанализируй все .ts файлы в директории src/. " +:+
    "Найди дублирование кода между файлами (общие паттерны, " +:+
    "повторяющиеся импорты, похожие функции). " +:+
    "Создай файл REFACTORING.md с конкретными рекомендациями по рефакторингу." in
  let approach := match argument with Some a => a | None => "plan" end in
  if String.eqb approach "plan" then planThenExecute task ;; ret tt
  else if String.eqb approach "react" then reactAgent task ;; ret tt
  else log (LPhase 0).

End Source.
End F06.

(* ================================================================== *)
(** * src/08-interactive-agent.ts *)
(* ================================================================== *)

(** Truthiness of a value that may be undefined. *)
Definition truthy_opt (v : option JValue) : bool :=
  match v with
  | Some x => truthy x
  | None => false
  end.

Module F08.
Section Source.
Context {E : Env}.

Definition tools : list Tool :=
  [ mkTool "think" ["thought"];
    mkTool "run_bash" ["command"];
    mkTool "read_file" ["path"];
    mkTool "write_file" ["path"; "content"];
    mkTool "ask_user_choice" ["question"; "options"];
    mkTool "ask_user_input" ["question"];
    mkTool "ask_user_confirm" ["question"] ].

(** [ask(question)], lines 27-31. *)
Definition ask_user (question : string) : M E string :=
  fun s => let (answer, w) := ask E question (world s) in
           (Normal answer, mkSys w (trace s)).

Definition think : Handler E := fun _ => ret "OK".

(** [x === a || x === b] after [toLowerCase()]. *)
Definition one_of (answer : string) (accepted : list string) : bool :=
  existsb (String.eqb (toLowerCase E answer)) accepted.

(** Lines 201-239.  The path is turned into text for the line that
    announces the write; [content.split] needs a string. *)
Definition write_file : Handler E := fun args =>
  let* path := destructure args "path" in
  let* text := destructure args "content" in
  let* present := observe (fun w => inr (existsSync E path w)) in
  let* shown := to_text path in
  log (LWizard (if present : bool then "перезаписать" else "создать") [path]) ;;
  match text with
  | Some (JStr _) =>
      log (LWizard "preview" [text]) ;;
      let* answer := ask_user "Разрешить? [y/n/edit]: " in
      if one_of answer ["y"; "д"]
      then
        try_catch
          (effect (writeFileSync E path text) ;;
           ret ("✅ Файл " +:+ shown +:+ " записан (одобрено пользователем)"))
          (fun e => ret (error_text +:+ e_message e))
      else if one_of answer ["edit"; "e"]
      then
        let* newPath := ask_user ("Новый путь (Enter = " +:+ shown +:+ "): ") in
        let finalPath := if String.eqb newPath "" then shown else newPath in
        try_catch
          (effect (writeFileSync E
                     (if String.eqb newPath "" then path else Some (JStr newPath)) text) ;;
           ret ("✅ Файл " +:+ finalPath +:+ " записан (путь изменён пользователем)"))
          (fun e => ret (error_text +:+ e_message e))
      else ret ("❌ Пользователь отклонил запись файла " +:+ shown)
  | _ => throw (TypeError "content.split is not a function")
  end.

(** [options[num - 1]] for [1 <= num <= options.length]. *)
Definition chosen_option (options : list JValue) (num : Z) : option JValue :=
  if (Z.leb 1 num && Z.leb num (Z.of_nat (length options)))%bool
  then nth_error options (Z.to_nat (num - 1)%Z)
  else None.

(** The callback of [options.forEach], lines 248-251: the option must not
    be null, and its [label] and [description] are turned into text. *)
Definition showOption (opt : JValue) : M E unit :=
  let* label := lift (prop opt "label") in
  to_text label ;;
  let* about := lift (prop opt "description") in
  to_text about ;;
  ret tt.

(** Lines 242-273.  The question is turned into text first;
    [options.forEach] needs an array of non-null items. *)
Definition ask_user_choice : Handler E := fun args =>
  let* question := destructure args "question" in
  let* options := destructure args "options" in
  let* allow_custom := destructure args "allow_custom" in
  to_text question ;;
  match options with
  | Some (JArr items) =>
      log (LWizard "choice" [question; options; allow_custom]) ;;
      for_each (fun opt _ => showOption opt) items tt ;;
      let count := (Z.of_nat (length items) + (if truthy_opt allow_custom then 1 else 0))%Z in
      let* answer := ask_user ("Выбор [1-" +:+ ToString E (Some (JNum count)) +:+ "]: ") in
      let num := parseInt E answer in
      if (truthy_opt allow_custom &&
          match num with
          | Some n => Z.eqb n (Z.of_nat (length items) + 1)%Z
          | None => false
          end)%bool
      then
        let* custom := ask_user "Введите свой вариант: " in
        ret ("Пользователь выбрал свой вариант: " +:+ dq +:+ custom +:+ dq)
      else
        match num with
        | Some n =>
            match chosen_option items n with
            | Some chosen =>
                let* label := lift (prop chosen "label") in
                let* name := to_text label in
                let* about := lift (prop chosen "description") in
                let* text := to_text about in
                ret ("Пользователь выбрал: " +:+ dq +:+ name +:+ dq +:+ " — " +:+ text)
            | None => ret ("Пользователь ответил: " +:+ dq +:+ answer +:+ dq)
            end
        | None => ret ("Пользователь ответил: " +:+ dq +:+ answer +:+ dq)
        end
  | _ => throw (TypeError "options.forEach is not a function")
  end.

(** [if (v) ... `${v}` ...]: a truthy value is turned into text. *)
Definition shown_if_truthy (v : option JValue) : M E unit :=
  if truthy_opt v then to_text v ;; ret tt else ret tt.

(** Lines 276-287: the prompt is built from the question and, when they are
    truthy, the hint and the default; [answer || default_value || ""]. *)
Definition ask_user_input : Handler E := fun args =>
  let* question := destructure args "question" in
  let* hint := destructure args "hint" in
  let* default_value := destructure args "default_value" in
  to_text question ;;
  shown_if_truthy hint ;;
  shown_if_truthy default_value ;;
  log (LWizard "input" [question; hint; default_value]) ;;
  let* answer := ask_user "> " in
  let* result :=
    if negb (String.eqb answer "") then ret answer
    else if truthy_opt default_value then to_text default_value
    else ret "" in
  ret ("Пользователь ввёл: " +:+ dq +:+ result +:+ dq).

(** Lines 290-299. *)
Definition ask_user_confirm : Handler E := fun args =>
  let* question := destructure args "question" in
  let* details := destructure args "details" in
  to_text question ;;
  shown_if_truthy details ;;
  log (LWizard "confirm" [question; details]) ;;
  let* answer := ask_user "Да/Нет [y/n]: " in
  ret (if one_of answer ["y"; "д"; "да"; "yes"]
       then "Пользователь подтвердил: ДА"
       else "Пользователь отказал: НЕТ").

Definition toolHandlers : gmap string (Handler E) :=
  <["think" := think]> (<["run_bash" := F07.run_bash]> (<["read_file" := F07.read_file]>
  (<["write_file" := write_file]> (<["ask_user_choice" := ask_user_choice]>
  (<["ask_user_input" := ask_user_input]> (<["ask_user_confirm" := ask_user_confirm]> ∅)))))).

(** Lines 364-369: which calls are logged before they run. *)
Definition announced (name : string) : bool :=
  negb (String.prefix "ask_user" name) && negb (String.eqb name "write_file").

(** The body of [for (const toolCall of message.tool_calls)], lines 359-391. *)
Definition answer (toolCall : ToolCall) (messages : list Message) : M E (list Message) :=
  let name := tc_name toolCall in
  let* args := parse (tc_arguments toolCall) in
  (if String.eqb name "think"
   then let* thought := lift (prop args "thought") in
        to_text thought ;; log (LThought thought)
   else if announced name then log (LTool name args) else ret tt) ;;
  let* result := invoke toolHandlers name args (not_found name) in
  (if (announced name && negb (String.eqb name "think"))%bool
   then log (LResult result) else ret tt) ;;
  ret (messages ++ [MTool (tc_id toolCall) result]).

Definition follow_up_prompt : string :=
  "> (Enter чтобы завершить, или введите сообщение): ".

(** [while (iteration < LIMIT)], lines 330-394, with the [rl.close()] after
    the loop; [remaining = LIMIT - iteration].  The function returns
    nothing; the model returns the final [messages]. *)
Fixpoint loop (remaining iteration : nat) (messages : list Message) : M E (list Message) :=
  match remaining with
  | O => emit EvClose ;; ret messages
  | S remaining' =>
      let iteration := S iteration in
      let* message := create (mkRequest messages tools) in
      let messages := messages ++ [MAssistant message] in
      if no_calls message
      then
        log (LSay (content message)) ;;
        let* follow := ask_user follow_up_prompt in
        if String.eqb follow ""
        then log LBye ;; emit EvClose ;; ret messages
        else loop remaining' iteration (messages ++ [MUser follow])
      else
        let* messages := for_each answer (calls message) messages in
        loop remaining' iteration messages
  end.

Definition interactiveAgent_with (LIMIT : nat) (task : string) (systemPrompt : option string)
    : M E (list Message) :=
  let system :=
    match systemPrompt with
    | Some text => if String.eqb text "" then StaticPrompt "08" else CustomPrompt text
    | None => StaticPrompt "08"
    end in
  loop LIMIT 0 [MSystem system; MUser task].

Definition interactiveAgent : string -> option string -> M E (list Message) :=
  interactiveAgent_with 30.

(** Lines 401-432: [process.argv[2] ?? "project"] and the [switch].  The
    banner of the free scenario is recorded as an [LSay] line, the usage
    line as [LWizard "usage" []]. *)
Definition main (argument : option string) : M E unit :=
  let scenario := match argument with Some a => a | None => "project" end in
  if String.eqb scenario "project"
  then
    interactiveAgent
      ("Помоги мне создать новый TypeScript проект. " +:+
       "Спроси что за проект, предложи варианты структуры, настрой всё.") None ;;
    ret tt
  else if String.eqb scenario "refactor"
  then
    interactiveAgent
      ("Проанализируй .ts файлы в src/ и предложи рефакторинг. " +:+
       "Покажи мне варианты, дай выбрать что делать, и выполни с подтверждениями.") None ;;
    ret tt
  else if String.eqb scenario "free"
  then
    log (LSay (Some "Интерактивный агент запущен. Введите задачу:")) ;;
    let* task := ask_user "> " in
    interactiveAgent task None ;;
    ret tt
  else
    log (LWizard "usage" []) ;;
    emit EvClose.

End Source.
End F08.

(* ================================================================== *)
(** * A reference JSON reader and a scripted world *)
(* ================================================================== *)

(** The theorems below hold for every [Env].  The examples run the model
    in a small concrete one: the service follows a script, the file system
    is an association list, the shell records the commands it is given, and
    [JSON.parse] is the reader below.  The reader covers null, booleans,
    integers, strings without escapes, arrays and objects; it rejects
    every other text. *)
Module Json.

Definition is_ws (c : ascii) : bool :=
  let n := nat_of_ascii c in
  (Nat.eqb n 32) || (Nat.eqb n 9) || (Nat.eqb n 10) || (Nat.eqb n 13).

Fixpoint skip_ws (s : string) : string :=
  match s with
  | EmptyString => EmptyString
  | String c rest => if is_ws c then skip_ws rest else s
  end.

Definition is_digit (c : ascii) : bool :=
  let n := nat_of_ascii c in (Nat.leb 48 n) && (Nat.leb n 57).

Fixpoint digits (acc : Z) (s : string) : Z * string :=
  match s with
  | EmptyString => (acc, s)
  | String c rest =>
      if is_digit c
      then digits (10 * acc + Z.of_nat (nat_of_ascii c - 48))%Z rest
      else (acc, s)
  end.

(** The characters of a string literal up to its closing quote. *)
Fixpoint chars (s : string) : option (string * string) :=
  match s with
  | EmptyString => None
  | String c rest =>
      let n := nat_of_ascii c in
      if Nat.eqb n 34 then Some (EmptyString, rest)
      else if (Nat.eqb n 92) || (Nat.ltb n 32) then None
      else match chars rest with
           | Some (text, rest') => Some (String c text, rest')
           | None => None
           end
  end.

Definition drop (n : nat) (s : string) : string :=
  String.substring n (String.length s - n) s.

Definition literal (word : string) (v : JValue) (s : string) : option (JValue * string) :=
  if String.prefix word s then Some (v, drop (String.length word) s) else None.

Definition number (s : string) : option (JValue * string) :=
  match s with
  | String c rest =>
      if Nat.eqb (nat_of_ascii c) 45
      then match rest with
           | String d _ =>
               if is_digit d
               then let (n, rest') := digits 0 rest in Some (JNum (- n), rest')
               else None
           | EmptyString => None
           end
      else if is_digit c
      then let (n, rest') := digits 0 s in Some (JNum n, rest')
      else None
  | EmptyString => None
  end.

Fixpoint value (fuel : nat) (s : string) : option (JValue * string) :=
  match fuel with
  | O => None
  | S fuel =>
      match skip_ws s with
      | EmptyString => None
      | String c rest as s' =>
          let n := nat_of_ascii c in
          if Nat.eqb n 34 then
            match chars rest with
            | Some (text, rest') => Some (JStr text, rest')
            | None => None
            end
          else if Nat.eqb n 91 then
            match skip_ws rest with
            | String d rest' =>
                if Nat.eqb (nat_of_ascii d) 93 then Some (JArr [], rest')
                else match items fuel rest with
                     | Some (vs, rest'') => Some (JArr vs, rest'')
                     | None => None
                     end
            | EmptyString => None
            end
          else if Nat.eqb n 123 then
            match skip_ws rest with
            | String d rest' =>
                if Nat.eqb (nat_of_ascii d) 125 then Some (JObj [], rest')
                else match members fuel rest with
                     | Some (kvs, rest'') => Some (JObj kvs, rest'')
                     | None => None
                     end
            | EmptyString => None
            end
          else if String.prefix "null" s' then literal "null" JNull s'
          else if String.prefix "true" s' then literal "true" (JBool true) s'
          else if String.prefix "false" s' then literal "false" (JBool false) s'
          else number s'
      end
  end
with items (fuel : nat) (s : string) : option (list JValue * string) :=
  match fuel with
  | O => None
  | S fuel =>
      match value fuel s with
      | Some (v, rest) =>
          match skip_ws rest with
          | String c rest' =>
              let n := nat_of_ascii c in
              if Nat.eqb n 93 then Some ([v], rest')
              else if Nat.eqb n 44 then
                match items fuel rest' with
                | Some (vs, rest'') => Some (v :: vs, rest'')
                | None => None
                end
              else None
          | EmptyString => None
          end
      | None => None
      end
  end
with members (fuel : nat) (s : string) : option (list (string * JValue) * string) :=
  match fuel with
  | O => None
  | S fuel =>
      match skip_ws s with
      | String q rest =>
          if Nat.eqb (nat_of_ascii q) 34 then
            match chars rest with
            | Some (key, rest1) =>
                match skip_ws rest1 with
                | String colon rest2 =>
                    if Nat.eqb (nat_of_ascii colon) 58 then
                      match value fuel rest2 with
                      | Some (v, rest3) =>
                          match skip_ws rest3 with
                          | String c rest4 =>
                              let n := nat_of_ascii c in
                              if Nat.eqb n 125 then Some ([(key, v)], rest4)
                              else if Nat.eqb n 44 then
                                match members fuel rest4 with
                                | Some (kvs, rest5) => Some ((key, v) :: kvs, rest5)
                                | None => None
                                end
                              else None
                          | EmptyString => None
                          end
                      | None => None
                      end
                    else None
                | EmptyString => None
                end
            | None => None
            end
          else None
      | EmptyString => None
      end
  end.

Definition parse (text : string) : option JValue :=
  match value (2 * String.length text + 2) text with
  | Some (v, rest) =>
      match skip_ws rest with
      | EmptyString => Some v
      | String _ _ => None
      end
  | None => None
  end.

(** Writing JSON texts without escaping quotes by hand. *)
Definition str (s : string) : string := dq +:+ s +:+ dq.
Definition field (k v : string) : string := str k +:+ ":" +:+ v.
Definition obj (fields : list string) : string := "{" +:+ String.concat "," fields +:+ "}".
Definition arr (items : list string) : string := "[" +:+ String.concat "," items +:+ "]".

End Json.

Module Demo.

Record State : Type := mkState {
  replies : nat;                    (* decision requests answered so far *)
  files : list (string * string);   (* path and content *)
  shell : list string;              (* the commands run, oldest first *)
  typed : list string               (* what the user will type *)
}.

Definition start : State := mkState 0 [] [] [].

Fixpoint file (path : string) (fs : list (string * string)) : option string :=
  match fs with
  | [] => None
  | (p, text) :: rest => if String.eqb p path then Some text else file path rest
  end.

Definition ENOENT (path : string) : JsError :=
  mkError "Error" ("ENOENT: no such file or directory, open '" +:+ path +:+ "'") None.

Definition text_of (v : option JValue) : string :=
  match v with
  | None => "undefined"
  | Some JNull => "null"
  | Some (JBool true) => "true"
  | Some (JBool false) => "false"
  | Some (JStr s) => s
  | Some (JNum _) => "<number>"
  | Some (JArr _) => "<array>"
  | Some (JObj _) => "[object Object]"
  end.

(** The shell: the command [false] fails, every other command prints its
    own text; each run is recorded. *)
Definition run_command (command : option JValue) (w : State)
    : (JsError + string) * State :=
  match command with
  | Some (JStr c) =>
      let w' := mkState (replies w) (files w) (shell w ++ [c]) (typed w) in
      if String.eqb c "false"
      then (inl (mkError "Error" "Command failed: false" (Some "")), w')
      else (inr c, w')
  | _ => (inl (TypeError "The argument must be of type string"), w)
  end.

Definition read (path : option JValue) (w : State) : JsError + string :=
  match path with
  | Some (JStr p) =>
      match file p (files w) with
      | Some text => inr text
      | None => inl (ENOENT p)
      end
  | _ => inl (TypeError "The argument must be of type string")
  end.

Definition write (path text : option JValue) (w : State) : (JsError + unit) * State :=
  match path, text with
  | Some (JStr p), Some (JStr t) =>
      (inr tt, mkState (replies w) ((p, t) :: files w) (shell w) (typed w))
  | _, _ => (inl (TypeError "The argument must be of type string"), w)
  end.

Definition answer_line (question : string) (w : State) : string * State :=
  match typed w with
  | [] => ("", w)
  | line :: rest => (line, mkState (replies w) (files w) (shell w) rest)
  end.

(** The world in which the service answers its [n]-th request with
    [script n request].  Texts are taken to be ASCII and lower-case: the
    length is the number of characters and [toLowerCase] changes nothing;
    no text reads as a number, and [eval] is refused. *)
Definition env (script : nat -> Request -> AssistantMessage) : Env :=
  mkEnv State
    (fun request w =>
       (script (replies w) request,
        mkState (S (replies w)) (files w) (shell w) (typed w)))
    Json.parse
    (fun command _ => run_command command)
    read
    write
    (fun path w => match read path w with inr _ => true | inl _ => false end)
    answer_line
    (fun _ => "12:00:00")
    text_of
    String.length
    (fun s => s)
    (fun _ => None)
    (fun _ w => (inl (ThrownError (mkError "Error" "eval is not available" None)), w)).

Definition boot (script : nat -> Request -> AssistantMessage)
    (w : State) : Sys (env script) :=
  mkSys (E := env script) w [].

(** Scripts. *)
Definition say (text : string) : AssistantMessage := mkAssistant (Some text) None.

Definition request (id name arguments : string) : AssistantMessage :=
  mkAssistant None (Some [mkCall id name arguments]).

Definition id_of (n : nat) : string := "call_" +:+ String.concat "" (repeat "i" n).

(** 04: the first answer asks for a listing, for a file that does not exist
    and for a tool that is not registered; the second answer is the final
    text. *)
Definition explore (n : nat) (_ : Request) : AssistantMessage :=
  match n with
  | O => mkAssistant None (Some
           [ mkCall "c1" "run_bash" (Json.obj [Json.field "command" (Json.str "ls")]);
             mkCall "c2" "read_file" (Json.obj [Json.field "path" (Json.str "missing.txt")]);
             mkCall "c3" "list_dir" (Json.obj [Json.field "path" (Json.str ".")]) ])
  | S _ => say "done"
  end.

(** The service asks for one more thought, for ever. *)
Definition busy (n : nat) (_ : Request) : AssistantMessage :=
  request (id_of n) "think" (Json.obj [Json.field "thought" (Json.str "again")]).

(** The service answers with its final text at once. *)
Definition finish (_ : nat) (_ : Request) : AssistantMessage := say "done".

Definition revision : string :=
  Json.obj [ Json.field "reason" (Json.str "new facts");
             Json.field "completed_steps" (Json.arr [Json.str "step 1"]);
             Json.field "discoveries" (Json.arr [Json.str "more files"]) ].

(** The service asks for a new plan, for ever. *)
Definition revise (n : nat) (_ : Request) : AssistantMessage :=
  request (id_of n) "request_replan" revision.

(** A revision whose completed steps are a text, not a list. *)
Definition sloppy_revision : string :=
  Json.obj [ Json.field "reason" (Json.str "new facts");
             Json.field "completed_steps" (Json.str "step 1");
             Json.field "discoveries" (Json.arr [Json.str "more files"]) ].

Definition plan : JValue :=
  JObj [ ("goal", JStr "tidy up");
         ("steps", JArr [ JObj [ ("id", JNum 1); ("action", JStr "list the files");
                                 ("tool", JStr "run_bash"); ("reason", JStr "start") ] ]) ].

Definition plan_text : string :=
  Json.obj [ Json.field "goal" (Json.str "tidy up");
             Json.field "steps"
               (Json.arr [ Json.obj [ Json.field "id" "1";
                                      Json.field "action" (Json.str "list the files");
                                      Json.field "tool" (Json.str "run_bash");
                                      Json.field "reason" (Json.str "start") ] ]) ].

(** The service answers a planning request with a plan, and every other
    request by asking for a new plan. *)
Definition replanner (n : nat) (request : Request) : AssistantMessage :=
  match rq_messages request with
  | MSystem (PlannerPrompt _) :: _ => say plan_text
  | _ => revise n request
  end.

(** The service answers a planning request with a plan, and every other
    request by asking for a new plan with [sloppy_revision]. *)
Definition sloppy_replanner (n : nat) (request : Request) : AssistantMessage :=
  match rq_messages request with
  | MSystem (PlannerPrompt _) :: _ => say plan_text
  | _ => Demo.request (id_of n) "request_replan" sloppy_revision
  end.

(** 07: one answer that thinks, asks for a new plan and then asks for a
    shell command. *)
Definition thought_call : ToolCall :=
  mkCall "t1" "think" (Json.obj [Json.field "thought" (Json.str "the plan is off")]).

Definition revision_call : ToolCall := mkCall "r1" "request_replan" revision.

Definition late_call : ToolCall :=
  mkCall "b1" "run_bash" (Json.obj [Json.field "command" (Json.str "ls")]).

Definition mid_revision (_ : nat) (_ : Request) : AssistantMessage :=
  mkAssistant None (Some [thought_call; revision_call; late_call]).

Definition revision_fields : list (string * JValue) :=
  [ ("reason", JStr "new facts");
    ("completed_steps", JArr [JStr "step 1"]);
    ("discoveries", JArr [JStr "more files"]) ].

Definition missing_call : ToolCall :=
  mkCall "c2" "read_file" (Json.obj [Json.field "path" (Json.str "missing.txt")]).

Definition missing_args : JValue := JObj [("path", JStr "missing.txt")].

(** 08: the service only ever talks. *)
Definition chatty (_ : nat) (_ : Request) : AssistantMessage := say "what next?".

(** 07: the service answers the planning request with JSON that is not a
    plan with steps (wrapped in a code fence), and the execution request
    with its final text. *)
Definition empty_plan_text : string :=
  Json.obj [ Json.field "goal" (Json.str "nothing to do"); Json.field "steps" (Json.arr []) ].

Definition empty_plan : JValue :=
  JObj [ ("goal", JStr "nothing to do"); ("steps", JArr []) ].

Definition idle_planner (_ : nat) (request : Request) : AssistantMessage :=
  match rq_messages request with
  | MSystem (PlannerPrompt _) :: _ => say (fenced empty_plan_text)
  | _ => say "done"
  end.

(** 07 and 04: one shell command, then the final text. *)
Definition mkdir_args : JValue := JObj [("command", JStr "mkdir out")].

Definition once_bash (n : nat) (_ : Request) : AssistantMessage :=
  match n with
  | O => request "b1" "run_bash" (Json.obj [Json.field "command" (Json.str "mkdir out")])
  | S _ => say "done"
  end.

(** 07 and 04: one request for a tool that is not registered, then the
    final text. *)
Definition unknown_tool (n : nat) (_ : Request) : AssistantMessage :=
  match n with
  | O => request "u1" "list_dir" (Json.obj [Json.field "path" (Json.str ".")])
  | S _ => say "done"
  end.

(** 04: the first answer carries two requests under one identifier; the
    second answer is the final text. *)
Definition twins (n : nat) (_ : Request) : AssistantMessage :=
  match n with
  | O => mkAssistant None (Some
           [ mkCall "c1" "run_bash" (Json.obj [Json.field "command" (Json.str "ls")]);
             mkCall "c1" "run_bash" (Json.obj [Json.field "command" (Json.str "pwd")]) ])
  | S _ => say "done"
  end.

(** 05: a second skill that declares read_file again. *)
Definition shadow : F05.Skill (E := env finish) :=
  F05.mkSkill "shadow" "reads files its own way"
    [ mkTool "read_file" ["path"] ]
    (<["read_file" := fun _ => ret "second"]> ∅).

Definition explore_transcript : list Message :=
  [ MSystem (StaticPrompt "04"); MUser "task";
    MAssistant (explore 0 (mkRequest [] []));
    MTool "c1" "ls";
    MTool "c2" (error_text +:+ "ENOENT: no such file or directory, open 'missing.txt'");
    MTool "c3" (not_found "list_dir");
    MAssistant (say "done") ].

End Demo.

(** Further scripted scenes for the examples. *)
Module Scenes.

(** 08: a request to write a file; the user types what [typed] holds. *)
Definition note_call : ToolCall :=
  mkCall "w1" "write_file"
    (Json.obj [ Json.field "path" (Json.str "notes.txt");
                Json.field "content" (Json.str "hello") ]).

Definition note_fields : list (string * JValue) :=
  [ ("path", JStr "notes.txt"); ("content", JStr "hello") ].

(** 08: a write_file request without content. *)
Definition empty_note_call : ToolCall :=
  mkCall "w2" "write_file" (Json.obj [ Json.field "path" (Json.str "notes.txt") ]).

Definition user (lines : list string) : Demo.State := Demo.mkState 0 [] [] lines.

(** 07: one answer that asks for a write_file without content and then for
    a new plan. *)
Definition blocked_revision (_ : nat) (_ : Request) : AssistantMessage :=
  mkAssistant None (Some [empty_note_call; Demo.revision_call]).

End Scenes.

(** Scenes for the wizard handlers of 08. *)
Module Wizard.

(** The scripted world of [Demo], where the user's answers that are
    decimal integers read as numbers. *)
Definition env : Env :=
  let e := Demo.env Demo.finish in
  mkEnv Demo.State (chat_create e) (JSON_parse e) (execSync e) (readFileSync e)
    (writeFileSync e) (existsSync e) (ask e) (toLocaleTimeString e) (ToString e)
    (utf16_length e) (toLowerCase e)
    (fun text => match Json.number text with
                 | Some (JNum n, EmptyString) => Some n
                 | _ => None
                 end)
    (js_eval e).

Definition options : list JValue :=
  [ JObj [("label", JStr "library"); ("description", JStr "a package to import")];
    JObj [("label", JStr "service"); ("description", JStr "a program that runs")] ].

Definition choice_fields : list (string * JValue) :=
  [ ("question", JStr "what kind of project?"); ("options", JArr options) ].

Definition user (lines : list string) : Sys env :=
  mkSys (E := env) (Demo.mkState 0 [] [] lines) [].

End Wizard.

(** A scene for the shell of 04 and 07. *)
Module Flaky.

(** A shell whose commands fail the first time they are run (a cold cache,
    a lock that is still held) and print their own text when they are run
    again; each run is recorded. *)
Definition run_command (command : option JValue) (w : Demo.State)
    : (JsError + string) * Demo.State :=
  match command with
  | Some (JStr c) =>
      let w' := Demo.mkState (Demo.replies w) (Demo.files w) (Demo.shell w ++ [c])
                             (Demo.typed w) in
      if existsb (String.eqb c) (Demo.shell w)
      then (inr c, w')
      else (inl (mkError "Error" ("Command failed: " +:+ c) (Some "")), w')
  | _ => (inl (TypeError "The argument must be of type string"), w)
  end.

(** The scripted world of [Demo] with that shell; the service asks once for
    the command [mkdir out] and then gives its final text. *)
Definition env : Env :=
  let e := Demo.env Demo.once_bash in
  mkEnv Demo.State (chat_create e) (JSON_parse e) (fun command _ => run_command command)
    (readFileSync e) (writeFileSync e) (existsSync e) (ask e) (toLocaleTimeString e)
    (ToString e) (utf16_length e) (toLowerCase e) (parseInt e) (js_eval e).

Definition boot : Sys env := mkSys (E := env) Demo.start [].

End Flaky.

(** A scene for calculate of 05: the service asks for the value of
    [throw null], an expression whose evaluation throws [null]. *)
Module Thrower.

Definition thrown_call : ToolCall :=
  mkCall "m1" "calculate" (Json.obj [Json.field "expression" (Json.str "throw null")]).

Definition script (n : nat) (_ : Request) : AssistantMessage :=
  match n with
  | O => mkAssistant None (Some [thrown_call])
  | S _ => Demo.say "done"
  end.

Definition env : Env :=
  let e := Demo.env script in
  mkEnv Demo.State (chat_create e) (JSON_parse e) (execSync e) (readFileSync e)
    (writeFileSync e) (existsSync e) (ask e) (toLocaleTimeString e) (ToString e)
    (utf16_length e) (toLowerCase e) (parseInt e)
    (fun expression w =>
       match expression with
       | Some (JStr "throw null") => (inl (ThrownValue (Some JNull)), w)
       | _ => js_eval e expression w
       end).

Definition boot : Sys env := mkSys (E := env) Demo.start [].

End Thrower.

(* ================================================================== *)
(** * What a run leaves behind: observations on traces and transcripts *)
(* ================================================================== *)

(** The value of a completion, if it is a normal one. *)
Definition value_of {A : Type} (c : Completion A) : option A :=
  match c with
  | Normal a => Some a
  | Throw _ => None
  end.

(** The error of a completion, if it is an abrupt one. *)
Definition error_of {A : Type} (c : Completion A) : option JsError :=
  match c with
  | Normal _ => None
  | Throw e => Some e
  end.

Definition requests_of (t : list Event) : list Request :=
  flat_map (fun ev => match ev with EvRequest r => [r] | _ => [] end) t.

Definition invocations_of (t : list Event) : list (string * JValue) :=
  flat_map (fun ev => match ev with EvInvoke n a => [(n, a)] | _ => [] end) t.

Definition lines_of (t : list Event) : list Line :=
  flat_map (fun ev => match ev with EvLog l => [l] | _ => [] end) t.

(** The decision requests createPlan sends, and among them those that
    carry the replan section. *)
Definition is_planning (request : Request) : bool :=
  match rq_messages request with
  | MSystem (PlannerPrompt _) :: _ => true
  | _ => false
  end.

Definition is_replanning (request : Request) : bool :=
  match rq_messages request with
  | MSystem (PlannerPrompt (Some _)) :: _ => true
  | _ => false
  end.

Definition is_executing (request : Request) : bool :=
  match rq_messages request with
  | MSystem (ExecutorPrompt _) :: _ => true
  | _ => false
  end.

(** The request of a first call of createPlan, and of the planning phase
    of planThenExecute. *)
Definition planning_request (task : string) : Request :=
  mkRequest [MSystem (PlannerPrompt None); MUser task] [].

(** [message.content ?? ""] *)
Definition text_of_message (m : AssistantMessage) : string :=
  match content m with
  | Some t => t
  | None => ""
  end.

Definition planning_requests (t : list Event) : list Request :=
  List.filter is_planning (requests_of t).

Definition replanning_requests (t : list Event) : list Request :=
  List.filter is_replanning (requests_of t).

(** A plan printPlan can print: an object whose [steps] is an array without
    null items. *)
Definition printable (plan : JValue) : bool :=
  match plan with
  | JObj fields =>
      match own "steps" fields with
      | Some (JArr items) =>
          forallb (fun item => match item with JNull => false | _ => true end) items
      | _ => false
      end
  | _ => false
  end.

(** A list createPlan can join: absent, null or an array. *)
Definition joinable (xs : option JValue) : bool :=
  match xs with
  | None | Some JNull | Some (JArr _) => true
  | Some _ => false
  end.

(** An option the choice wizard of 08 can show: not null, with a label and
    a description that can be turned into text. *)
Definition presentable (opt : JValue) : Prop :=
  exists label about,
    prop opt "label" = Normal label /\ prop opt "description" = Normal about /\
    stringable label = true /\ stringable about = true.

(** The tags of the action-result turns of a transcript, in order. *)
Definition result_tags (messages : list Message) : list string :=
  flat_map (fun m => match m with MTool tag _ => [tag] | _ => [] end) messages.

(** The identifiers of the action requests of a transcript, in order. *)
Definition request_ids (messages : list Message) : list string :=
  flat_map (fun m => match m with MAssistant a => map tc_id (calls a) | _ => [] end)
           messages.

(** The tags of the action-result turns in front of the first assistant
    turn. *)
Fixpoint leading_tags (messages : list Message) : list string :=
  match messages with
  | [] => []
  | MAssistant _ :: _ => []
  | MTool tag _ :: rest => tag :: leading_tags rest
  | _ :: rest => leading_tags rest
  end.

(** Each assistant turn with the tags of the action-result turns between it
    and the next assistant turn. *)
Fixpoint turns (messages : list Message) : list (AssistantMessage * list string) :=
  match messages with
  | [] => []
  | MAssistant a :: rest => (a, leading_tags rest) :: turns rest
  | _ :: rest => turns rest
  end.

(** The shape the loops give a transcript: no action-result turn before the
    first assistant turn, and after each assistant turn one action-result
    turn per request, tagged with the request identifiers in order. *)
Definition answered (messages : list Message) : Prop :=
  leading_tags messages = [] /\
  Forall (fun turn => snd turn = map tc_id (calls (fst turn))) (turns messages).

(** The invariant of the data model, spelled out on a transcript:
    - every action-result turn follows an assistant turn, and its tag is the
      identifier of exactly one request of that turn;
    - no two action-result turns share a tag;
    - every request of an assistant turn has exactly one action-result turn
      with its identifier before the next assistant turn. *)
Definition well_tagged (messages : list Message) : Prop :=
  (leading_tags messages = [] /\
   Forall (fun turn =>
             Forall (fun tag => count_occ string_dec (map tc_id (calls (fst turn))) tag = 1)
                    (snd turn))
          (turns messages)) /\
  NoDup (result_tags messages) /\
  Forall (fun turn =>
            Forall (fun call => count_occ string_dec (snd turn) (tc_id call) = 1)
                   (calls (fst turn)))
         (turns messages).

(** The action-result turns that answer [toolCalls] with [results]. *)
Definition answers (toolCalls : list ToolCall) (results : list string) : list Message :=
  zip_with (fun call result => MTool (tc_id call) result) toolCalls results.

Section Observations.
Context {E : Env}.

(** A computation that sends no decision request. *)
Definition quiet {A : Type} (m : M E A) : Prop :=
  forall s, requests_of (trace (snd (m s))) = requests_of (trace s).

(** A computation that calls no handler of a table. *)
Definition discreet {A : Type} (m : M E A) : Prop :=
  forall s, invocations_of (trace (snd (m s))) = invocations_of (trace s).

(** The transcripts a run produces: the one it ends with, and every one it
    sends in a decision request. *)
Definition produces {A : Type} (run : M E A) (final : A -> list Message)
    (s : Sys E) (messages : list Message) : Prop :=
  (exists a, fst (run s) = Normal a /\ final a = messages) \/
  In messages (map rq_messages (requests_of (trace (snd (run s))))).

(** The service never finalizes: each of its answers requests an action. *)
Definition always_requests : Prop :=
  forall request w, no_calls (fst (chat_create E request w)) = false.

(** An action request whose payload is JSON text for a value other than
    null. *)
Definition payload_ok (call : ToolCall) : Prop :=
  exists v, JSON_parse E (tc_arguments call) = Some v /\ v <> JNull.

Definition payloads_ok : Prop :=
  forall request w, Forall payload_ok (calls (fst (chat_create E request w))).

(** An action request whose payload is JSON text for a tame value other
    than null: a handler can destructure it and turn what it reads into
    text. *)
Definition payload_tame (call : ToolCall) : Prop :=
  exists v, JSON_parse E (tc_arguments call) = Some v /\ v <> JNull /\ tame v = true.

Definition payloads_tame : Prop :=
  forall request w, Forall payload_tame (calls (fst (chat_create E request w))).

(** [eval] throws Error objects only. *)
Definition eval_throws_errors : Prop :=
  forall expression w v, fst (js_eval E expression w) <> inl (ThrownValue v).

(** A computation that ends normally from every state. *)
Definition never_throws {A : Type} (m : M E A) : Prop :=
  forall s, exists a s', m s = (Normal a, s').

(** A computation that ends normally from every state, with a value in [P]. *)
Definition ensures {A : Type} (m : M E A) (P : A -> Prop) : Prop :=
  forall s, exists a s', m s = (Normal a, s') /\ P a.

(** An action request of 07 that is not the revision request and that the
    loop body can read: the name is not an inherited one, the payload is
    JSON text for a tame object, with a [content] when the request is a
    write_file. *)
Definition plain_call (call : ToolCall) : Prop :=
  tc_name call <> "request_replan" /\
  is_inherited (tc_name call) = false /\
  exists fields,
    JSON_parse E (tc_arguments call) = Some (JObj fields) /\
    tame (JObj fields) = true /\
    (tc_name call = "write_file" -> is_nullish (own "content" fields) = false).

Definition plain_calls : Prop :=
  forall request w, Forall plain_call (calls (fst (chat_create E request w))).

(** The service answers every planning request with text that, once
    cleaned, is JSON for a plan that can be printed: an object with an array
    [steps] without null items, and tame. *)
Definition plans_ok : Prop :=
  forall request w,
    is_planning request = true ->
    exists plan,
      JSON_parse E (cleanJson (match content (fst (chat_create E request w)) with
                               | Some t => t
                               | None => ""
                               end)) = Some plan /\
      printable plan = true /\ tame plan = true.

(** Every execution ends in a revision request, with lists that can be
    joined: absent, null, or arrays of items that can be turned into
    text. *)
Definition always_revises : Prop :=
  forall task plan s,
    exists context messages s',
      F07.executeWithReact (E := E) task plan s
        = (Normal (mkResult replan_requested (Some context), messages), s') /\
      joinable (completedSteps context) = true /\
      stringable (completedSteps context) = true /\
      joinable (discoveries context) = true /\
      stringable (discoveries context) = true.

End Observations.

(* ================================================================== *)
(** * Invariants of a run *)
(* ================================================================== *)

(** An event that stays inside the process: a console line or a call of a
    handler. *)
Definition is_local (ev : Event) : Prop :=
  match ev with
  | EvLog _ | EvInvoke _ _ => True
  | EvRequest _ | EvClose => False
  end.

Definition is_log (ev : Event) : Prop :=
  match ev with
  | EvLog _ => True
  | _ => False
  end.

(** [P] holds of the event if it is a decision request. *)
Definition on_requests (P : Request -> Prop) (ev : Event) : Prop :=
  match ev with
  | EvRequest request => P request
  | _ => True
  end.

(** [P] holds of the event if it is a call of a handler. *)
Definition on_invocations (P : string -> JValue -> Prop) (ev : Event) : Prop :=
  match ev with
  | EvInvoke name args => P name args
  | _ => True
  end.

(** How often [rl.close()] was called. *)
Definition closes_of (t : list Event) : nat :=
  length (List.filter (fun ev => match ev with EvClose => true | _ => false end) t).

(** Transcripts that only grow: each one extends the one before it, the
    first one extends [start]. *)
Fixpoint chain (start : list Message) (transcripts : list (list Message)) : Prop :=
  match transcripts with
  | [] => True
  | t :: rest => (exists extra, t = start ++ extra) /\ chain t rest
  end.

(** The action requests of the assistant turns of a transcript, in order. *)
Definition requested (messages : list Message) : list ToolCall :=
  flat_map (fun m => match m with MAssistant a => calls a | _ => [] end) messages.

(** The text contains no code fence. *)
Fixpoint fence_free (s : string) : bool :=
  match s with
  | EmptyString => true
  | String _ rest => negb (String.prefix fence s) && fence_free rest
  end.

(** The number of backticks at the head of the text. *)
Fixpoint leading_backticks (s : string) : nat :=
  match s with
  | EmptyString => 0
  | String c rest => if Ascii.eqb c backtick then S (leading_backticks rest) else 0
  end.

Section RunInvariants.
Context {E : Env}.

(** From every state, the computation only adds events in [P] to the trace,
    and a value it ends with is in [Q]. *)
Definition within {A : Type} (P : Event -> Prop) (m : M E A) (Q : A -> Prop) : Prop :=
  forall s,
    (exists delta, trace (snd (m s)) = trace s ++ delta /\ Forall P delta) /\
    (forall a, fst (m s) = Normal a -> Q a).

Definition emits {A : Type} (P : Event -> Prop) (m : M E A) : Prop :=
  within P m (fun _ => True).

(** The computation sends at most [k] decision requests that [p] counts. *)
Definition counts {A : Type} (p : Request -> bool) (k : nat) (m : M E A) : Prop :=
  forall s,
    length (List.filter p (requests_of (trace (snd (m s)))))
    <= length (List.filter p (requests_of (trace s))) + k.

(** The handler call an action request leads to in a loop that looks the
    name up in [handlers]: none when the payload cannot be read or the name
    has no entry. *)
Definition dispatched (handlers : gmap string (Handler E)) (call : ToolCall)
    : list (string * JValue) :=
  match JSON_parse E (tc_arguments call), handlers !! tc_name call with
  | Some args, Some _ => [(tc_name call, args)]
  | _, _ => []
  end.

(** A skill, an agent or an example whose handlers are registered under
    exactly the names of the tools it declares. *)
Definition consistent (declared : list Tool) (handlers : gmap string (Handler E)) : Prop :=
  dom handlers = (list_to_set (map fn_name declared) : gset string).

(** The service asks for no name that a handler table inherits. *)
Definition plain_names : Prop :=
  forall request w,
    Forall (fun call => is_inherited (tc_name call) = false)
           (calls (fst (chat_create E request w))).

End RunInvariants.

(** An execution request for [plan]: its transcript starts with the
    executor's instructions for that plan. *)
Definition executes (plan : JValue) (request : Request) : Prop :=
  exists rest, rq_messages request = MSystem (ExecutorPrompt plan) :: rest.

(** What adaptiveAgent sends: planning requests without tools, and
    execution requests, with the tools, for plans that were printed. *)
Definition adaptive_request (request : Request) : Prop :=
  (is_planning request = true /\ rq_tools request = []) \/
  (exists plan, executes plan request /\ printable plan = true /\
                rq_tools request = F07.executionTools).

(** What a run hands back, as a list of at most one transcript. *)
Definition final_of {A : Type} (transcript : A -> list Message) (c : Completion A)
    : list (list Message) :=
  match c with
  | Normal a => [transcript a]
  | Throw _ => []
  end.

(** The number of [rl.close()] a completion accounts for. *)
Definition closed_by {A : Type} (c : Completion A) : nat :=
  match c with
  | Normal _ => 1
  | Throw _ => 0
  end.

(** The event is no call of the handler registered as [name]. *)
Definition spares (name : string) : Event -> Prop :=
  on_invocations (fun called _ => called <> name).

(** A replanning request for [task]: no tools, and instructions that carry
    [plan] as the previous plan. *)
Definition replans (task : string) (plan : JValue) (request : Request) : Prop :=
  exists done found,
    request = mkRequest [MSystem (PlannerPrompt (Some (mkReplanSection plan done found)));
                         MUser task] [].

(** The requests of adaptiveAgent from the execution of [plan] on: execution
    requests for [plan], then possibly a replanning request that carries
    [plan], followed by the same for the plan that comes next. *)
Inductive rounds (task : string) : JValue -> list Request -> Prop :=
| rounds_end plan execution :
    Forall (executes plan) execution -> rounds task plan execution
| rounds_next plan execution request plan' rest :
    Forall (executes plan) execution ->
    replans task plan request ->
    rounds task plan' rest ->
    rounds task plan (execution ++ request :: rest).

(* ================================================================== *)
(** * Proofs *)
(* ================================================================== *)

Section MonadFacts.
Context {E : Env}.

Lemma bind_ret_l {A B : Type} (a : A) (k : A -> M E B) : bind (ret a) k = k a.
Proof. reflexivity. Qed.

Lemma requests_of_app t1 t2 :
  requests_of (t1 ++ t2) = requests_of t1 ++ requests_of t2.
Proof. unfold requests_of. apply flat_map_app. Qed.

Lemma lines_of_app t1 t2 : lines_of (t1 ++ t2) = lines_of t1 ++ lines_of t2.
Proof. unfold lines_of. apply flat_map_app. Qed.

Lemma invocations_of_app t1 t2 :
  invocations_of (t1 ++ t2) = invocations_of t1 ++ invocations_of t2.
Proof. unfold invocations_of. apply flat_map_app. Qed.

(** ** Quiet computations *)

Lemma quiet_ret {A : Type} (a : A) : quiet (ret (E := E) a).
Proof. intros s. reflexivity. Qed.

Lemma quiet_throw {A : Type} e : quiet (throw (E := E) (A := A) e).
Proof. intros s. reflexivity. Qed.

Lemma quiet_lift {A : Type} (c : Completion A) : quiet (lift (E := E) c).
Proof. intros s. reflexivity. Qed.

Lemma quiet_bind {A B : Type} (m : M E A) (k : A -> M E B) :
  quiet m -> (forall a, quiet (k a)) -> quiet (bind m k).
Proof.
  intros Hm Hk s. unfold bind. specialize (Hm s).
  destruct (m s) as [[a|e] s']; simpl in *.
  - now rewrite Hk.
  - assumption.
Qed.

Lemma quiet_try_catch {A : Type} (m : M E A) (h : JsError -> M E A) :
  quiet m -> (forall e, quiet (h e)) -> quiet (try_catch m h).
Proof.
  intros Hm Hh s. unfold try_catch. specialize (Hm s).
  destruct (m s) as [[a|e] s']; simpl in *.
  - assumption.
  - now rewrite Hh.
Qed.

Lemma quiet_log l : quiet (log (E := E) l).
Proof.
  intros s. unfold log, emit. simpl. rewrite requests_of_app. simpl.
  apply app_nil_r.
Qed.

Lemma quiet_invoked name args : quiet (emit (E := E) (EvInvoke name args)).
Proof.
  intros s. unfold emit. simpl. rewrite requests_of_app. simpl. apply app_nil_r.
Qed.

Lemma quiet_close : quiet (emit (E := E) EvClose).
Proof.
  intros s. unfold emit. simpl. rewrite requests_of_app. simpl. apply app_nil_r.
Qed.

Lemma quiet_effect {A : Type} (f : World E -> (JsError + A) * World E) :
  quiet (effect f).
Proof. intros s. unfold effect. destruct (f (world s)) as [[e|a] w]; reflexivity. Qed.

Lemma quiet_observe {A : Type} (f : World E -> JsError + A) : quiet (observe f).
Proof. intros s. unfold observe. destruct (f (world s)); reflexivity. Qed.

Lemma quiet_parse text : quiet (parse (E := E) text).
Proof. intros s. unfold parse. destruct (JSON_parse E text); reflexivity. Qed.

Lemma quiet_destructure args k : quiet (destructure (E := E) args k).
Proof. apply quiet_lift. Qed.

Lemma quiet_length_of v : quiet (length_of (E := E) v).
Proof. intros s. destruct v as [[]|]; reflexivity. Qed.

Lemma quiet_to_text v : quiet (to_text (E := E) v).
Proof. intros s. unfold to_text. destruct (stringable v); reflexivity. Qed.

Lemma quiet_for_each {A S : Type} (body : A -> S -> M E S) xs :
  (forall x acc, quiet (body x acc)) -> forall acc, quiet (for_each body xs acc).
Proof.
  intros Hbody. induction xs as [|x xs IH]; intros acc; simpl.
  - apply quiet_ret.
  - apply quiet_bind; [apply Hbody | intros a; apply IH].
Qed.

Lemma quiet_invoke (handlers : gmap string (Handler E)) name args fallback :
  (forall n h, handlers !! n = Some h -> forall a, quiet (h a)) ->
  quiet (invoke handlers name args fallback).
Proof.
  intros H. unfold invoke. destruct (handlers !! name) as [h|] eqn:Hh.
  - apply quiet_bind; [apply quiet_invoked | intros _; eapply H; eassumption].
  - apply quiet_ret.
Qed.

End MonadFacts.

Create HintDb quiet.

#[local] Hint Resolve quiet_ret quiet_throw quiet_lift quiet_log quiet_invoked
  quiet_close quiet_effect quiet_observe quiet_parse quiet_destructure
  quiet_length_of quiet_to_text : quiet.

(** Breaks a computation into its primitives and closes each with the
    lemmas above. *)
Ltac quiet_step :=
  match goal with
  | |- quiet (bind _ _) => apply quiet_bind; [| intros ?]
  | |- quiet (try_catch _ _) => apply quiet_try_catch; [| intros ?]
  | |- quiet (for_each _ _ _) => apply quiet_for_each; intros ? ?
  | |- quiet (if ?b then _ else _) => destruct b
  | |- quiet (match ?x with _ => _ end) => destruct x
  | |- quiet _ => solve [auto with quiet]
  end.

Ltac quiet_auto := repeat quiet_step.

Section NeverThrows.
Context {E : Env}.

Lemma nt_ret {A : Type} (a : A) : never_throws (ret (E := E) a).
Proof. intros s. eauto. Qed.

Lemma nt_bind {A B : Type} (m : M E A) (k : A -> M E B) :
  never_throws m -> (forall a, never_throws (k a)) -> never_throws (bind m k).
Proof.
  intros Hm Hk s. destruct (Hm s) as (a & s1 & H1).
  destruct (Hk a s1) as (b & s2 & H2).
  exists b, s2. unfold bind. rewrite H1. assumption.
Qed.

(** A [try] block whose [catch] clause ends normally ends normally. *)
Lemma nt_try_catch {A : Type} (m : M E A) (h : JsError -> M E A) :
  (forall e, never_throws (h e)) -> never_throws (try_catch m h).
Proof.
  intros Hh s. unfold try_catch. destruct (m s) as [[a|e] s1].
  - eauto.
  - apply Hh.
Qed.

Lemma nt_emit ev : never_throws (emit (E := E) ev).
Proof. intros s. unfold emit. eauto. Qed.

Lemma nt_log l : never_throws (log (E := E) l).
Proof. apply nt_emit. Qed.

Lemma nt_create request : never_throws (create (E := E) request).
Proof. intros s. unfold create. destruct (chat_create E request (world s)). eauto. Qed.

Lemma nt_prop_object fields k :
  never_throws (lift (E := E) (prop (JObj fields) k)).
Proof. intros s. unfold lift. simpl. eauto. Qed.

Lemma nt_destructure_object fields k :
  never_throws (destructure (E := E) (JObj fields) k).
Proof. apply nt_prop_object. Qed.

Lemma nt_for_each {A S : Type} (body : A -> S -> M E S) (P : A -> Prop) xs :
  (forall x acc, P x -> never_throws (body x acc)) ->
  Forall P xs -> forall acc, never_throws (for_each body xs acc).
Proof.
  intros Hbody HP. induction HP as [|x xs Hx _ IH]; intros acc; simpl.
  - apply nt_ret.
  - apply nt_bind; [apply Hbody; assumption | intros a; apply IH].
Qed.

Lemma nt_invoke (handlers : gmap string (Handler E)) name args fallback :
  (forall n h, handlers !! n = Some h -> never_throws (h args)) ->
  never_throws (invoke handlers name args fallback).
Proof.
  intros H. unfold invoke. destruct (handlers !! name) as [h|] eqn:Hh.
  - apply nt_bind; [apply nt_emit | intros _; eapply H; eassumption].
  - apply nt_ret.
Qed.

Lemma ens_ret {A : Type} (a : A) (P : A -> Prop) : P a -> ensures (ret (E := E) a) P.
Proof. intros H s. exists a, s. split; [reflexivity | assumption]. Qed.

Lemma ens_bind {A B : Type} (m : M E A) (k : A -> M E B) (Q : A -> Prop) (P : B -> Prop) :
  ensures m Q -> (forall a, Q a -> ensures (k a) P) -> ensures (bind m k) P.
Proof.
  intros Hm Hk s. destruct (Hm s) as (a & s1 & H1 & Ha).
  destruct (Hk a Ha s1) as (b & s2 & H2 & Hb).
  exists b, s2. unfold bind. rewrite H1. split; assumption.
Qed.

Lemma ens_seq {A B : Type} (m : M E A) (k : A -> M E B) (P : B -> Prop) :
  never_throws m -> (forall a, ensures (k a) P) -> ensures (bind m k) P.
Proof.
  intros Hm Hk. apply ens_bind with (Q := fun _ => True).
  - intros s. destruct (Hm s) as (a & s1 & H1). exists a, s1. auto.
  - intros a _. apply Hk.
Qed.

Lemma nt_length_of v : is_nullish v = false -> never_throws (length_of (E := E) v).
Proof.
  intros H s. destruct v as [[]|]; simpl in *; try discriminate; unfold ret; eauto.
Qed.

Lemma nt_destructure_value v k :
  v <> JNull -> never_throws (destructure (E := E) v k).
Proof. intros Hv s. unfold destructure, lift. destruct v; simpl; eauto. contradiction. Qed.

Lemma nt_observe_total {A : Type} (f : World E -> A) :
  never_throws (observe (fun w => inr (f w))).
Proof. intros s. unfold observe. eauto. Qed.

(** The conversion of a value that can be converted. *)
Lemma to_text_run v (s : Sys E) :
  stringable v = true -> to_text v s = (Normal (ToString E v), s).
Proof. intros H. unfold to_text. rewrite H. reflexivity. Qed.

Lemma to_text_throws v (s : Sys E) :
  stringable v = false ->
  to_text v s = (Throw (TypeError "Cannot convert object to primitive value"), s).
Proof. intros H. unfold to_text. rewrite H. reflexivity. Qed.

Lemma nt_to_text v : stringable v = true -> never_throws (to_text (E := E) v).
Proof. intros H s. rewrite to_text_run by assumption. eauto. Qed.

Lemma nt_bind_ens {A B : Type} (m : M E A) (k : A -> M E B) (Q : A -> Prop) :
  ensures m Q -> (forall a, Q a -> never_throws (k a)) -> never_throws (bind m k).
Proof.
  intros Hm Hk s. destruct (Hm s) as (a & s1 & H1 & Ha).
  destruct (Hk a Ha s1) as (b & s2 & H2).
  exists b, s2. unfold bind. rewrite H1. assumption.
Qed.

(** A property of an object is one of its fields. *)
Lemma own_In k fields x : own k fields = Some x -> In (k, x) fields.
Proof.
  unfold own. rewrite <- fold_left_rev_right. intros H.
  apply in_rev. induction (rev fields) as [|[k' v] rest IH]; simpl in *.
  - discriminate H.
  - destruct (String.eqb k k') eqn:Hk.
    + injection H as <-. apply String.eqb_eq in Hk as <-. now left.
    + right. apply IH. assumption.
Qed.

Lemma own_absent k fields :
  forallb (fun kv => negb (String.eqb k (fst kv))) fields = true -> own k fields = None.
Proof.
  intros H. destruct (own k fields) as [x|] eqn:Hown; [| reflexivity].
  apply own_In in Hown. rewrite forallb_forall in H. apply H in Hown.
  simpl in Hown. rewrite String.eqb_refl in Hown. discriminate Hown.
Qed.

(** What is read from a tame value is tame, and a tame value can be turned
    into text. *)
Lemma tame_own k fields x :
  tame (JObj fields) = true -> own k fields = Some x -> tame x = true.
Proof.
  simpl. intros H Hown. apply own_In in Hown.
  rewrite forallb_forall in H. apply H in Hown.
  apply andb_true_iff in Hown as [_ Hx]. exact Hx.
Qed.

Lemma tame_convertible : forall v, tame v = true -> convertible v = true.
Proof.
  fix IH 1. intros [| | | |items|fields]; simpl; try reflexivity.
  - induction items as [|item items IHitems]; simpl; [reflexivity |].
    intros H. apply andb_true_iff in H as [H1 H2].
    rewrite (IH item H1). simpl. apply IHitems. exact H2.
  - intros H. rewrite own_absent; [reflexivity |].
    rewrite forallb_forall in *. intros kv Hkv. apply H in Hkv.
    apply andb_true_iff in Hkv as [Hk _]. exact Hk.
Qed.

Lemma tame_prop v k x :
  tame v = true -> prop v k = Normal x ->
  stringable x = true /\ match x with Some y => tame y = true | None => True end.
Proof.
  intros Hv Hprop. destruct v; simpl in Hprop; try discriminate Hprop;
    try (injection Hprop as <-; split; [reflexivity | exact I]).
  injection Hprop as <-. destruct (own k fields) as [y|] eqn:Hown.
  - pose proof (tame_own _ _ _ Hv Hown) as Hy. split; [| exact Hy].
    simpl. apply tame_convertible. exact Hy.
  - split; [reflexivity | exact I].
Qed.

Lemma tame_own_stringable fields k :
  tame (JObj fields) = true -> stringable (own k fields) = true.
Proof. intros H. eapply (tame_prop (JObj fields) k); [exact H | reflexivity]. Qed.

Lemma lift_prop_object fields k :
  lift (E := E) (prop (JObj fields) k) = ret (own k fields).
Proof. reflexivity. Qed.

(** The length of a tame value can be turned into text. *)
Lemma ens_length_of_tame v :
  is_nullish v = false ->
  match v with Some y => tame y = true | None => True end ->
  ensures (length_of (E := E) v) (fun x => stringable x = true).
Proof.
  intros Hv Htame s. destruct v as [[| | | | |fields]|]; simpl in *; try discriminate Hv;
    try (eexists; eexists; split; [reflexivity | reflexivity]).
  exists (own "length" fields), s. split; [reflexivity |].
  apply tame_own_stringable. exact Htame.
Qed.

(** What a handler reads from a tame payload can be turned into text. *)
Lemma ens_prop_tame v k :
  v <> JNull -> tame v = true ->
  ensures (lift (E := E) (prop v k))
          (fun x => stringable x = true /\
                    match x with Some y => tame y = true | None => True end).
Proof.
  intros Hv Htame s. unfold lift.
  destruct (prop v k) as [x|e] eqn:Hprop.
  - exists x, s. split; [reflexivity |]. eapply tame_prop; eassumption.
  - destruct v; simpl in Hprop; try discriminate Hprop. contradiction.
Qed.

Lemma ens_destructure_tame v k :
  v <> JNull -> tame v = true ->
  ensures (destructure (E := E) v k) (fun x => stringable x = true).
Proof.
  intros Hv Htame s. destruct (ens_prop_tame v k Hv Htame s) as (x & s' & Hrun & Hx & _).
  exists x, s'. split; assumption.
Qed.

End NeverThrows.

Create HintDb nothrow.

#[local] Hint Resolve nt_ret nt_emit nt_log nt_create nt_prop_object
  nt_destructure_object nt_destructure_value nt_observe_total : nothrow.

Ltac nothrow_step :=
  match goal with
  | |- never_throws (bind _ _) => apply nt_bind; [| intros ?]
  | |- never_throws (try_catch _ _) => apply nt_try_catch; intros ?
  | |- never_throws (if ?b then _ else _) => destruct b
  | |- never_throws _ => solve [auto with nothrow]
  end.

Ltac nothrow_auto := repeat nothrow_step.

(** The entries of a handler table written with [<[ _ := _ ]>]. *)
Ltac table_cases H :=
  repeat (apply lookup_insert_Some in H; destruct H as [[_ <-] | [_ H]]);
  [.. | rewrite lookup_empty in H; discriminate H].

Section Inversion.
Context {E : Env}.

Lemma bind_inv_normal {A B : Type} (m : M E A) (k : A -> M E B) s b s' :
  bind m k s = (Normal b, s') ->
  exists a s1, m s = (Normal a, s1) /\ k a s1 = (Normal b, s').
Proof.
  unfold bind. destruct (m s) as [[a|e] s1]; intros H.
  - exists a, s1. split; [reflexivity | assumption].
  - discriminate H.
Qed.

(** A loop body that appends one action-result turn per item appends, over
    the whole list, the answers to the items in order. *)
Lemma for_each_answers (body : ToolCall -> list Message -> M E (list Message)) :
  (forall call acc s acc' s',
      body call acc s = (Normal acc', s') ->
      exists result, acc' = acc ++ [MTool (tc_id call) result]) ->
  forall toolCalls acc s acc' s',
    for_each body toolCalls acc s = (Normal acc', s') ->
    exists results,
      length results = length toolCalls /\ acc' = acc ++ answers toolCalls results.
Proof.
  intros Hbody toolCalls.
  induction toolCalls as [|call rest IH]; intros acc s acc' s' H; simpl in H.
  - injection H as <- <-. exists []. split; [reflexivity |].
    symmetry. apply app_nil_r.
  - apply bind_inv_normal in H as (acc1 & s1 & H1 & H2).
    apply Hbody in H1 as [result ->].
    apply IH in H2 as (results & Hlen & ->).
    exists (result :: results). split.
    + simpl. now rewrite Hlen.
    + rewrite <- app_assoc. reflexivity.
Qed.

End Inversion.

(** Splits a hypothesis [bind m k s = (Normal b, s')] into its two runs. *)
Ltac bind_inv H :=
  let a := fresh "a" in
  let s1 := fresh "s" in
  let H1 := fresh "Hrun" in
  apply bind_inv_normal in H as (a & s1 & H1 & H).

(** ** Transcripts *)

Section TranscriptFacts.

Lemma leading_tags_app_assistant l m r :
  leading_tags (l ++ MAssistant m :: r) = leading_tags l.
Proof.
  induction l as [|x l IH]; simpl.
  - reflexivity.
  - destruct x; simpl; try assumption; [reflexivity | now rewrite IH].
Qed.

Lemma turns_app_assistant l m r :
  turns (l ++ MAssistant m :: r) = turns l ++ (m, leading_tags r) :: turns r.
Proof.
  induction l as [|x l IH]; simpl.
  - reflexivity.
  - destruct x; simpl; try assumption.
    rewrite IH, leading_tags_app_assistant. reflexivity.
Qed.

Lemma leading_tags_answers toolCalls results :
  length results = length toolCalls ->
  leading_tags (answers toolCalls results) = map tc_id toolCalls.
Proof.
  revert results. induction toolCalls as [|c cs IH]; intros [|r rs] H;
    simpl in *; try discriminate; try reflexivity.
  f_equal. apply IH. lia.
Qed.

Lemma turns_answers toolCalls results : turns (answers toolCalls results) = [].
Proof.
  revert results. induction toolCalls as [|c cs IH]; intros [|r rs]; simpl;
    try reflexivity. apply IH.
Qed.

Lemma answered_start prompt text : answered [MSystem prompt; MUser text].
Proof. split; simpl; constructor. Qed.

(** An assistant turn followed by the answers to its requests keeps the
    shape. *)
Lemma answered_turn messages m results :
  answered messages ->
  length results = length (calls m) ->
  answered ((messages ++ [MAssistant m]) ++ answers (calls m) results).
Proof.
  intros [Hlead Hturns] Hlen. rewrite <- app_assoc. simpl. split.
  - rewrite leading_tags_app_assistant. assumption.
  - rewrite turns_app_assistant, turns_answers.
    apply Forall_app. split; [assumption |].
    constructor; [| constructor]. simpl.
    apply leading_tags_answers. assumption.
Qed.

(** An assistant turn without requests keeps the shape. *)
Lemma answered_final messages m :
  answered messages -> no_calls m = true -> answered (messages ++ [MAssistant m]).
Proof.
  intros [Hlead Hturns] Hnone. split.
  - rewrite leading_tags_app_assistant. assumption.
  - rewrite turns_app_assistant. simpl.
    apply Forall_app. split; [assumption |].
    constructor; [| constructor]. simpl.
    unfold no_calls in Hnone. destruct (calls m); [reflexivity | discriminate].
Qed.

Lemma request_ids_turns messages :
  request_ids messages = flat_map (fun turn => map tc_id (calls (fst turn))) (turns messages).
Proof.
  induction messages as [|x l IH]; simpl.
  - reflexivity.
  - destruct x; simpl; try assumption. now rewrite IH.
Qed.

Lemma result_tags_turns messages :
  result_tags messages = leading_tags messages ++ flat_map snd (turns messages).
Proof.
  induction messages as [|x l IH]; simpl.
  - reflexivity.
  - destruct x; simpl; try assumption. now rewrite IH.
Qed.

Lemma answered_tags_are_ids messages :
  answered messages -> result_tags messages = request_ids messages.
Proof.
  intros [Hlead Hturns].
  rewrite result_tags_turns, request_ids_turns, Hlead. simpl.
  induction Hturns as [|turn rest Hturn _ IH]; simpl.
  - reflexivity.
  - now rewrite Hturn, IH.
Qed.

Lemma NoDup_flat_map_each {A B : Type} (f : A -> list B) l :
  NoDup (flat_map f l) -> Forall (fun x => NoDup (f x)) l.
Proof.
  induction l as [|x l IH]; simpl; intros H.
  - constructor.
  - apply NoDup_app in H as (Hx & _ & Hl).
    constructor; [assumption | apply IH; assumption].
Qed.

Lemma count_occ_once (l : list string) x :
  NoDup l -> In x l -> count_occ string_dec l x = 1.
Proof. intros H. apply NoDup_count_occ'. apply NoDup_ListNoDup. assumption. Qed.

(** With distinct request identifiers, the shape gives the invariant of the
    data model. *)
Lemma answered_well_tagged messages :
  answered messages -> NoDup (request_ids messages) -> well_tagged messages.
Proof.
  intros Hans Hids.
  pose proof (answered_tags_are_ids messages Hans) as Htags.
  destruct Hans as [Hlead Hturns].
  pose proof Hids as Heach.
  rewrite request_ids_turns in Heach.
  apply NoDup_flat_map_each in Heach.
  assert (Hboth : Forall (fun turn =>
                    snd turn = map tc_id (calls (fst turn)) /\
                    NoDup (map tc_id (calls (fst turn)))) (turns messages)).
  { apply Forall_and. split; assumption. }
  repeat split.
  - assumption.
  - eapply Forall_impl; [exact Hboth |]. intros [a tags] [-> Hnd]. simpl in *.
    apply Forall_forall. intros tag Hin. apply count_occ_once; [assumption |].
    apply list_elem_of_In. assumption.
  - rewrite Htags. assumption.
  - eapply Forall_impl; [exact Hboth |]. intros [a tags] [-> Hnd]. simpl in *.
    apply Forall_forall. intros call Hin. apply count_occ_once; [assumption |].
    apply in_map. apply list_elem_of_In. assumption.
Qed.

End TranscriptFacts.

(** ** 04-real-tools.ts *)

Section Facts04.
Context {E : Env}.

Lemma F04_handlers_quiet n (h : Handler E) :
  F04.toolHandlers !! n = Some h -> forall a, quiet (h a).
Proof.
  intros H a. unfold F04.toolHandlers in H. table_cases H.
  - unfold F04.run_bash. quiet_auto.
  - unfold F04.read_file. quiet_auto.
Qed.

Lemma F04_answer_quiet call messages : quiet (F04.answer (E := E) call messages).
Proof.
  unfold F04.answer. quiet_auto.
  apply quiet_invoke. apply F04_handlers_quiet.
Qed.

Lemma F04_answer_shape call messages (s : Sys E) messages' s' :
  F04.answer call messages s = (Normal messages', s') ->
  exists result, messages' = messages ++ [MTool (tc_id call) result].
Proof.
  unfold F04.answer. intros H.
  bind_inv H. bind_inv H. bind_inv H. bind_inv H.
  injection H as <- <-. eexists. reflexivity.
Qed.

End Facts04.

Section Loops04.
Context {E : Env}.

Lemma F04_for_each_shape toolCalls messages (s : Sys E) messages' s' :
  for_each F04.answer toolCalls messages s = (Normal messages', s') ->
  exists results,
    length results = length toolCalls /\ messages' = messages ++ answers toolCalls results.
Proof. apply for_each_answers. intros *. apply F04_answer_shape. Qed.

(** One pass of the [while] loop. *)
Lemma F04_loop_step n i messages (s : Sys E) :
  F04.loop (S n) i messages s =
  let request := mkRequest messages F04.tools in
  let (m, w) := chat_create E request (world s) in
  let s1 := mkSys w (trace s ++ [EvLog (LIteration (S i)); EvRequest request]) in
  if no_calls m
  then (Normal (messages ++ [MAssistant m]),
        mkSys w (trace s1 ++ [EvLog (LAnswer (content m))]))
  else
    match for_each F04.answer (calls m) (messages ++ [MAssistant m]) s1 with
    | (Normal messages', s2) => F04.loop n (S i) messages' s2
    | (Throw e, s2) => (Throw e, s2)
    end.
Proof.
  simpl. unfold bind, log, emit, create. simpl.
  destruct (chat_create E _ _) as [m w]. simpl.
  rewrite <- app_assoc. simpl.
  destruct (no_calls m); reflexivity.
Qed.

Lemma F04_for_each_quiet toolCalls messages (s : Sys E) :
  requests_of (trace (snd (for_each F04.answer toolCalls messages s)))
  = requests_of (trace s).
Proof. apply quiet_for_each. intros call acc. apply F04_answer_quiet. Qed.

Lemma F04_loop_answered n : forall i messages (s : Sys E),
  answered messages ->
  Forall (fun rq => answered (rq_messages rq)) (requests_of (trace s)) ->
  Forall (fun rq => answered (rq_messages rq))
         (requests_of (trace (snd (F04.loop n i messages s)))) /\
  (forall messages', fst (F04.loop n i messages s) = Normal messages' ->
                     answered messages').
Proof.
  induction n as [|n IH]; intros i messages s Hmsgs Hreqs.
  - simpl. split; [assumption |]. intros messages' H. injection H as <-. assumption.
  - rewrite F04_loop_step. cbv zeta.
    destruct (chat_create E _ _) as [m w].
    set (s1 := mkSys w (trace s ++ [EvLog _; EvRequest _])).
    assert (Hreqs1 : Forall (fun rq => answered (rq_messages rq)) (requests_of (trace s1))).
    { unfold s1. simpl. rewrite requests_of_app. simpl.
      apply Forall_app. split; [assumption |]. constructor; [exact Hmsgs | constructor]. }
    destruct (no_calls m) eqn:Hcalls.
    + simpl. split.
      * rewrite requests_of_app. simpl. rewrite app_nil_r. exact Hreqs1.
      * intros messages' H. injection H as <-. apply answered_final; assumption.
    + pose proof (F04_for_each_quiet (calls m) (messages ++ [MAssistant m]) s1) as Hq.
      destruct (for_each F04.answer _ _ s1) as [[messages1|e] s2] eqn:Hfe; simpl in Hq.
      * apply IH.
        -- apply F04_for_each_shape in Hfe as (results & Hlen & ->).
           apply answered_turn; assumption.
        -- rewrite Hq. exact Hreqs1.
      * simpl. split; [rewrite Hq; exact Hreqs1 | discriminate].
Qed.

End Loops04.

(** ** 03-agent-loop.ts *)

Section Loops03.
Context {E : Env}.

Lemma F03_handlers_quiet n (h : Handler E) :
  F03.toolHandlers !! n = Some h -> forall a, quiet (h a).
Proof.
  intros H a. unfold F03.toolHandlers in H. table_cases H.
  - unfold F03.get_weather. quiet_auto.
  - unfold F03.get_time. quiet_auto.
Qed.

Lemma F03_answer_quiet call messages : quiet (F03.answer (E := E) call messages).
Proof.
  unfold F03.answer. quiet_auto.
  apply quiet_invoke. apply F03_handlers_quiet.
Qed.

Lemma F03_answer_shape call messages (s : Sys E) messages' s' :
  F03.answer call messages s = (Normal messages', s') ->
  exists result, messages' = messages ++ [MTool (tc_id call) result].
Proof.
  unfold F03.answer. intros H.
  bind_inv H. bind_inv H. bind_inv H. bind_inv H.
  injection H as <- <-. eexists. reflexivity.
Qed.

Lemma F03_for_each_shape toolCalls messages (s : Sys E) messages' s' :
  for_each F03.answer toolCalls messages s = (Normal messages', s') ->
  exists results,
    length results = length toolCalls /\ messages' = messages ++ answers toolCalls results.
Proof. apply for_each_answers. intros *. apply F03_answer_shape. Qed.

Lemma F03_for_each_quiet toolCalls messages (s : Sys E) :
  requests_of (trace (snd (for_each F03.answer toolCalls messages s)))
  = requests_of (trace s).
Proof. apply quiet_for_each. intros call acc. apply F03_answer_quiet. Qed.

(** One pass of the [while] loop. *)
Lemma F03_loop_step n i messages (s : Sys E) :
  F03.loop (S n) i messages s =
  let request := mkRequest messages F03.tools in
  let (m, w) := chat_create E request (world s) in
  let s1 := mkSys w (trace s ++ [EvLog (LIteration (S i)); EvRequest request]) in
  if no_calls m
  then (Normal (Value (content m), messages ++ [MAssistant m]),
        mkSys w (trace s1 ++ [EvLog (LAnswer (content m))]))
  else
    match for_each F03.answer (calls m) (messages ++ [MAssistant m]) s1 with
    | (Normal messages', s2) => F03.loop n (S i) messages' s2
    | (Throw e, s2) => (Throw e, s2)
    end.
Proof.
  simpl. unfold bind, log, emit, create. simpl.
  destruct (chat_create E _ _) as [m w]. simpl.
  rewrite <- app_assoc. simpl.
  destruct (no_calls m); reflexivity.
Qed.

Lemma F03_loop_answered n : forall i messages (s : Sys E),
  answered messages ->
  Forall (fun rq => answered (rq_messages rq)) (requests_of (trace s)) ->
  Forall (fun rq => answered (rq_messages rq))
         (requests_of (trace (snd (F03.loop n i messages s)))) /\
  (forall out, fst (F03.loop n i messages s) = Normal out -> answered (snd out)).
Proof.
  induction n as [|n IH]; intros i messages s Hmsgs Hreqs.
  - simpl. split.
    + rewrite requests_of_app. simpl. rewrite app_nil_r. assumption.
    + intros out H. injection H as <-. assumption.
  - rewrite F03_loop_step. cbv zeta.
    destruct (chat_create E _ _) as [m w].
    set (s1 := mkSys w (trace s ++ [EvLog _; EvRequest _])).
    assert (Hreqs1 : Forall (fun rq => answered (rq_messages rq)) (requests_of (trace s1))).
    { unfold s1. simpl. rewrite requests_of_app. simpl.
      apply Forall_app. split; [assumption |]. constructor; [exact Hmsgs | constructor]. }
    destruct (no_calls m) eqn:Hcalls.
    + simpl. split.
      * rewrite requests_of_app. simpl. rewrite app_nil_r. exact Hreqs1.
      * intros out H. injection H as <-. apply answered_final; assumption.
    + pose proof (F03_for_each_quiet (calls m) (messages ++ [MAssistant m]) s1) as Hq.
      destruct (for_each F03.answer _ _ s1) as [[messages1|e] s2] eqn:Hfe; simpl in Hq.
      * apply IH.
        -- apply F03_for_each_shape in Hfe as (results & Hlen & ->).
           apply answered_turn; assumption.
        -- rewrite Hq. exact Hreqs1.
      * simpl. split; [rewrite Hq; exact Hreqs1 | discriminate].
Qed.

End Loops03.

(** ** The transcript invariant *)

Section Invariant.
Context {E : Env}.

Lemma produced_answered {A : Type} (run : M E A) (final : A -> list Message)
    (s : Sys E) messages :
  Forall (fun rq => answered (rq_messages rq)) (requests_of (trace (snd (run s)))) ->
  (forall a, fst (run s) = Normal a -> answered (final a)) ->
  produces run final s messages -> answered messages.
Proof.
  intros Hreqs Hfinal [(a & Ha & <-) | Hin].
  - apply Hfinal. assumption.
  - apply in_map_iff in Hin as (rq & <- & Hin).
    rewrite Forall_forall in Hreqs. apply Hreqs. apply list_elem_of_In. assumption.
Qed.

End Invariant.

(** C7, as amended.  In every transcript the turn executor of
    04-real-tools.ts or of 03-agent-loop.ts produces (the transcript a run
    ends with, and every transcript it sends in a decision request), every
    request of an assistant turn is answered by exactly one action-result
    turn, in the order of the requests, before the next assistant turn, and
    the tag of each action-result is the identifier of the request it
    answers.  The identifiers are copied from the service's answer without
    a check: the invariant of the data model (each tag matches exactly one
    request, no two action-result turns share a tag) holds of the
    transcript exactly when the service's request identifiers are
    distinct. *)
Theorem C7_action_results_answer_requests (E : Env) (LIMIT : nat)
    (userMessage : string) (s : Sys E) (messages : list Message) :
  trace s = [] ->
  produces (F04.agentLoop_with LIMIT userMessage) (fun m => m) s messages \/
  produces (F03.agentLoop_with LIMIT userMessage) snd s messages ->
  answered messages /\
  result_tags messages = request_ids messages /\
  (well_tagged messages <-> NoDup (request_ids messages)).
Proof.
  intros Hfresh Hproduced.
  assert (Hans : answered messages).
  { destruct Hproduced as [H | H].
    - eapply produced_answered; [| | exact H].
      + apply F04_loop_answered; [apply answered_start |].
        rewrite Hfresh. constructor.
      + intros a Ha. eapply F04_loop_answered; [apply answered_start | | exact Ha].
        rewrite Hfresh. constructor.
    - eapply produced_answered; [| | exact H].
      + apply F03_loop_answered; [apply answered_start |].
        rewrite Hfresh. constructor.
      + intros a Ha. eapply F03_loop_answered; [apply answered_start | | exact Ha].
        rewrite Hfresh. constructor. }
  pose proof (answered_tags_are_ids messages Hans) as Htags.
  split; [exact Hans |]. split; [exact Htags |]. split.
  - intros (_ & Hnodup & _). rewrite <- Htags. exact Hnodup.
  - apply answered_well_tagged. exact Hans.
Qed.

Lemma C7_action_results_answer_requests_witness :
  answered Demo.explore_transcript /\
  result_tags Demo.explore_transcript = request_ids Demo.explore_transcript /\
  (well_tagged Demo.explore_transcript <-> NoDup (request_ids Demo.explore_transcript)).
Proof.
  apply (C7_action_results_answer_requests (Demo.env Demo.explore) 10 "task"
           (Demo.boot Demo.explore Demo.start)).
  - reflexivity.
  - left. left. exists Demo.explore_transcript.
    split; [vm_compute; reflexivity | reflexivity].
Defined.

(** C7 as stated fails: the tags are not checked.  The service sends two
    requests under the identifier c1 in one answer; the loop of 04 runs
    both and appends two action-result turns tagged c1.  The tag c1 then
    matches two requests, and two action-result turns share it. *)
Lemma C7_twin_identifiers_share_a_tag :
  let run := F04.agentLoop "task" (Demo.boot Demo.twins Demo.start) in
  let transcript := match value_of (fst run) with Some m => m | None => [] end in
  transcript
  = [ MSystem (StaticPrompt "04"); MUser "task";
      MAssistant (Demo.twins 0 (mkRequest [] []));
      MTool "c1" "ls"; MTool "c1" "pwd";
      MAssistant (Demo.say "done") ] /\
  request_ids transcript = ["c1"; "c1"] /\
  result_tags transcript = ["c1"; "c1"] /\
  count_occ string_dec (result_tags transcript) "c1" = 2 /\
  ~ NoDup (result_tags transcript) /\
  ~ well_tagged transcript.
Proof.
  cbv zeta.
  assert (Hrun : match value_of (fst (F04.agentLoop "task" (Demo.boot Demo.twins Demo.start)))
                 with Some m => m | None => [] end
                 = [ MSystem (StaticPrompt "04"); MUser "task";
                     MAssistant (Demo.twins 0 (mkRequest [] []));
                     MTool "c1" "ls"; MTool "c1" "pwd";
                     MAssistant (Demo.say "done") ]).
  { vm_compute. reflexivity. }
  rewrite Hrun.
  assert (Hdup : ~ NoDup (result_tags
                   [ MSystem (StaticPrompt "04"); MUser "task";
                     MAssistant (Demo.twins 0 (mkRequest [] []));
                     MTool "c1" "ls"; MTool "c1" "pwd";
                     MAssistant (Demo.say "done") ])).
  { simpl. intros H. apply NoDup_cons_1_1 in H. apply H. left. }
  repeat split; try reflexivity; [exact Hdup |].
  intros (_ & Hnodup & _). exact (Hdup Hnodup).
Qed.

(** ** The iteration ceiling *)

Section Ceiling03.
Context {E : Env}.

Lemma F03_answer_nothrow call messages :
  payload_tame (E := E) call -> never_throws (F03.answer (E := E) call messages).
Proof.
  intros (v & Hv & Hvalue & Htame). unfold F03.answer, parse. rewrite Hv, bind_ret_l.
  nothrow_auto. apply nt_invoke. intros n h Hh.
  unfold F03.toolHandlers in Hh. table_cases Hh.
  - unfold F03.get_weather.
    eapply nt_bind_ens; [apply ens_destructure_tame; assumption |].
    intros city Hcity. apply nt_bind; [apply nt_to_text; exact Hcity |].
    intros key. nothrow_auto.
  - unfold F03.get_time.
    eapply nt_bind_ens; [apply ens_destructure_tame; assumption |].
    intros city Hcity. apply nt_bind; [apply nt_to_text; exact Hcity |].
    intros place. nothrow_auto.
Qed.

(** A service that never finalizes drives the loop of 03 through exactly
    the iterations its condition admits; the loop then prints the limit
    line and the function returns [undefined]. *)
Lemma F03_loop_limit n : forall i messages (s : Sys E),
  always_requests (E := E) -> payloads_tame (E := E) ->
  exists messages' s',
    F03.loop n i messages s = (Normal (Undefined, messages'), s') /\
    length (requests_of (trace s')) = length (requests_of (trace s)) + n /\
    last (lines_of (trace s')) = Some LLimit.
Proof.
  induction n as [|n IH]; intros i messages s Hbusy Hok.
  - exists messages. eexists. simpl. unfold bind, log, emit, ret. simpl.
    split; [reflexivity |]. simpl. split.
    + rewrite requests_of_app. simpl. rewrite app_nil_r. lia.
    + rewrite lines_of_app. simpl. apply last_snoc.
  - rewrite F03_loop_step. cbv zeta.
    pose proof (Hbusy (mkRequest messages F03.tools) (world s)) as Hm.
    pose proof (Hok (mkRequest messages F03.tools) (world s)) as Hcalls.
    destruct (chat_create E _ _) as [m w]. simpl in Hm, Hcalls. rewrite Hm.
    set (s1 := mkSys w (trace s ++ [EvLog _; EvRequest _])).
    pose proof (F03_for_each_quiet (calls m) (messages ++ [MAssistant m]) s1) as Hq.
    destruct (nt_for_each F03.answer payload_tame (calls m)
                (fun x acc Hx => F03_answer_nothrow x acc Hx) Hcalls
                (messages ++ [MAssistant m]) s1) as (messages1 & s2 & Hfe).
    rewrite Hfe in *. simpl in Hq.
    destruct (IH (S i) messages1 s2 Hbusy Hok) as (messages' & s' & Hrun & Hcount & Hline).
    exists messages', s'. split; [assumption |]. split; [| assumption].
    rewrite Hcount, Hq. unfold s1. simpl. rewrite requests_of_app. simpl.
    rewrite length_app. simpl. lia.
Qed.

(** What the value returned by 03's loop tells: a content is returned only
    for an assistant turn without requests, right after the answer line;
    [undefined] is returned only after the limit line, when the loop has
    sent a request in each of its iterations. *)
Lemma F03_loop_outcome n : forall i messages (s : Sys E) r messages' s',
  F03.loop n i messages s = (Normal (r, messages'), s') ->
  match r with
  | Value c =>
      last (lines_of (trace s')) = Some (LAnswer c) /\
      exists m, last messages' = Some (MAssistant m) /\ no_calls m = true /\ content m = c
  | Undefined =>
      last (lines_of (trace s')) = Some LLimit /\
      length (requests_of (trace s')) = length (requests_of (trace s)) + n
  end.
Proof.
  induction n as [|n IH]; intros i messages s r messages' s' H.
  - simpl in H. unfold bind, log, emit, ret in H. simpl in H.
    injection H as <- <- <-. simpl. split.
    + rewrite lines_of_app. simpl. apply last_snoc.
    + rewrite requests_of_app. simpl. rewrite app_nil_r. lia.
  - rewrite F03_loop_step in H. cbv zeta in H.
    destruct (chat_create E _ _) as [m w].
    set (s1 := mkSys w (trace s ++ [EvLog _; EvRequest _])) in H.
    destruct (no_calls m) eqn:Hm.
    + injection H as <- <- <-. simpl. split.
      * rewrite !lines_of_app. simpl. apply last_snoc.
      * exists m. rewrite last_snoc. auto.
    + pose proof (F03_for_each_quiet (calls m) (messages ++ [MAssistant m]) s1) as Hq.
      destruct (for_each F03.answer _ _ s1) as [[messages1|e] s2]; [| discriminate H].
      simpl in Hq. apply IH in H. destruct r; [| exact H].
      destruct H as [Hline Hcount]. split; [assumption |].
      rewrite Hcount, Hq. unfold s1. simpl. rewrite requests_of_app. simpl.
      rewrite length_app. simpl. lia.
Qed.

End Ceiling03.

(** ** 07-adaptive-agent.ts: the execution loop *)

Section Loops07.
Context {E : Env}.

Lemma F07_handlers_quiet n (h : Handler E) :
  F07.toolHandlers !! n = Some h -> forall a, quiet (h a).
Proof.
  intros H a. unfold F07.toolHandlers in H. table_cases H.
  - unfold F07.think. quiet_auto.
  - unfold F07.run_bash. quiet_auto.
  - unfold F07.read_file. quiet_auto.
  - unfold F07.write_file. quiet_auto.
  - unfold F07.request_replan. quiet_auto.
Qed.

Lemma F07_handlers_nothrow n (h : Handler E) fields :
  F07.toolHandlers !! n = Some h -> never_throws (h (JObj fields)).
Proof.
  intros H. unfold F07.toolHandlers in H. table_cases H.
  - unfold F07.think. nothrow_auto.
  - unfold F07.run_bash. nothrow_auto.
  - unfold F07.read_file. nothrow_auto.
  - unfold F07.write_file. nothrow_auto.
  - unfold F07.request_replan. nothrow_auto.
Qed.

Lemma F07_argsPreview_quiet name args : quiet (F07.argsPreview (E := E) name args).
Proof. unfold F07.argsPreview. quiet_auto. Qed.

Lemma F07_answer_quiet call messages : quiet (F07.answer (E := E) call messages).
Proof.
  unfold F07.answer. quiet_auto;
    try (apply quiet_invoke; apply F07_handlers_quiet);
    apply F07_argsPreview_quiet.
Qed.

Lemma F07_for_calls_quiet toolCalls : forall messages,
  quiet (F07.for_calls (E := E) toolCalls messages).
Proof.
  induction toolCalls as [|call rest IH]; intros messages; simpl.
  - apply quiet_ret.
  - apply quiet_bind; [apply F07_answer_quiet |].
    intros [messages1 | messages1 result]; [apply IH | apply quiet_ret].
Qed.

Lemma F07_argsPreview_nothrow name fields :
  tame (JObj fields) = true ->
  (name = "write_file" -> is_nullish (own "content" fields) = false) ->
  never_throws (F07.argsPreview (E := E) name (JObj fields)).
Proof.
  intros Htame Hcontent. unfold F07.argsPreview.
  destruct (String.eqb name "write_file") eqn:Hname; [| apply nt_ret].
  apply String.eqb_eq in Hname. specialize (Hcontent Hname).
  rewrite !lift_prop_object, bind_ret_l.
  apply nt_bind; [apply nt_to_text, tame_own_stringable; exact Htame | intros _].
  rewrite bind_ret_l.
  eapply nt_bind_ens.
  - apply ens_length_of_tame; [exact Hcontent |].
    destruct (own "content" fields) as [y|] eqn:Hown; [| exact I].
    eapply tame_own; eassumption.
  - intros len Hlen. apply nt_bind; [apply nt_to_text; exact Hlen | intros _; apply nt_ret].
Qed.

(** A plain request is answered with one action-result turn and the loop
    body goes on to the next request. *)
Lemma F07_answer_plain call messages :
  plain_call (E := E) call ->
  ensures (F07.answer (E := E) call messages)
          (fun flow => exists text, flow = F07.Next (messages ++ [MTool (tc_id call) text])).
Proof.
  intros (Hname & _ & fields & Hparse & Htame & Hcontent).
  unfold F07.answer, parse. rewrite Hparse, bind_ret_l.
  apply ens_bind with (Q := fun returned => returned = None).
  - destruct (String.eqb (tc_name call) "think").
    + rewrite lift_prop_object, bind_ret_l.
      apply ens_seq; [apply nt_to_text, tame_own_stringable; exact Htame | intros _].
      apply ens_seq; [apply nt_log | intros _]. apply ens_ret. reflexivity.
    + destruct (String.eqb (tc_name call) "request_replan") eqn:Hreplan.
      * apply String.eqb_eq in Hreplan. contradiction.
      * apply ens_seq; [apply F07_argsPreview_nothrow; assumption | intros _].
        apply ens_seq; [apply nt_log | intros _].
        apply ens_seq; [| intros result].
        { apply nt_invoke. intros n h Hh. eapply F07_handlers_nothrow. eassumption. }
        apply ens_seq; [apply nt_log | intros _]. apply ens_ret. reflexivity.
  - intros returned ->.
    apply ens_seq; [| intros text].
    { apply nt_invoke. intros n h Hh. eapply F07_handlers_nothrow. eassumption. }
    apply ens_ret. eauto.
Qed.

Lemma F07_for_calls_plain toolCalls : forall messages,
  Forall (plain_call (E := E)) toolCalls ->
  ensures (F07.for_calls (E := E) toolCalls messages)
          (fun flow => exists messages', flow = F07.Next messages').
Proof.
  induction toolCalls as [|call rest IH]; intros messages Hplain; simpl.
  - apply ens_ret. eauto.
  - inversion Hplain as [|? ? Hcall Hrest]; subst.
    eapply ens_bind; [apply F07_answer_plain; assumption |].
    intros flow [text ->]. apply IH. assumption.
Qed.

(** One pass of the [while] loop. *)
Lemma F07_loop_step n i messages (s : Sys E) :
  F07.loop (S n) i messages s =
  let request := mkRequest messages F07.executionTools in
  let (m, w) := chat_create E request (world s) in
  let s1 := mkSys w (trace s ++ [EvRequest request]) in
  if no_calls m
  then (Normal (mkResult completed None, messages ++ [MAssistant m]),
        mkSys w (trace s1 ++ [EvLog (LExecuted (S i) (content m))]))
  else
    match F07.for_calls (calls m) (messages ++ [MAssistant m]) s1 with
    | (Normal (F07.Next messages'), s2) => F07.loop n (S i) messages' s2
    | (Normal (F07.Return messages' result), s2) => (Normal (result, messages'), s2)
    | (Throw e, s2) => (Throw e, s2)
    end.
Proof.
  simpl. unfold bind, log, emit, create. simpl.
  destruct (chat_create E _ _) as [m w]. simpl.
  destruct (no_calls m); [reflexivity |].
  destruct (F07.for_calls _ _ _) as [[[messages1 | messages1 result]|e] s2]; reflexivity.
Qed.

(** A service that never finalizes and never asks for a new plan drives
    executeWithReact through exactly the iterations its condition admits;
    the function then returns the status "completed". *)
Lemma F07_loop_limit n : forall i messages (s : Sys E),
  always_requests (E := E) -> plain_calls (E := E) ->
  exists messages' s',
    F07.loop n i messages s = (Normal (mkResult completed None, messages'), s') /\
    length (requests_of (trace s')) = length (requests_of (trace s)) + n.
Proof.
  induction n as [|n IH]; intros i messages s Hbusy Hplain.
  - exists messages, s. split; [reflexivity | lia].
  - rewrite F07_loop_step. cbv zeta.
    pose proof (Hbusy (mkRequest messages F07.executionTools) (world s)) as Hm.
    pose proof (Hplain (mkRequest messages F07.executionTools) (world s)) as Hcalls.
    destruct (chat_create E _ _) as [m w]. simpl in Hm, Hcalls. rewrite Hm.
    set (s1 := mkSys w (trace s ++ [EvRequest _])).
    pose proof (F07_for_calls_quiet (calls m) (messages ++ [MAssistant m]) s1) as Hq.
    destruct (F07_for_calls_plain (calls m) (messages ++ [MAssistant m]) Hcalls s1)
      as (flow & s2 & Hfc & messages1 & ->).
    rewrite Hfc in *. simpl in Hq.
    destruct (IH (S i) messages1 s2 Hbusy Hplain) as (messages' & s' & Hrun & Hcount).
    exists messages', s'. split; [assumption |].
    rewrite Hcount, Hq. unfold s1. simpl. rewrite requests_of_app. simpl.
    rewrite length_app. simpl. lia.
Qed.

(** A final answer in the first iteration: the same status. *)
Lemma F07_loop_final n i messages (s : Sys E) :
  no_calls (fst (chat_create E (mkRequest messages F07.executionTools) (world s))) = true ->
  exists messages' s',
    F07.loop (S n) i messages s = (Normal (mkResult completed None, messages'), s') /\
    length (requests_of (trace s')) = length (requests_of (trace s)) + 1 /\
    last (lines_of (trace s')) =
      Some (LExecuted (S i)
              (content (fst (chat_create E (mkRequest messages F07.executionTools)
                                         (world s))))).
Proof.
  intros Hm. rewrite F07_loop_step. cbv zeta.
  destruct (chat_create E _ _) as [m w]. simpl in Hm. rewrite Hm.
  eexists. eexists. split; [reflexivity |]. simpl. split.
  - rewrite !requests_of_app. simpl. rewrite !length_app. simpl. lia.
  - rewrite !lines_of_app. simpl. apply last_snoc.
Qed.

End Loops07.

(** C2, as amended.  For every ceiling N and every service that never
    finalizes and whose requests can be read (the payloads are JSON text for
    tame values other than null, the names are not inherited ones):
    - the loop of 03-agent-loop.ts sends exactly N decision requests, prints
      the limit line and returns [undefined]; for any service, [undefined]
      is returned only in that case, and a returned content comes from an
      assistant turn without requests, right after the answer line;
    - executeWithReact, when the service moreover never asks for a new
      plan (and its payloads are objects, with a content for write_file),
      sends exactly N decision requests and returns the status "completed"
      with no context, which is also what it returns for a final answer in
      its first iteration. *)
Theorem C2_iteration_ceiling (E : Env) (N : nat) (s : Sys E) :
  (always_requests (E := E) -> payloads_tame (E := E) -> plain_names (E := E) ->
   forall userMessage, exists messages s',
     F03.agentLoop_with N userMessage s = (Normal (Undefined, messages), s') /\
     length (requests_of (trace s')) = length (requests_of (trace s)) + N /\
     last (lines_of (trace s')) = Some LLimit) /\
  (forall userMessage r messages s',
     F03.agentLoop_with N userMessage s = (Normal (r, messages), s') ->
     match r with
     | Value c =>
         last (lines_of (trace s')) = Some (LAnswer c) /\
         exists m, last messages = Some (MAssistant m) /\
                   no_calls m = true /\ content m = c
     | Undefined =>
         last (lines_of (trace s')) = Some LLimit /\
         length (requests_of (trace s')) = length (requests_of (trace s)) + N
     end) /\
  (always_requests (E := E) -> plain_calls (E := E) ->
   forall task plan, exists messages s',
     F07.executeWithReact_with N task plan s
       = (Normal (mkResult completed None, messages), s') /\
     length (requests_of (trace s')) = length (requests_of (trace s)) + N) /\
  (forall task plan,
     no_calls (fst (chat_create E
                      (mkRequest [MSystem (ExecutorPrompt plan); MUser task]
                                 F07.executionTools) (world s))) = true ->
     exists messages s',
       F07.executeWithReact_with (S N) task plan s
         = (Normal (mkResult completed None, messages), s') /\
       length (requests_of (trace s')) = length (requests_of (trace s)) + 1).
Proof.
  repeat split.
  - intros Hbusy Hok _ userMessage. apply F03_loop_limit; assumption.
  - intros userMessage r messages s' H. eapply F03_loop_outcome. exact H.
  - intros Hbusy Hplain task plan. apply F07_loop_limit; assumption.
  - intros task plan Hm.
    destruct (F07_loop_final N 0 _ s Hm) as (messages & s' & Hrun & Hcount & _).
    exists messages, s'. split; assumption.
Qed.

Lemma C2_iteration_ceiling_witness :
  (exists messages s',
     F03.agentLoop_with 3 "task" (Demo.boot Demo.busy Demo.start)
       = (Normal (Undefined, messages), s') /\
     length (requests_of (trace s')) = 0 + 3 /\
     last (lines_of (trace s')) = Some LLimit) /\
  (exists messages s',
     F07.executeWithReact_with 3 "task" Demo.plan (Demo.boot Demo.busy Demo.start)
       = (Normal (mkResult completed None, messages), s') /\
     length (requests_of (trace s')) = 0 + 3).
Proof.
  assert (Hbusy : always_requests (E := Demo.env Demo.busy)).
  { intros request w. reflexivity. }
  destruct (C2_iteration_ceiling (Demo.env Demo.busy) 3 (Demo.boot Demo.busy Demo.start))
    as (H03 & _ & H07 & _).
  split.
  - apply H03; [exact Hbusy | |].
    + intros request w. constructor; [| constructor].
      eexists. split; [vm_compute; reflexivity |].
      split; [discriminate | reflexivity].
    + intros request w. simpl. repeat constructor.
  - apply H07; [exact Hbusy |].
    intros request w. constructor; [| constructor].
    split; [discriminate |]. split; [reflexivity |].
    eexists. split; [vm_compute; reflexivity |].
    split; [reflexivity | discriminate].
Defined.

(** C2 as stated fails on executeWithReact.  A service that asks for a new
    plan in every answer never finalizes, yet the loop of 20 iterations ends
    after one request.  And a service that asks for one more thought in
    every answer makes the function return, after 20 requests, the very
    value it returns for a final answer after one request. *)
Lemma C2_limit_reported_as_completed :
  (forall n request, no_calls (Demo.revise n request) = false) /\
  (let run := F07.executeWithReact "task" Demo.plan (Demo.boot Demo.revise Demo.start) in
   option_map (fun out => status (fst out)) (value_of (fst run)) = Some replan_requested /\
   length (requests_of (trace (snd run))) = 1) /\
  (forall n request, no_calls (Demo.busy n request) = false) /\
  (let limit := F07.executeWithReact "task" Demo.plan (Demo.boot Demo.busy Demo.start) in
   let final := F07.executeWithReact "task" Demo.plan (Demo.boot Demo.finish Demo.start) in
   length (requests_of (trace (snd limit))) = 20 /\
   length (requests_of (trace (snd final))) = 1 /\
   option_map fst (value_of (fst limit)) = Some (mkResult completed None) /\
   option_map fst (value_of (fst final)) = Some (mkResult completed None)).
Proof.
  split; [intros n request; reflexivity |].
  split; [split; vm_compute; reflexivity |].
  split; [intros n request; reflexivity |].
  repeat split; vm_compute; reflexivity.
Qed.

(** ** 07-adaptive-agent.ts: planning and replanning *)

Section Replanning.
Context {E : Env}.

Lemma F07_answer_extends call messages (s : Sys E) flow s' :
  F07.answer call messages s = (Normal flow, s') ->
  exists extra,
    flow = F07.Next (messages ++ extra) \/
    exists result, flow = F07.Return (messages ++ extra) result.
Proof.
  unfold F07.answer. intros H. bind_inv H. bind_inv H.
  destruct a0 as [flow0|].
  - injection H as <- <-.
    destruct (String.eqb (tc_name call) "think").
    + repeat bind_inv Hrun0. discriminate Hrun0.
    + destruct (String.eqb (tc_name call) "request_replan").
      * repeat bind_inv Hrun0.
        injection Hrun0 as <- <-. eexists. right. eexists. reflexivity.
      * repeat bind_inv Hrun0. discriminate Hrun0.
  - bind_inv H. injection H as <- <-. eexists. left. reflexivity.
Qed.

Lemma F07_for_calls_extends toolCalls : forall messages (s : Sys E) flow s',
  F07.for_calls toolCalls messages s = (Normal flow, s') ->
  exists extra,
    flow = F07.Next (messages ++ extra) \/
    exists result, flow = F07.Return (messages ++ extra) result.
Proof.
  induction toolCalls as [|call rest IH]; intros messages s flow s' H; simpl in H.
  - injection H as <- <-. exists []. left. now rewrite app_nil_r.
  - bind_inv H. apply F07_answer_extends in Hrun as (extra & [-> | (result & ->)]).
    + apply IH in H as (extra' & [-> | (result & ->)]);
        exists (extra ++ extra'); rewrite app_assoc; eauto.
    + injection H as <- <-. eauto.
Qed.

(** The requests of the execution loop start with the executor's
    instructions: none of them is counted by a filter that rejects those. *)
Lemma F07_loop_requests (p : Request -> bool) n :
  (forall request, is_executing request = true -> p request = false) ->
  forall i plan rest (s : Sys E),
    List.filter p (requests_of
                     (trace (snd (F07.loop n i (MSystem (ExecutorPrompt plan) :: rest) s))))
    = List.filter p (requests_of (trace s)).
Proof.
  intros Hp. induction n as [|n IH]; intros i plan rest s.
  - reflexivity.
  - rewrite F07_loop_step. cbv zeta.
    destruct (chat_create E _ _) as [m w].
    set (s1 := mkSys w (trace s ++ [EvRequest _])).
    assert (H1 : List.filter p (requests_of (trace s1)) = List.filter p (requests_of (trace s))).
    { unfold s1. simpl. rewrite requests_of_app, List.filter_app. simpl.
      rewrite Hp by reflexivity. apply app_nil_r. }
    destruct (no_calls m).
    + simpl. rewrite requests_of_app. simpl. rewrite app_nil_r. exact H1.
    + pose proof (F07_for_calls_quiet (calls m)
                    ((MSystem (ExecutorPrompt plan) :: rest) ++ [MAssistant m]) s1) as Hq.
      destruct (F07.for_calls _ _ s1) as [[flow|e] s2] eqn:Hfc; simpl in Hq.
      * apply F07_for_calls_extends in Hfc as (extra & [-> | (result & ->)]).
        -- rewrite <- !app_comm_cons. rewrite IH, Hq. exact H1.
        -- simpl. rewrite Hq. exact H1.
      * simpl. rewrite Hq. exact H1.
Qed.

Lemma join_or_joinable xs sep fallback :
  joinable xs = true -> stringable xs = true ->
  exists text, F07.join_or (E := E) xs sep fallback = ret text.
Proof.
  intros H Hs. destruct xs as [[]|]; simpl in *; try discriminate; eauto.
  rewrite Hs. eauto.
Qed.

Lemma printable_truthy plan : printable plan = true -> truthy plan = true.
Proof. destruct plan; simpl; intros H; try discriminate; reflexivity. Qed.

(** createPlan called with a revision context sends one request, which
    carries the replan section. *)
Lemma createPlan_replan task plan steps found (s : Sys E) :
  plans_ok (E := E) ->
  truthy plan = true ->
  joinable steps = true -> stringable steps = true ->
  joinable found = true -> stringable found = true ->
  exists request plan' w,
    F07.createPlan task (Some (mkPlanContext (Some plan) steps found)) s
      = (Normal plan', mkSys w (trace s ++ [EvRequest request])) /\
    is_replanning request = true /\ is_planning request = true /\
    printable plan' = true /\ tame plan' = true.
Proof.
  intros Hplans Htruthy Hsteps Hsteps' Hfound Hfound'. unfold F07.createPlan. simpl.
  rewrite Htruthy.
  destruct (join_or_joinable steps ", " "ничего" Hsteps Hsteps') as [done ->].
  destruct (join_or_joinable found "; " "нет" Hfound Hfound') as [news ->].
  rewrite !bind_ret_l.
  set (request := mkRequest _ _).
  destruct (Hplans request (world s) eq_refl) as (plan' & Hparse & Hprint & Htame).
  unfold bind, create, parse.
  destruct (chat_create E request (world s)) as [m w]. simpl in *.
  rewrite Hparse. exists request, plan', w. repeat split; assumption.
Qed.

(** createPlan called without a context sends one request, which does not
    carry the replan section. *)
Lemma createPlan_first task (s : Sys E) :
  plans_ok (E := E) ->
  exists request plan' w,
    F07.createPlan task None s
      = (Normal plan', mkSys w (trace s ++ [EvRequest request])) /\
    is_replanning request = false /\ is_planning request = true /\
    printable plan' = true /\ tame plan' = true.
Proof.
  intros Hplans. unfold F07.createPlan. rewrite bind_ret_l.
  set (request := mkRequest _ _).
  destruct (Hplans request (world s) eq_refl) as (plan' & Hparse & Hprint & Htame).
  unfold bind, create, parse.
  destruct (chat_create E request (world s)) as [m w]. simpl in *.
  rewrite Hparse. exists request, plan', w. repeat split; assumption.
Qed.

(** A property read from a tame value that is not null, and its text. *)
Lemma read_text v k (B : Type) (body : option JValue -> M E B) (s : Sys E) :
  v <> JNull -> tame v = true ->
  exists x, stringable x = true /\
    bind (lift (prop v k)) (fun x => bind (to_text x) (fun _ => body x)) s = body x s.
Proof.
  intros Hv Htame. destruct (ens_prop_tame (E := E) v k Hv Htame s) as (x & s' & Hrun & Hx & _).
  unfold lift in Hrun. injection Hrun as Hprop <-.
  exists x. split; [exact Hx |].
  unfold bind at 1. unfold lift. rewrite Hprop.
  unfold bind at 1. rewrite to_text_run by exact Hx. reflexivity.
Qed.

Lemma printStep_run step (s : Sys E) :
  step <> JNull -> tame step = true -> F07.printStep step s = (Normal tt, s).
Proof.
  intros Hstep Htame. unfold F07.printStep.
  destruct (read_text step "id" unit
              (fun _ => let* tool := lift (prop step "tool") in
                        to_text tool ;;
                        let* action := lift (prop step "action") in
                        to_text action ;;
                        let* why := lift (prop step "reason") in
                        to_text why ;; ret tt) s Hstep Htame) as (x1 & _ & ->).
  destruct (read_text step "tool" unit
              (fun _ => let* action := lift (prop step "action") in
                        to_text action ;;
                        let* why := lift (prop step "reason") in
                        to_text why ;; ret tt) s Hstep Htame) as (x2 & _ & ->).
  destruct (read_text step "action" unit
              (fun _ => let* why := lift (prop step "reason") in
                        to_text why ;; ret tt) s Hstep Htame) as (x3 & _ & ->).
  destruct (read_text step "reason" unit (fun _ => ret tt) s Hstep Htame) as (x4 & _ & ->).
  reflexivity.
Qed.

Lemma steps_read items (s : Sys E) :
  forallb (fun item => match item with JNull => false | _ => true end) items = true ->
  forallb tame items = true ->
  for_each (fun step (_ : unit) => F07.printStep step) items tt s = (Normal tt, s).
Proof.
  induction items as [|item items IH]; simpl; intros H Htame.
  - reflexivity.
  - apply andb_true_iff in H as [Hitem Hitems].
    apply andb_true_iff in Htame as [Htame Htames].
    unfold bind at 1. rewrite printStep_run; [apply IH; assumption | | exact Htame].
    intros ->. discriminate Hitem.
Qed.

Lemma printPlan_printable plan isReplan (s : Sys E) :
  printable plan = true -> tame plan = true ->
  F07.printPlan plan isReplan s
  = (Normal tt, mkSys (world s) (trace s ++ [EvLog (LPlan isReplan plan)])).
Proof.
  intros H Htame. unfold F07.printPlan. destruct plan; try discriminate. simpl in H.
  destruct (own "steps" fields) as [[]|] eqn:Hsteps; try discriminate.
  rewrite !lift_prop_object, bind_ret_l.
  unfold bind at 1. rewrite to_text_run by (apply tame_own_stringable; exact Htame).
  unfold bind at 1. unfold log at 1, emit at 1.
  rewrite bind_ret_l, Hsteps.
  apply steps_read; [assumption |].
  apply (tame_own "steps" fields (JArr items) Htame Hsteps).
Qed.

End Replanning.

Section Coordinator.
Context {E : Env}.

(** One pass of the [while] loop of adaptiveAgent. *)
Lemma F07_attempts_step MAX r replanCount task plan (s : Sys E) :
  F07.attempts MAX (S r) replanCount task plan s =
  let s0 := mkSys (world s) (trace s ++ [EvLog (LAttempt (replanCount + 1))]) in
  match F07.executeWithReact task plan s0 with
  | (Normal outcome, s1) =>
      match status (fst outcome) with
      | completed =>
          (Normal Done, mkSys (world s1) (trace s1 ++ [EvLog LAgentDone]))
      | replan_requested =>
          if Nat.ltb MAX (S replanCount)
          then (Normal Aborted, mkSys (world s1) (trace s1 ++ [EvLog LReplanLimit]))
          else
            let s2 := mkSys (world s1) (trace s1 ++ [EvLog (LReplanning (S replanCount))]) in
            let context :=
              mkPlanContext (Some plan)
                (match replanContext (fst outcome) with
                 | Some c => completedSteps c | None => None end)
                (match replanContext (fst outcome) with
                 | Some c => discoveries c | None => None end) in
            match F07.createPlan task (Some context) s2 with
            | (Normal plan', s3) =>
                match F07.printPlan plan' true s3 with
                | (Normal _, s4) => F07.attempts MAX r (S replanCount) task plan' s4
                | (Throw e, s4) => (Throw e, s4)
                end
            | (Throw e, s3) => (Throw e, s3)
            end
      end
  | (Throw e, s1) => (Throw e, s1)
  end.
Proof.
  cbn [F07.attempts]. unfold bind at 1. unfold log at 1, emit at 1. cbv zeta.
  unfold bind at 1.
  destruct (F07.executeWithReact task plan _) as [[outcome|e] s1]; [| reflexivity].
  destruct (status (fst outcome)); [reflexivity |].
  destruct (Nat.ltb MAX (S replanCount)); [reflexivity |].
  unfold bind at 1. unfold log at 1, emit at 1. cbv zeta.
  unfold bind at 1.
  destruct (F07.createPlan _ _ _) as [[plan'|e] s3]; [| reflexivity].
  unfold bind at 1.
  destruct (F07.printPlan _ _ _) as [[[]|e] s4]; reflexivity.
Qed.

Lemma planning_not_executing request :
  is_executing request = true -> is_planning request = false.
Proof.
  unfold is_executing, is_planning.
  destruct (rq_messages request) as [|[[]| | |] ?]; intros H; try discriminate; reflexivity.
Qed.

Lemma replanning_not_executing request :
  is_executing request = true -> is_replanning request = false.
Proof.
  unfold is_executing, is_replanning.
  destruct (rq_messages request) as [|[[]| | |] ?]; intros H; try discriminate; reflexivity.
Qed.

(** With a service that always ends an execution in a revision request,
    the coordinator replans as long as the counter allows and then stops. *)
Lemma F07_attempts_abort MAX task :
  plans_ok (E := E) -> always_revises (E := E) ->
  forall r replanCount plan (s : Sys E),
    S r + replanCount = MAX + 1 ->
    truthy plan = true ->
    exists s',
      F07.attempts MAX (S r) replanCount task plan s = (Normal Aborted, s') /\
      length (replanning_requests (trace s')) = length (replanning_requests (trace s)) + r /\
      length (planning_requests (trace s')) = length (planning_requests (trace s)) + r /\
      last (lines_of (trace s')) = Some LReplanLimit.
Proof.
  intros Hplans Hrevises.
  induction r as [|r IH]; intros replanCount plan s Hcount Htruthy;
    rewrite F07_attempts_step; cbv zeta;
    set (s0 := mkSys (world s) (trace s ++ [EvLog _]));
    destruct (Hrevises task plan s0)
      as (context & messages & s1 & Hrun & Hsteps & Hsteps' & Hfound & Hfound');
    pose proof (F07_loop_requests is_replanning 20 replanning_not_executing
                  0 plan [MUser task] s0) as Hre;
    pose proof (F07_loop_requests is_planning 20 planning_not_executing
                  0 plan [MUser task] s0) as Hpl;
    fold (F07.executeWithReact_with (E := E) 20 task plan) in Hre, Hpl;
    fold (F07.executeWithReact (E := E) task plan) in Hre, Hpl;
    rewrite Hrun in *; cbn [snd] in Hre, Hpl;
    assert (Hre0 : List.filter is_replanning (requests_of (trace s0))
                   = List.filter is_replanning (requests_of (trace s)))
      by (unfold s0; simpl; rewrite requests_of_app; simpl; now rewrite app_nil_r);
    assert (Hpl0 : List.filter is_planning (requests_of (trace s0))
                   = List.filter is_planning (requests_of (trace s)))
      by (unfold s0; simpl; rewrite requests_of_app; simpl; now rewrite app_nil_r);
    cbn [fst snd status replanContext].
  - replace (Nat.ltb MAX (S replanCount)) with true
      by (symmetry; apply Nat.ltb_lt; lia).
    eexists. split; [reflexivity |]. simpl.
    unfold replanning_requests, planning_requests.
    rewrite requests_of_app, lines_of_app. simpl. rewrite app_nil_r.
    rewrite Hre, Hpl, Hre0, Hpl0.
    repeat split; try lia. apply last_snoc.
  - replace (Nat.ltb MAX (S replanCount)) with false
      by (symmetry; apply Nat.ltb_ge; lia).
    set (s2 := mkSys (world s1) (trace s1 ++ [EvLog _])).
    destruct (createPlan_replan task plan (completedSteps context) (discoveries context)
                s2 Hplans Htruthy Hsteps Hsteps' Hfound Hfound')
      as (request & plan' & w & Hcreate & Hisre & Hispl & Hprint & Htame).
    rewrite Hcreate, printPlan_printable by assumption.
    match goal with
    | |- context [F07.attempts _ _ _ _ _ ?state] =>
        destruct (IH (S replanCount) plan' state ltac:(lia) (printable_truthy _ Hprint))
          as (s' & Hrest & Hcre & Hcpl & Hlast)
    end.
    exists s'. split; [assumption |]. split; [| split; [| assumption]].
    + rewrite Hcre. unfold replanning_requests. simpl.
      rewrite !requests_of_app. simpl. rewrite !app_nil_r.
      rewrite List.filter_app. simpl. rewrite Hisre, Hre, Hre0.
      rewrite length_app. simpl. lia.
    + rewrite Hcpl. unfold planning_requests. simpl.
      rewrite !requests_of_app. simpl. rewrite !app_nil_r.
      rewrite List.filter_app. simpl. rewrite Hispl, Hpl, Hpl0.
      rewrite length_app. simpl. lia.
Qed.

End Coordinator.

(** C3, as amended.  For every replan maximum M, when every execution ends
    in a revision request whose lists can be joined (absent, null, or
    arrays of items that can be turned into text) and the service's plans
    can be printed, adaptiveAgent calls createPlan with a revision context
    exactly M times, after its one initial call, and then ends at its
    "limit of replans" return: it neither throws nor replans once more.
    That return hands nothing back: the limit line is the last thing the
    run prints, and the only report of the outcome. *)
Theorem C3_replan_budget (E : Env) (M : nat) (task : string) (s : Sys E) :
  plans_ok (E := E) -> always_revises (E := E) ->
  exists s',
    F07.adaptiveAgent_with M task s = (Normal Aborted, s') /\
    length (replanning_requests (trace s')) = length (replanning_requests (trace s)) + M /\
    length (planning_requests (trace s')) = length (planning_requests (trace s)) + M + 1 /\
    last (lines_of (trace s')) = Some LReplanLimit.
Proof.
  intros Hplans Hrevises. unfold F07.adaptiveAgent_with.
  unfold bind at 1. unfold log at 1, emit at 1. cbv zeta.
  set (s0 := mkSys (world s) (trace s ++ [EvLog _])).
  destruct (createPlan_first task s0 Hplans)
    as (request & plan & w & Hcreate & Hisre & Hispl & Hprint & Htame).
  unfold bind at 1. rewrite Hcreate.
  unfold bind at 1. rewrite printPlan_printable by assumption.
  destruct (F07_attempts_abort M task Hplans Hrevises M 0 plan
              (mkSys w ((trace s0 ++ [EvRequest request]) ++ [EvLog (LPlan false plan)]))
              ltac:(lia) (printable_truthy _ Hprint))
    as (s' & Hrun & Hcre & Hcpl & Hlast).
  replace (M + 1) with (S M) by lia.
  exists s'. split; [assumption |]. split; [| split; [| assumption]].
  - rewrite Hcre. unfold replanning_requests, s0. simpl.
    rewrite !requests_of_app. simpl. rewrite !app_nil_r.
    rewrite List.filter_app. simpl. rewrite Hisre. rewrite app_nil_r. reflexivity.
  - rewrite Hcpl. unfold planning_requests, s0. simpl.
    rewrite !requests_of_app. simpl. rewrite !app_nil_r.
    rewrite List.filter_app. simpl. rewrite Hispl.
    rewrite length_app. simpl. lia.
Qed.

Lemma C3_replan_budget_witness :
  exists s',
    F07.adaptiveAgent "task" (Demo.boot Demo.replanner Demo.start) = (Normal Aborted, s') /\
    length (replanning_requests (trace s')) = 3 /\
    length (planning_requests (trace s')) = 4 /\
    last (lines_of (trace s')) = Some LReplanLimit.
Proof.
  apply (C3_replan_budget (Demo.env Demo.replanner) 3 "task"
           (Demo.boot Demo.replanner Demo.start)).
  - intros request w H. simpl. unfold Demo.replanner.
    unfold is_planning in H.
    destruct (rq_messages request) as [|[[]| | |] ?]; try discriminate H.
    eexists. split; [vm_compute; reflexivity | split; reflexivity].
  - intros task plan s.
    unfold F07.executeWithReact, F07.executeWithReact_with.
    rewrite F07_loop_step.
    eexists. eexists. eexists. split; [vm_compute; reflexivity |].
    repeat split; reflexivity.
Defined.

(** C3 as stated fails: an execution that ends in a revision request can
    make the coordinator crash.  The service answers the planning request
    with a plan and the execution request with a revision request whose
    completed steps are a text, not a list.  The execution returns
    "replan_requested"; createPlan then throws a TypeError while it builds
    the replanning request, and adaptiveAgent ends with that exception after
    one plan and one execution request: no replanning request is sent and
    the limit of replans is never reached. *)
Lemma C3_unjoinable_revision_crashes :
  let s := Demo.boot Demo.sloppy_replanner Demo.start in
  option_map (fun out => status (fst out))
             (value_of (fst (F07.executeWithReact "task" Demo.plan s)))
  = Some replan_requested /\
  option_map e_name (error_of (fst (F07.adaptiveAgent "task" s))) = Some "TypeError" /\
  map is_executing (requests_of (trace (snd (F07.adaptiveAgent "task" s)))) = [false; true] /\
  length (replanning_requests (trace (snd (F07.adaptiveAgent "task" s)))) = 0 /\
  last (lines_of (trace (snd (F07.adaptiveAgent "task" s)))) = Some (LReplanning 1).
Proof. repeat split; vm_compute; reflexivity. Qed.

(** ** 07-adaptive-agent.ts: the revision request *)

Section Revision.
Context {E : Env}.

Lemma F07_for_calls_app xs ys messages (s : Sys E) :
  F07.for_calls (xs ++ ys) messages s =
  match F07.for_calls xs messages s with
  | (Normal (F07.Next messages'), s') => F07.for_calls ys messages' s'
  | other => other
  end.
Proof.
  revert messages s. induction xs as [|x xs IH]; intros messages s; simpl.
  - reflexivity.
  - unfold bind. destruct (F07.answer x messages s) as [[[messages1|messages1 result]|e] s1].
    + apply IH.
    + reflexivity.
    + reflexivity.
Qed.

Lemma F07_for_calls_plain_answers toolCalls : forall messages,
  Forall (plain_call (E := E)) toolCalls ->
  ensures (F07.for_calls (E := E) toolCalls messages)
          (fun flow => exists results,
               length results = length toolCalls /\
               flow = F07.Next (messages ++ answers toolCalls results)).
Proof.
  induction toolCalls as [|call rest IH]; intros messages Hplain; simpl.
  - apply ens_ret. exists []. split; [reflexivity |]. now rewrite app_nil_r.
  - inversion Hplain as [|? ? Hcall Hrest]; subst.
    eapply ens_bind; [apply F07_answer_plain; assumption |].
    intros flow [text ->]. intros s.
    destruct (IH (messages ++ [MTool (tc_id call) text]) Hrest s)
      as (flow & s' & Hrun & results & Hlen & ->).
    exists (F07.Next ((messages ++ [MTool (tc_id call) text]) ++ answers rest results)), s'.
    split; [assumption |].
    exists (text :: results). split; [simpl; now rewrite Hlen |].
    rewrite <- app_assoc. reflexivity.
Qed.

(** The revision request itself: its action-result is appended and the
    function returns. *)
Lemma F07_answer_revision call fields messages (s : Sys E) :
  tc_name call = "request_replan" ->
  JSON_parse E (tc_arguments call) = Some (JObj fields) ->
  stringable (own "reason" fields) = true ->
  F07.answer call messages s =
  (Normal (F07.Return (messages ++ [MTool (tc_id call) "REPLAN_REQUESTED"])
             (mkResult replan_requested
                (Some (mkReplanContext (own "reason" fields)
                         (own "completed_steps" fields)
                         (own "discoveries" fields))))),
   mkSys (world s) (trace s ++ [EvLog (LReplan (own "reason" fields))])).
Proof.
  intros Hname Hparse Hreason.
  unfold F07.answer, parse. rewrite Hparse, bind_ret_l, Hname.
  change (String.eqb "request_replan" "think") with false.
  change (String.eqb "request_replan" "request_replan") with true. cbv iota.
  rewrite lift_prop_object, bind_ret_l.
  unfold bind at 1. unfold bind at 1. rewrite to_text_run by exact Hreason.
  reflexivity.
Qed.

End Revision.




(** ** Failing operations *)

(** Reads an entry of a handler table written with [<[ _ := _ ]>]. *)
Ltac table_lookup :=
  repeat (rewrite lookup_insert_ne by (intros ?; discriminate));
  rewrite lookup_insert_eq.

Section Failures.
Context {E : Env}.

Lemma invoke_found (handlers : gmap string (Handler E)) name handler args fallback :
  handlers !! name = Some handler ->
  invoke handlers name args fallback
  = bind (emit (EvInvoke name args)) (fun _ => handler args).
Proof. intros H. unfold invoke. unfold Handler in *. rewrite H. reflexivity. Qed.

Lemma invoke_missing (handlers : gmap string (Handler E)) name args fallback :
  handlers !! name = None ->
  invoke handlers name args fallback = ret fallback.
Proof. intros H. unfold invoke. unfold Handler in *. rewrite H. reflexivity. Qed.

Lemma F04_lookup_read_file : F04.toolHandlers (E := E) !! "read_file" = Some F04.read_file.
Proof. unfold F04.toolHandlers. table_lookup. reflexivity. Qed.

Lemma F04_lookup_run_bash : F04.toolHandlers (E := E) !! "run_bash" = Some F04.run_bash.
Proof. unfold F04.toolHandlers. table_lookup. reflexivity. Qed.

Lemma F07_lookup_read_file : F07.toolHandlers (E := E) !! "read_file" = Some F07.read_file.
Proof. unfold F07.toolHandlers. table_lookup. reflexivity. Qed.

Lemma F04_read_file_fails args path e (s : Sys E) :
  prop args "path" = Normal path ->
  readFileSync E path (world s) = inl e ->
  F04.read_file args s = (Normal (error_text +:+ e_message e), s).
Proof.
  intros Hpath Hread.
  unfold F04.read_file, destructure, lift, bind, try_catch, observe, ret.
  rewrite Hpath, Hread. reflexivity.
Qed.

Lemma F04_run_bash_fails args command e w (s : Sys E) :
  prop args "command" = Normal command ->
  execSync E command (Some 5000%N) (world s) = (inl e, w) ->
  F04.run_bash args s = (Normal (error_text +:+ e_message e), mkSys w (trace s)).
Proof.
  intros Hcommand Hexec.
  unfold F04.run_bash, destructure, lift, bind, try_catch, effect, ret.
  rewrite Hcommand, Hexec. reflexivity.
Qed.

Lemma F07_read_file_fails args path e (s : Sys E) :
  prop args "path" = Normal path ->
  readFileSync E path (world s) = inl e ->
  F07.read_file args s = (Normal (error_text +:+ e_message e), s).
Proof.
  intros Hpath Hread.
  unfold F07.read_file, destructure, lift, bind, try_catch, observe, ret.
  rewrite Hpath, Hread. reflexivity.
Qed.

Lemma F07_run_bash_fails args command e w (s : Sys E) :
  prop args "command" = Normal command ->
  execSync E command (Some 10000%N) (world s) = (inl e, w) ->
  F07.run_bash args s
  = (Normal (error_text +:+ or_else (e_stderr e) (e_message e)), mkSys w (trace s)).
Proof.
  intros Hcommand Hexec.
  unfold F07.run_bash, destructure, lift, bind, try_catch, effect, ret.
  rewrite Hcommand, Hexec. reflexivity.
Qed.

Lemma F07_write_file_fails args path text e w (s : Sys E) :
  prop args "path" = Normal path ->
  prop args "content" = Normal text ->
  writeFileSync E path text (world s) = (inl e, w) ->
  F07.write_file args s = (Normal (error_text +:+ e_message e), mkSys w (trace s)).
Proof.
  intros Hpath Htext Hwrite.
  unfold F07.write_file, destructure, lift, bind, try_catch, effect, ret.
  rewrite Hpath, Htext, Hwrite. reflexivity.
Qed.

(** The turn executor of 04 appends the error text as the action-result. *)
Lemma F04_answer_read_fails call args path e messages (s : Sys E) :
  tc_name call = "read_file" ->
  JSON_parse E (tc_arguments call) = Some args ->
  prop args "path" = Normal path ->
  readFileSync E path (world s) = inl e ->
  let text := error_text +:+ e_message e in
  F04.answer call messages s =
  (Normal (messages ++ [MTool (tc_id call) text]),
   mkSys (world s)
     (trace s ++ [EvLog (LTool "read_file" args); EvInvoke "read_file" args;
                  EvLog (LResult text)])).
Proof.
  intros Hname Hparse Hpath Hread text.
  unfold F04.answer, parse. cbv zeta. rewrite Hparse, bind_ret_l, Hname.
  rewrite (invoke_found _ _ _ _ _ F04_lookup_read_file).
  unfold bind, log, emit. cbn [world trace].
  rewrite (F04_read_file_fails args path e (mkSys (world s) _) Hpath Hread).
  unfold ret. cbn [world trace].
  rewrite <- !app_assoc. reflexivity.
Qed.

Lemma F04_answer_bash_fails call args command e w messages (s : Sys E) :
  tc_name call = "run_bash" ->
  JSON_parse E (tc_arguments call) = Some args ->
  prop args "command" = Normal command ->
  execSync E command (Some 5000%N) (world s) = (inl e, w) ->
  let text := error_text +:+ e_message e in
  F04.answer call messages s =
  (Normal (messages ++ [MTool (tc_id call) text]),
   mkSys w
     (trace s ++ [EvLog (LTool "run_bash" args); EvInvoke "run_bash" args;
                  EvLog (LResult text)])).
Proof.
  intros Hname Hparse Hcommand Hexec text.
  unfold F04.answer, parse. cbv zeta. rewrite Hparse, bind_ret_l, Hname.
  rewrite (invoke_found _ _ _ _ _ F04_lookup_run_bash).
  unfold bind, log, emit. cbn [world trace].
  rewrite (F04_run_bash_fails args command e w (mkSys (world s) _) Hcommand Hexec).
  unfold ret. cbn [world trace].
  rewrite <- !app_assoc. reflexivity.
Qed.

End Failures.

Section Proceeding.
Context {E : Env}.

(** In 07 the handler runs twice for one request (lines 290 and 297); a
    read that fails fails both times, and the error text is what is
    appended. *)
Lemma F07_answer_read_fails call args path e messages (s : Sys E) :
  tc_name call = "read_file" ->
  JSON_parse E (tc_arguments call) = Some args ->
  prop args "path" = Normal path ->
  readFileSync E path (world s) = inl e ->
  let text := error_text +:+ e_message e in
  F07.answer call messages s =
  (Normal (F07.Next (messages ++ [MTool (tc_id call) text])),
   mkSys (world s)
     (trace s ++ [EvLog (LTool "read_file" args); EvInvoke "read_file" args;
                  EvLog (LResult text); EvInvoke "read_file" args])).
Proof.
  intros Hname Hparse Hpath Hread text.
  unfold F07.answer, parse. cbv zeta. rewrite Hparse, bind_ret_l, Hname.
  simpl (String.eqb _ _). cbv iota.
  unfold F07.argsPreview. simpl (String.eqb _ _). cbv iota.
  rewrite !(invoke_found _ _ _ _ _ F07_lookup_read_file).
  unfold bind, log, emit, ret. cbn [world trace].
  rewrite (F07_read_file_fails args path e (mkSys (world s) _) Hpath Hread).
  cbn [world trace].
  rewrite (F07_read_file_fails args path e (mkSys (world s) _) Hpath Hread).
  rewrite <- !app_assoc. reflexivity.
Qed.

Lemma F04_handlers_nothrow n (h : Handler E) v :
  v <> JNull -> F04.toolHandlers !! n = Some h -> never_throws (h v).
Proof.
  intros Hv H. unfold F04.toolHandlers in H. table_cases H.
  - unfold F04.run_bash. nothrow_auto.
  - unfold F04.read_file. nothrow_auto.
Qed.

Lemma F04_answer_nothrow call messages :
  payload_ok (E := E) call -> never_throws (F04.answer (E := E) call messages).
Proof.
  intros (v & Hv & Hvalue). unfold F04.answer, parse. rewrite Hv, bind_ret_l.
  nothrow_auto. apply nt_invoke. intros n h Hh.
  eapply F04_handlers_nothrow; eassumption.
Qed.

(** The decision requests of a run of 04's loop come after those already
    sent, and the first of them carries the transcript the loop starts
    with. *)
Lemma F04_loop_grows n : forall i messages (s : Sys E),
  exists rest,
    requests_of (trace (snd (F04.loop n i messages s))) = requests_of (trace s) ++ rest.
Proof.
  induction n as [|n IH]; intros i messages s.
  - exists []. simpl. now rewrite app_nil_r.
  - rewrite F04_loop_step. cbv zeta.
    destruct (chat_create E _ _) as [m w].
    set (s1 := mkSys w (trace s ++ [EvLog _; EvRequest _])).
    assert (H1 : requests_of (trace s1)
                 = requests_of (trace s) ++ [mkRequest messages F04.tools]).
    { unfold s1. simpl. rewrite requests_of_app. reflexivity. }
    destruct (no_calls m).
    + eexists. simpl. rewrite requests_of_app. simpl. rewrite app_nil_r. exact H1.
    + pose proof (F04_for_each_quiet (calls m) (messages ++ [MAssistant m]) s1) as Hq.
      destruct (for_each F04.answer _ _ s1) as [[messages1|e] s2]; cbn [snd] in Hq.
      * destruct (IH (S i) messages1 s2) as [rest Hrest].
        eexists. rewrite Hrest, Hq, H1, <- app_assoc. reflexivity.
      * eexists. simpl. rewrite Hq. exact H1.
Qed.

Lemma F04_loop_first_request n i messages (s : Sys E) :
  exists rest,
    requests_of (trace (snd (F04.loop (S n) i messages s)))
    = requests_of (trace s) ++ mkRequest messages F04.tools :: rest.
Proof.
  rewrite F04_loop_step. cbv zeta.
  destruct (chat_create E _ _) as [m w].
  set (s1 := mkSys w (trace s ++ [EvLog _; EvRequest _])).
  assert (H1 : requests_of (trace s1)
               = requests_of (trace s) ++ [mkRequest messages F04.tools]).
  { unfold s1. simpl. rewrite requests_of_app. reflexivity. }
  destruct (no_calls m).
  - exists []. simpl. rewrite requests_of_app. simpl. rewrite app_nil_r. exact H1.
  - pose proof (F04_for_each_quiet (calls m) (messages ++ [MAssistant m]) s1) as Hq.
    destruct (for_each F04.answer _ _ s1) as [[messages1|e] s2]; cbn [snd] in Hq.
    + destruct (F04_loop_grows n (S i) messages1 s2) as [rest Hrest].
      exists rest. rewrite Hrest, Hq, H1, <- app_assoc. reflexivity.
    + exists []. simpl. rewrite Hq. exact H1.
Qed.

(** When the requests of a turn have readable payloads, whatever their
    handlers meet, every request gets its action-result and the loop of 04
    sends the next decision request with them. *)
Lemma F04_loop_proceeds n i messages (s : Sys E) m w :
  chat_create E (mkRequest messages F04.tools) (world s) = (m, w) ->
  no_calls m = false ->
  Forall (payload_ok (E := E)) (calls m) ->
  exists results s2 rest,
    length results = length (calls m) /\
    F04.loop (S (S n)) i messages s
    = F04.loop (S n) (S i) ((messages ++ [MAssistant m]) ++ answers (calls m) results) s2 /\
    requests_of (trace (snd (F04.loop (S (S n)) i messages s)))
    = requests_of (trace s)
      ++ mkRequest messages F04.tools
      :: mkRequest ((messages ++ [MAssistant m]) ++ answers (calls m) results) F04.tools
      :: rest.
Proof.
  intros Hm Hsome Hok.
  rewrite (F04_loop_step (S n)). cbv zeta. rewrite Hm, Hsome.
  set (s1 := mkSys w (trace s ++ [EvLog _; EvRequest _])).
  pose proof (F04_for_each_quiet (calls m) (messages ++ [MAssistant m]) s1) as Hq.
  destruct (nt_for_each F04.answer payload_ok (calls m)
              (fun x acc Hx => F04_answer_nothrow x acc Hx) Hok
              (messages ++ [MAssistant m]) s1) as (messages1 & s2 & Hfe).
  rewrite Hfe in *. cbn [snd] in Hq.
  apply F04_for_each_shape in Hfe as (results & Hlen & ->).
  destruct (F04_loop_first_request n (S i)
              ((messages ++ [MAssistant m]) ++ answers (calls m) results) s2)
    as [rest Hrest].
  exists results, s2, rest. split; [assumption |]. split; [reflexivity |].
  rewrite Hrest, Hq. unfold s1. simpl. rewrite requests_of_app. simpl.
  rewrite <- app_assoc. reflexivity.
Qed.

End Proceeding.

(** X23.  When the operation under a handler fails, the handler returns the
    text "Ошибка: " followed by the error's message (07's run_bash: by its
    stderr, if any) instead of throwing: read_file and run_bash of 04,
    read_file, run_bash and write_file of 07.  The turn executor of 04, and
    of 07 for read_file, appends that text as the action-result of the
    request.  And in 04, when the requests of a turn have payloads that
    are JSON text for values other than null and names that are not
    inherited ones, every request gets its action-result and the loop sends
    the next decision request with them. *)
Theorem X23_failures_become_error_text (E : Env) :
  (forall args path e (s : Sys E),
     prop args "path" = Normal path ->
     readFileSync E path (world s) = inl e ->
     F04.read_file args s = (Normal (error_text +:+ e_message e), s) /\
     F07.read_file args s = (Normal (error_text +:+ e_message e), s)) /\
  (forall args command e w (s : Sys E),
     prop args "command" = Normal command ->
     execSync E command (Some 5000%N) (world s) = (inl e, w) ->
     F04.run_bash args s = (Normal (error_text +:+ e_message e), mkSys w (trace s))) /\
  (forall args command e w (s : Sys E),
     prop args "command" = Normal command ->
     execSync E command (Some 10000%N) (world s) = (inl e, w) ->
     F07.run_bash args s
     = (Normal (error_text +:+ or_else (e_stderr e) (e_message e)), mkSys w (trace s))) /\
  (forall args path text e w (s : Sys E),
     prop args "path" = Normal path ->
     prop args "content" = Normal text ->
     writeFileSync E path text (world s) = (inl e, w) ->
     F07.write_file args s = (Normal (error_text +:+ e_message e), mkSys w (trace s))) /\
  (forall call args path e messages (s : Sys E),
     tc_name call = "read_file" ->
     JSON_parse E (tc_arguments call) = Some args ->
     prop args "path" = Normal path ->
     readFileSync E path (world s) = inl e ->
     let text := error_text +:+ e_message e in
     F04.answer call messages s =
       (Normal (messages ++ [MTool (tc_id call) text]),
        mkSys (world s)
          (trace s ++ [EvLog (LTool "read_file" args); EvInvoke "read_file" args;
                       EvLog (LResult text)])) /\
     F07.answer call messages s =
       (Normal (F07.Next (messages ++ [MTool (tc_id call) text])),
        mkSys (world s)
          (trace s ++ [EvLog (LTool "read_file" args); EvInvoke "read_file" args;
                       EvLog (LResult text); EvInvoke "read_file" args]))) /\
  (forall call args command e w messages (s : Sys E),
     tc_name call = "run_bash" ->
     JSON_parse E (tc_arguments call) = Some args ->
     prop args "command" = Normal command ->
     execSync E command (Some 5000%N) (world s) = (inl e, w) ->
     let text := error_text +:+ e_message e in
     F04.answer call messages s =
       (Normal (messages ++ [MTool (tc_id call) text]),
        mkSys w
          (trace s ++ [EvLog (LTool "run_bash" args); EvInvoke "run_bash" args;
                       EvLog (LResult text)]))) /\
  (forall n i messages (s : Sys E) m w,
     chat_create E (mkRequest messages F04.tools) (world s) = (m, w) ->
     no_calls m = false ->
     Forall (payload_ok (E := E)) (calls m) ->
     Forall (fun call => is_inherited (tc_name call) = false) (calls m) ->
     exists results s2 rest,
       length results = length (calls m) /\
       F04.loop (S (S n)) i messages s
       = F04.loop (S n) (S i)
           ((messages ++ [MAssistant m]) ++ answers (calls m) results) s2 /\
       requests_of (trace (snd (F04.loop (S (S n)) i messages s)))
       = requests_of (trace s)
         ++ mkRequest messages F04.tools
         :: mkRequest ((messages ++ [MAssistant m]) ++ answers (calls m) results)
                      F04.tools
         :: rest).
Proof.
  repeat split; intros.
  - eapply F04_read_file_fails; eassumption.
  - eapply F07_read_file_fails; eassumption.
  - eapply F04_run_bash_fails; eassumption.
  - eapply F07_run_bash_fails; eassumption.
  - eapply F07_write_file_fails; eassumption.
  - eapply F04_answer_read_fails; eassumption.
  - eapply F07_answer_read_fails; eassumption.
  - eapply F04_answer_bash_fails; eassumption.
  - eapply F04_loop_proceeds; eassumption.
Qed.

Lemma X23_failures_become_error_text_witness :
  let s := Demo.boot Demo.explore Demo.start in
  let text := error_text +:+ "ENOENT: no such file or directory, open 'missing.txt'" in
  F04.answer Demo.missing_call [] s =
    (Normal ([] ++ [MTool "c2" text]),
     mkSys (world s)
       (trace s ++ [EvLog (LTool "read_file" Demo.missing_args);
                    EvInvoke "read_file" Demo.missing_args;
                    EvLog (LResult text)])) /\
  F07.run_bash (JObj [("command", JStr "false")]) s =
    (Normal (error_text +:+ "Command failed: false"),
     mkSys (E := Demo.env Demo.explore) (Demo.mkState 0 [] ["false"] []) (trace s)) /\
  exists results s2 rest,
    length results = 3 /\
    F04.loop 10 0 [MSystem (StaticPrompt "04"); MUser "task"] s
    = F04.loop 9 1
        (([MSystem (StaticPrompt "04"); MUser "task"]
          ++ [MAssistant (Demo.explore 0 (mkRequest [] []))])
         ++ answers (calls (Demo.explore 0 (mkRequest [] []))) results) s2 /\
    requests_of (trace (snd (F04.loop 10 0 [MSystem (StaticPrompt "04"); MUser "task"] s)))
    = []
      ++ mkRequest [MSystem (StaticPrompt "04"); MUser "task"] F04.tools
      :: mkRequest (([MSystem (StaticPrompt "04"); MUser "task"]
                     ++ [MAssistant (Demo.explore 0 (mkRequest [] []))])
                    ++ answers (calls (Demo.explore 0 (mkRequest [] []))) results)
                   F04.tools
      :: rest.
Proof.
  intros s text.
  destruct (X23_failures_become_error_text (Demo.env Demo.explore))
    as (_ & _ & Hbash & _ & Hread & _ & Hloop).
  split; [| split].
  - apply (Hread Demo.missing_call Demo.missing_args (Some (JStr "missing.txt"))
             (Demo.ENOENT "missing.txt") [] s).
    + reflexivity.
    + vm_compute. reflexivity.
    + reflexivity.
    + reflexivity.
  - apply (Hbash (JObj [("command", JStr "false")]) (Some (JStr "false"))
             (mkError "Error" "Command failed: false" (Some ""))
             (Demo.mkState 0 [] ["false"] []) s).
    + reflexivity.
    + reflexivity.
  - apply (Hloop 8 0 [MSystem (StaticPrompt "04"); MUser "task"] s
             (Demo.explore 0 (mkRequest [] [])) (Demo.mkState 1 [] [] [])).
    + reflexivity.
    + reflexivity.
    + repeat constructor; eexists; (split; [vm_compute; reflexivity | discriminate]).
    + repeat constructor.
Defined.

(** C9 fails on executeWithReact.  The service asks once for the shell
    command [mkdir out], in a world where a command fails the first time it
    is run and succeeds when it is run again.  The handler of 07 catches
    the failure and returns the text "Ошибка: Command failed: mkdir out",
    which line 291 prints; but the action-result appended at line 297 is the
    result of a second invocation, which succeeds: the service is told the
    command went well and never sees the error text.  The loop of 04, in
    the same world, invokes the handler once and appends the error text. *)
Theorem C9_failed_command_answered_by_rerun_in_07 :
  let failure := error_text +:+ "Command failed: mkdir out" in
  let run07 := F07.executeWithReact "task" Demo.plan Flaky.boot in
  let run04 := F04.agentLoop "task" Flaky.boot in
  fst (F07.run_bash Demo.mkdir_args Flaky.boot) = Normal failure /\
  lines_of (trace (snd run07))
  = [ LTool "run_bash" Demo.mkdir_args; LResult failure; LExecuted 2 (Some "done") ] /\
  option_map snd (value_of (fst run07))
  = Some [ MSystem (ExecutorPrompt Demo.plan); MUser "task";
           MAssistant (Demo.once_bash 0 (mkRequest [] []));
           MTool "b1" "mkdir out";
           MAssistant (Demo.say "done") ] /\
  invocations_of (trace (snd run07))
  = [("run_bash", Demo.mkdir_args); ("run_bash", Demo.mkdir_args)] /\
  value_of (fst run04)
  = Some [ MSystem (StaticPrompt "04"); MUser "task";
           MAssistant (Demo.once_bash 0 (mkRequest [] []));
           MTool "b1" failure;
           MAssistant (Demo.say "done") ] /\
  invocations_of (trace (snd run04)) = [("run_bash", Demo.mkdir_args)].
Proof. repeat split; vm_compute; reflexivity. Qed.

(** ** 08-interactive-agent.ts *)

Section Interactive.
Context {E : Env}.

Lemma quiet_ask_user question : quiet (F08.ask_user (E := E) question).
Proof. intros s. unfold F08.ask_user. destruct (ask E question (world s)). reflexivity. Qed.

#[local] Hint Resolve quiet_ask_user : quiet.

Lemma F08_handlers_quiet n (h : Handler E) :
  F08.toolHandlers !! n = Some h -> forall a, quiet (h a).
Proof.
  intros H a. unfold F08.toolHandlers in H. table_cases H.
  - unfold F08.think. quiet_auto.
  - unfold F07.run_bash. quiet_auto.
  - unfold F07.read_file. quiet_auto.
  - unfold F08.write_file. quiet_auto.
  - unfold F08.ask_user_choice, F08.showOption. quiet_auto.
  - unfold F08.ask_user_input, F08.shown_if_truthy. quiet_auto.
  - unfold F08.ask_user_confirm, F08.shown_if_truthy. quiet_auto.
Qed.

Lemma F08_answer_quiet call messages : quiet (F08.answer (E := E) call messages).
Proof.
  unfold F08.answer. quiet_auto;
    apply quiet_invoke; apply F08_handlers_quiet.
Qed.

Lemma F08_for_each_quiet toolCalls messages (s : Sys E) :
  requests_of (trace (snd (for_each F08.answer toolCalls messages s)))
  = requests_of (trace s).
Proof. apply quiet_for_each. intros call acc. apply F08_answer_quiet. Qed.

(** One pass of the [while] loop. *)
Lemma F08_loop_step n i messages (s : Sys E) :
  F08.loop (S n) i messages s =
  let request := mkRequest messages F08.tools in
  let (m, w) := chat_create E request (world s) in
  let s1 := mkSys w (trace s ++ [EvRequest request]) in
  if no_calls m
  then
    let (follow, w2) := ask E F08.follow_up_prompt w in
    let s2 := mkSys w2 (trace s ++ [EvRequest request; EvLog (LSay (content m))]) in
    if String.eqb follow ""
    then (Normal (messages ++ [MAssistant m]),
          mkSys w2 (trace s2 ++ [EvLog LBye; EvClose]))
    else F08.loop n (S i) (messages ++ [MAssistant m; MUser follow]) s2
  else
    match for_each F08.answer (calls m) (messages ++ [MAssistant m]) s1 with
    | (Normal messages', s3) => F08.loop n (S i) messages' s3
    | (Throw e, s3) => (Throw e, s3)
    end.
Proof.
  cbn [F08.loop]. unfold bind at 1. unfold create at 1. cbv zeta.
  destruct (chat_create E _ _) as [m w].
  destruct (no_calls m); [| reflexivity].
  unfold bind at 1. unfold log at 1, emit at 1. cbn [world trace].
  unfold bind at 1. unfold F08.ask_user at 1. cbn [world trace].
  destruct (ask E _ w) as [follow w2].
  rewrite <- !app_assoc. cbn [app].
  destruct (String.eqb follow "").
  - unfold bind, log, emit, ret. cbn [world trace].
    rewrite <- !app_assoc. reflexivity.
  - reflexivity.
Qed.

(** The loop sends at most one decision request per admitted iteration. *)
Lemma F08_loop_bound n : forall i messages (s : Sys E),
  length (requests_of (trace (snd (F08.loop n i messages s))))
  <= length (requests_of (trace s)) + n.
Proof.
  induction n as [|n IH]; intros i messages s.
  - simpl. rewrite requests_of_app. simpl. rewrite app_nil_r. lia.
  - rewrite F08_loop_step. cbv zeta.
    destruct (chat_create E _ _) as [m w].
    set (request := mkRequest messages F08.tools).
    destruct (no_calls m).
    + destruct (ask E _ w) as [follow w2].
      destruct (String.eqb follow "").
      * simpl. rewrite !requests_of_app. simpl. rewrite !length_app. simpl. lia.
      * etransitivity; [apply IH |]. simpl.
        rewrite requests_of_app. simpl. rewrite length_app. simpl. lia.
    + set (s1 := mkSys w (trace s ++ [EvRequest request])).
      pose proof (F08_for_each_quiet (calls m) (messages ++ [MAssistant m]) s1) as Hq.
      assert (H1 : length (requests_of (trace s1)) = length (requests_of (trace s)) + 1).
      { unfold s1. simpl. rewrite requests_of_app, length_app. reflexivity. }
      destruct (for_each F08.answer _ _ s1) as [[messages1|e] s3]; cbn [snd] in Hq.
      * etransitivity; [apply IH |]. rewrite Hq, H1. lia.
      * simpl. rewrite Hq, H1. lia.
Qed.

End Interactive.

(** C10.  In interactiveAgent, an assistant turn without action requests
    does not end the run by itself: the user is asked for a follow-up; an
    empty follow-up ends the run ("Завершено", rl.close()); a follow-up that
    is not empty is appended as a user turn and the loop goes on with one
    iteration fewer left, so that a run sends at most LIMIT (30) decision
    requests whatever the turns are. *)
Theorem C10_text_turn_waits_for_follow_up (E : Env) :
  (forall n i messages (s : Sys E) m w follow w2,
     chat_create E (mkRequest messages F08.tools) (world s) = (m, w) ->
     no_calls m = true ->
     ask E F08.follow_up_prompt w = (follow, w2) ->
     let s2 := mkSys w2 (trace s ++ [EvRequest (mkRequest messages F08.tools);
                                     EvLog (LSay (content m))]) in
     (follow = "" ->
      F08.loop (S n) i messages s
      = (Normal (messages ++ [MAssistant m]),
         mkSys w2 (trace s2 ++ [EvLog LBye; EvClose]))) /\
     (follow <> "" ->
      F08.loop (S n) i messages s
      = F08.loop n (S i) (messages ++ [MAssistant m; MUser follow]) s2)) /\
  (forall LIMIT task systemPrompt (s : Sys E),
     length (requests_of
               (trace (snd (F08.interactiveAgent_with LIMIT task systemPrompt s))))
     <= length (requests_of (trace s)) + LIMIT) /\
  (forall task systemPrompt (s : Sys E),
     length (requests_of (trace (snd (F08.interactiveAgent task systemPrompt s))))
     <= length (requests_of (trace s)) + 30).
Proof.
  split; [| split].
  - intros n i messages s m w follow w2 Hm Hnone Hask s2.
    rewrite F08_loop_step. cbv zeta. rewrite Hm, Hnone, Hask. split.
    + intros ->. reflexivity.
    + intros Hfollow. apply String.eqb_neq in Hfollow. rewrite Hfollow. reflexivity.
  - intros LIMIT task systemPrompt s. apply F08_loop_bound.
  - intros task systemPrompt s. apply F08_loop_bound.
Qed.

Lemma C10_text_turn_waits_for_follow_up_witness :
  let messages := [MSystem (StaticPrompt "08"); MUser "task"] in
  let request := mkRequest messages F08.tools in
  (* the user types "more": the loop goes on *)
  F08.loop 30 0 messages (Demo.boot Demo.chatty (Demo.mkState 0 [] [] ["more"]))
  = F08.loop 29 1 (messages ++ [MAssistant (Demo.say "what next?"); MUser "more"])
      (mkSys (E := Demo.env Demo.chatty) (Demo.mkState 1 [] [] [])
         ([] ++ [EvRequest request; EvLog (LSay (Some "what next?"))])) /\
  (* the user types nothing: the run ends *)
  F08.loop 30 0 messages (Demo.boot Demo.chatty Demo.start)
  = (Normal (messages ++ [MAssistant (Demo.say "what next?")]),
     mkSys (E := Demo.env Demo.chatty) (Demo.mkState 1 [] [] [])
       (([] ++ [EvRequest request; EvLog (LSay (Some "what next?"))])
        ++ [EvLog LBye; EvClose])).
Proof.
  intros messages request.
  destruct (C10_text_turn_waits_for_follow_up (Demo.env Demo.chatty)) as (Hstep & _).
  split.
  - apply (Hstep 29 0 messages (Demo.boot Demo.chatty (Demo.mkState 0 [] [] ["more"]))
             (Demo.say "what next?") (Demo.mkState 1 [] [] ["more"])
             "more" (Demo.mkState 1 [] [] [])); [reflexivity .. | discriminate].
  - apply (Hstep 29 0 messages (Demo.boot Demo.chatty Demo.start)
             (Demo.say "what next?") (Demo.mkState 1 [] [] [])
             "" (Demo.mkState 1 [] [] [])); reflexivity.
Defined.

(** ** Trimming *)

Section Trimming.

Lemma append_cons a s q : String a s +:+ q = String a (s +:+ q).
Proof. reflexivity. Qed.

Lemma append_nil q : "" +:+ q = q.
Proof. reflexivity. Qed.

Lemma space_not_160 c : is_space c = true -> Nat.eqb (nat_of_ascii c) 160 = false.
Proof.
  unfold is_space. intros H. apply Nat.eqb_neq. intros Heq. rewrite Heq in H.
  discriminate H.
Qed.

Lemma space_not_wide a b c : is_space c = true -> wide_space a b c = false.
Proof.
  unfold is_space, wide_space. intros H.
  destruct (Nat.eqb (nat_of_ascii c) 32) eqn:H32.
  - apply Nat.eqb_eq in H32. rewrite H32. cbn.
    rewrite !andb_false_r. reflexivity.
  - simpl in H. apply andb_true_iff in H as [_ H13]. apply Nat.leb_le in H13.
    replace (Nat.eqb (nat_of_ascii c) 128) with false by (symmetry; apply Nat.eqb_neq; lia).
    replace (Nat.leb 128 (nat_of_ascii c)) with false by (symmetry; apply Nat.leb_gt; lia).
    replace (Nat.eqb (nat_of_ascii c) 168) with false by (symmetry; apply Nat.eqb_neq; lia).
    replace (Nat.eqb (nat_of_ascii c) 169) with false by (symmetry; apply Nat.eqb_neq; lia).
    replace (Nat.eqb (nat_of_ascii c) 175) with false by (symmetry; apply Nat.eqb_neq; lia).
    replace (Nat.eqb (nat_of_ascii c) 159) with false by (symmetry; apply Nat.eqb_neq; lia).
    replace (Nat.eqb (nat_of_ascii c) 191) with false by (symmetry; apply Nat.eqb_neq; lia).
    cbn. rewrite !andb_false_r. reflexivity.
Qed.

(** The white space at the head of a text lies within the text. *)
Lemma space_width_fits s : space_width s <= String.length s.
Proof.
  unfold space_width.
  destruct s as [|a [|b [|c s]]]; cbn [String.length];
    repeat match goal with
           | |- context [if ?b then _ else _] => destruct b
           end; lia.
Qed.

(** It is known by the bytes of the character. *)
Lemma space_width_app s q k :
  space_width s = S k -> space_width (s +:+ q) = S k.
Proof.
  unfold space_width.
  destruct s as [|a [|b [|c s]]]; rewrite ?append_cons, ?append_nil; intros H.
  - discriminate H.
  - destruct (is_space a); [exact H | discriminate H].
  - destruct (is_space a); [exact H |].
    destruct (_ && _); [exact H | discriminate H].
  - exact H.
Qed.

Lemma space_width_snoc s c :
  is_space c = true -> s <> "" ->
  space_width (s +:+ String c "") = space_width s.
Proof.
  intros Hc Hs. unfold space_width.
  destruct s as [|a [|b [|d s]]]; [contradiction | | |]; rewrite ?append_cons, ?append_nil.
  - rewrite (space_not_160 c Hc), andb_false_r. reflexivity.
  - rewrite (space_not_wide a b c Hc). reflexivity.
  - reflexivity.
Qed.

Lemma drop_space_app t q : forall skip,
  skip <= String.length t -> drop_space skip t = "" ->
  drop_space skip (t +:+ q) = drop_space 0 q.
Proof.
  induction t as [|a t IH]; intros skip Hskip H.
  - cbn [String.length] in Hskip. replace skip with 0 by lia. reflexivity.
  - change (String a t +:+ q) with (String a (t +:+ q)).
    destruct skip as [|k].
    + cbn [drop_space] in *.
      destruct (space_width (String a t)) as [|k] eqn:Hw; [discriminate H |].
      change (String a (t +:+ q)) with (String a t +:+ q).
      rewrite (space_width_app _ q k Hw).
      apply IH; [| exact H].
      pose proof (space_width_fits (String a t)) as Hfit.
      rewrite Hw in Hfit. cbn [String.length] in Hfit. lia.
    + cbn [drop_space] in *. apply IH; [| exact H].
      cbn [String.length] in Hskip. lia.
Qed.

Lemma blank_app t q : blank t = true -> blank q = true -> blank (t +:+ q) = true.
Proof.
  unfold blank, trimStart. intros Ht Hq.
  destruct (drop_space 0 t) eqn:Hdrop; [| discriminate Ht].
  rewrite (drop_space_app t q 0) by (lia || assumption). exact Hq.
Qed.

Lemma drop_space_snoc t c :
  is_space c = true ->
  forall skip, skip <= String.length t ->
    drop_space skip (t +:+ String c "") = "" -> drop_space skip t = "".
Proof.
  intros Hc. induction t as [|a t IH]; intros skip Hskip H.
  - cbn [String.length] in Hskip. replace skip with 0 by lia. reflexivity.
  - destruct skip as [|k].
    + change (String a t +:+ String c "") with (String a (t +:+ String c "")) in H.
      cbn [drop_space] in *.
      change (String a (t +:+ String c "")) with (String a t +:+ String c "") in H.
      rewrite (space_width_snoc (String a t) c Hc) in H by discriminate.
      destruct (space_width (String a t)) as [|k] eqn:Hw; [discriminate H |].
      apply IH; [| exact H].
      pose proof (space_width_fits (String a t)) as Hfit.
      rewrite Hw in Hfit. cbn [String.length] in Hfit. lia.
    + change (String a t +:+ String c "") with (String a (t +:+ String c "")) in H.
      cbn [drop_space] in *. apply IH; [| exact H].
      cbn [String.length] in Hskip. lia.
Qed.

Lemma blank_space c : is_space c = true -> blank (String c "") = true.
Proof.
  intros Hc. unfold blank, trimStart. cbn [drop_space]. unfold space_width.
  rewrite Hc. reflexivity.
Qed.

Lemma blank_snoc t c : is_space c = true -> blank (t +:+ String c "") = blank t.
Proof.
  intros Hc. destruct (blank t) eqn:Ht.
  - apply blank_app; [exact Ht | apply blank_space; exact Hc].
  - destruct (blank (t +:+ String c "")) eqn:Hsnoc; [| reflexivity].
    unfold blank, trimStart in *.
    destruct (drop_space 0 (t +:+ String c "")) eqn:Hdrop; [| discriminate Hsnoc].
    rewrite (drop_space_snoc t c Hc 0) in Ht by (lia || assumption).
    discriminate Ht.
Qed.

Lemma trimEnd_space s c :
  is_space c = true -> trimEnd (s +:+ String c "") = trimEnd s.
Proof.
  intros Hc. induction s as [|a s IH].
  - rewrite ?append_cons, ?append_nil; cbn [trimEnd]. rewrite (blank_space c Hc). reflexivity.
  - change (String a s +:+ String c "") with (String a (s +:+ String c "")).
    cbn [trimEnd].
    change (String a (s +:+ String c "")) with (String a s +:+ String c "").
    rewrite (blank_snoc _ c Hc), IH. reflexivity.
Qed.

(** What trimming takes away, at either end. *)
Lemma drop_space_suffix s : forall skip, exists p, s = p +:+ drop_space skip s.
Proof.
  induction s as [|a s IH]; intros skip.
  - exists "". reflexivity.
  - destruct skip as [|k]; cbn [drop_space].
    + destruct (space_width (String a s)) as [|k].
      * exists "". reflexivity.
      * destruct (IH k) as [p Hp]. exists (String a p).
        change (String a p +:+ drop_space k s) with (String a (p +:+ drop_space k s)).
        now rewrite <- Hp.
    + destruct (IH k) as [p Hp]. exists (String a p).
      change (String a p +:+ drop_space k s) with (String a (p +:+ drop_space k s)).
      now rewrite <- Hp.
Qed.

Lemma trimEnd_prefix s : exists q, s = trimEnd s +:+ q /\ blank q = true.
Proof.
  induction s as [|a s IH].
  - exists "". split; reflexivity.
  - cbn [trimEnd]. destruct (blank (String a s)) eqn:Hblank.
    + exists (String a s). split; [reflexivity | exact Hblank].
    + destruct IH as (q & Hq & Hblankq). exists q. split; [| exact Hblankq].
      change (String a (trimEnd s) +:+ q) with (String a (trimEnd s +:+ q)).
      now rewrite <- Hq.
Qed.

Lemma drop_space_head s : forall skip, space_width (drop_space skip s) = 0.
Proof.
  induction s as [|a s IH]; intros skip.
  - reflexivity.
  - destruct skip as [|k]; cbn [drop_space].
    + destruct (space_width (String a s)) as [|k] eqn:Hw; [exact Hw | apply IH].
    + apply IH.
Qed.

Lemma trimStart_idem s : trimStart (trimStart s) = trimStart s.
Proof.
  unfold trimStart. pose proof (drop_space_head s 0) as H.
  destruct (drop_space 0 s) as [|a t]; [reflexivity |].
  cbn [drop_space]. rewrite H. reflexivity.
Qed.

Lemma trimEnd_idem s : trimEnd (trimEnd s) = trimEnd s.
Proof.
  induction s as [|a s IH]; [reflexivity |].
  cbn [trimEnd]. destruct (blank (String a s)) eqn:Hblank; [reflexivity |].
  cbn [trimEnd]. rewrite IH.
  destruct (blank (String a (trimEnd s))) eqn:Hcut; [| reflexivity].
  destruct (trimEnd_prefix s) as (q & Hq & Hblankq).
  pose proof (blank_app _ q Hcut Hblankq) as Hall.
  change (String a (trimEnd s) +:+ q) with (String a (trimEnd s +:+ q)) in Hall.
  rewrite <- Hq in Hall. congruence.
Qed.

Lemma trimEnd_suffix p : forall u, trimEnd (p +:+ u) = p +:+ u -> trimEnd u = u.
Proof.
  induction p as [|a p IH]; intros u H; [exact H |].
  change (String a p +:+ u) with (String a (p +:+ u)) in H.
  cbn [trimEnd] in H. destruct (blank (String a (p +:+ u))); [discriminate H |].
  injection H as H. apply IH. exact H.
Qed.

(** Trimming the head of a text that ends properly leaves its end alone. *)
Lemma trimEnd_trimStart s : trimEnd s = s -> trimEnd (trimStart s) = trimStart s.
Proof.
  intros H. unfold trimStart. destruct (drop_space_suffix s 0) as [p Hp].
  apply (trimEnd_suffix p). rewrite <- Hp. exact H.
Qed.

Lemma trim_idem s : trim (trim s) = trim s.
Proof.
  unfold trim. rewrite (trimEnd_trimStart (trimEnd s)) by apply trimEnd_idem.
  apply trimStart_idem.
Qed.

End Trimming.

(** ** Plans: cleaning and parsing *)

Section Cleaning.

Lemma prefix_other_head p' a rest :
  Ascii.eqb a backtick = false ->
  String.prefix (String backtick p') (String a rest) = false.
Proof.
  intros H.
  change (String.prefix (String backtick p') (String a rest))
    with (if ascii_dec backtick a then String.prefix p' rest else false).
  destruct (ascii_dec backtick a) as [Heq | _]; [| reflexivity].
  subst a. rewrite Ascii.eqb_refl in H. discriminate H.
Qed.

(** Text without a backtick goes through the removal unchanged. *)
Lemma remove_from_free p' body rest :
  free_of backtick body = true ->
  remove_from (String backtick p') 0 (body +:+ rest)
  = body +:+ remove_from (String backtick p') 0 rest.
Proof.
  induction body as [|a body IH]; intros H.
  - reflexivity.
  - simpl in H. apply andb_true_iff in H as [Ha Hbody].
    apply negb_true_iff in Ha.
    change (String a body +:+ rest) with (String a (body +:+ rest)).
    cbn [remove_from]. rewrite (prefix_other_head p' a _ Ha).
    rewrite IH by assumption. reflexivity.
Qed.

Lemma append_empty s : s +:+ "" = s.
Proof.
  induction s as [|a s IH]; [reflexivity |].
  change (String a (s +:+ "") = String a s). now rewrite IH.
Qed.

Lemma remove_all_free p' body :
  free_of backtick body = true -> remove_all (String backtick p') body = body.
Proof.
  intros H. unfold remove_all.
  rewrite <- (append_empty body) at 1. rewrite remove_from_free by assumption.
  simpl. apply append_empty.
Qed.

(** The fences around a text without backticks are stripped: what is parsed
    is the text itself, trimmed. *)
Lemma cleanJson_fenced body :
  free_of backtick body = true ->
  cleanJson (fenced body) = trim body /\ cleanJson body = trim body.
Proof.
  intros H. unfold cleanJson. split.
  - assert (H1 : remove_all fence_json (fenced body) = body +:+ String newline fence).
    { unfold remove_all, fenced. cbn.
      change (remove_from fence_json 0 (body +:+ String newline fence)
              = body +:+ String newline fence).
      unfold fence_json. rewrite (remove_from_free "``json" body _ H).
      reflexivity. }
    rewrite H1. unfold remove_all, fence.
    rewrite (remove_from_free "``" body _ H).
    change (remove_from (String backtick "``") 0 (String newline "```"))
      with (String newline "").
    unfold trim. rewrite trimEnd_space by reflexivity. reflexivity.
  - change (trim (remove_all (String backtick "``")
                    (remove_all (String backtick "``json") body)) = trim body).
    rewrite (remove_all_free "``json" body H), (remove_all_free "``" body H).
    reflexivity.
Qed.

End Cleaning.

Section Parsing.
Context {E : Env}.

(** createPlan, first call: one request; the cleaned answer is parsed and
    the value is returned as it is, or the parser's error is thrown. *)
Lemma F07_createPlan_run task (s : Sys E) m w :
  chat_create E (planning_request task) (world s) = (m, w) ->
  F07.createPlan task None s =
  (match JSON_parse E (cleanJson (text_of_message m)) with
   | Some plan => Normal plan
   | None => Throw (SyntaxError "Unexpected token in JSON")
   end,
   mkSys w (trace s ++ [EvRequest (planning_request task)])).
Proof.
  intros Hm. unfold F07.createPlan. rewrite bind_ret_l.
  unfold bind, create, parse. fold (planning_request task). rewrite Hm.
  unfold text_of_message.
  destruct (JSON_parse E _); reflexivity.
Qed.

Lemma F07_adaptiveAgent_unparsed MAX task (s : Sys E) m w :
  chat_create E (planning_request task) (world s) = (m, w) ->
  JSON_parse E (cleanJson (text_of_message m)) = None ->
  F07.adaptiveAgent_with MAX task s =
  (Throw (SyntaxError "Unexpected token in JSON"),
   mkSys w (trace s ++ [EvLog (LBanner task); EvRequest (planning_request task)])).
Proof.
  intros Hm Hparse. unfold F07.adaptiveAgent_with.
  unfold bind at 1. unfold log at 1, emit at 1. cbv zeta.
  unfold bind at 1.
  rewrite (F07_createPlan_run task (mkSys (world s) _) m w Hm), Hparse.
  cbn [trace]. rewrite <- app_assoc. reflexivity.
Qed.

Lemma F06_planThenExecute_unparsed userMessage (s : Sys E) m w :
  chat_create E (planning_request userMessage) (world s) = (m, w) ->
  JSON_parse E (cleanJson (text_of_message m)) = None ->
  F06.planThenExecute userMessage s =
  (Normal None,
   mkSys w (trace s ++ [EvLog (LPhase 1); EvRequest (planning_request userMessage);
                        EvLog (LPlanUnparsed (text_of_message m))])).
Proof.
  intros Hm Hparse. unfold F06.planThenExecute.
  unfold bind at 1. unfold log at 1, emit at 1. cbv zeta.
  unfold bind at 1. unfold create at 1. cbn [world trace].
  fold (planning_request userMessage). rewrite Hm.
  unfold bind at 1. unfold try_catch, parse. fold (text_of_message m).
  rewrite Hparse. unfold bind, throw, log, emit, ret. cbn [world trace].
  rewrite <- !app_assoc. reflexivity.
Qed.

End Parsing.

(** C5, as amended.  createPlan strips the code fences from the service's
    answer before parsing (a fenced text without backticks is parsed as the
    text itself, trimmed).  When the cleaned answer is not JSON, createPlan
    throws the parser's error: adaptiveAgent ends with that error having
    sent the planning request only, and planThenExecute prints the answer
    and returns having sent the planning request only.  When the cleaned
    answer is JSON, createPlan returns the parsed value as it is. *)
Theorem C5_plan_is_cleaned_then_parsed (E : Env) :
  (forall body,
     free_of backtick body = true ->
     cleanJson (fenced body) = trim body /\ cleanJson body = trim body) /\
  (forall task (s : Sys E) m w,
     chat_create E (planning_request task) (world s) = (m, w) ->
     JSON_parse E (cleanJson (text_of_message m)) = None ->
     F07.createPlan task None s =
       (Throw (SyntaxError "Unexpected token in JSON"),
        mkSys w (trace s ++ [EvRequest (planning_request task)])) /\
     (forall MAX,
        F07.adaptiveAgent_with MAX task s =
          (Throw (SyntaxError "Unexpected token in JSON"),
           mkSys w (trace s ++ [EvLog (LBanner task);
                                EvRequest (planning_request task)]))) /\
     F06.planThenExecute task s =
       (Normal None,
        mkSys w (trace s ++ [EvLog (LPhase 1); EvRequest (planning_request task);
                             EvLog (LPlanUnparsed (text_of_message m))]))) /\
  (forall task (s : Sys E) m w plan,
     chat_create E (planning_request task) (world s) = (m, w) ->
     JSON_parse E (cleanJson (text_of_message m)) = Some plan ->
     F07.createPlan task None s =
       (Normal plan, mkSys w (trace s ++ [EvRequest (planning_request task)]))).
Proof.
  split; [| split].
  - apply cleanJson_fenced.
  - intros task s m w Hm Hparse. split; [| split].
    + rewrite (F07_createPlan_run task s m w Hm), Hparse. reflexivity.
    + intros MAX. apply (F07_adaptiveAgent_unparsed MAX task s m w Hm Hparse).
    + apply (F06_planThenExecute_unparsed task s m w Hm Hparse).
  - intros task s m w plan Hm Hparse.
    rewrite (F07_createPlan_run task s m w Hm), Hparse. reflexivity.
Qed.

Lemma C5_plan_is_cleaned_then_parsed_witness :
  let s := Demo.boot Demo.finish Demo.start in
  let w := Demo.mkState 1 [] [] [] in
  cleanJson (fenced Demo.plan_text) = trim Demo.plan_text /\
  F07.createPlan "task" None s =
    (Throw (SyntaxError "Unexpected token in JSON"),
     mkSys (E := Demo.env Demo.finish) w (trace s ++ [EvRequest (planning_request "task")])) /\
  F07.adaptiveAgent "task" s =
    (Throw (SyntaxError "Unexpected token in JSON"),
     mkSys (E := Demo.env Demo.finish) w
       (trace s ++ [EvLog (LBanner "task"); EvRequest (planning_request "task")])) /\
  F06.planThenExecute "task" s =
    (Normal None,
     mkSys (E := Demo.env Demo.finish) w
       (trace s ++ [EvLog (LPhase 1); EvRequest (planning_request "task");
                    EvLog (LPlanUnparsed "done")])).
Proof.
  intros s w.
  destruct (C5_plan_is_cleaned_then_parsed (Demo.env Demo.finish)) as (Hclean & Hfail & _).
  split.
  - refine (proj1 (Hclean Demo.plan_text _)). vm_compute. reflexivity.
  - destruct (Hfail "task" s (Demo.say "done") w) as (Hcreate & Hagent & Hplan).
    + reflexivity.
    + vm_compute. reflexivity.
    + split; [exact Hcreate | split; [exact (Hagent 3) | exact Hplan]].
Defined.

(** C5 as stated fails: the shape of the parsed value is not checked.  The
    service answers the planning request with a fenced JSON object whose
    [steps] are empty; createPlan returns it, adaptiveAgent prints it and
    starts the execution loop, which sends its decision request. *)
Lemma C5_plan_shape_is_not_checked :
  let s := Demo.boot Demo.idle_planner Demo.start in
  value_of (fst (F07.createPlan "task" None s)) = Some Demo.empty_plan /\
  prop Demo.empty_plan "steps" = Normal (Some (JArr [])) /\
  value_of (fst (F07.adaptiveAgent "task" s)) = Some Done /\
  map is_executing (requests_of (trace (snd (F07.adaptiveAgent "task" s))))
  = [false; true].
Proof. repeat split; vm_compute; reflexivity. Qed.

(** ** 05-skills.ts: merging the skills *)

Section Skills.
Context {E : Env}.

Lemma assign_lookup (target source : gmap string (Handler E)) name :
  F05.assign target source !! name =
  match source !! name with
  | Some handler => Some handler
  | None => target !! name
  end.
Proof.
  unfold F05.assign. destruct (source !! name) as [handler|] eqn:H.
  - apply lookup_union_Some_l. assumption.
  - apply lookup_union_r. assumption.
Qed.

Lemma createAgent_snoc (skills : list (F05.Skill (E := E))) (skill : F05.Skill (E := E))
    name :
  F05.allHandlers (F05.createAgent (skills ++ [skill])) !! name =
  match F05.handlers skill !! name with
  | Some handler => Some handler
  | None => F05.allHandlers (F05.createAgent skills) !! name
  end.
Proof.
  unfold F05.createAgent, F05.allHandlers.
  rewrite map_app, fold_left_app. cbn [map fold_left].
  apply assign_lookup.
Qed.

Lemma createAgent_tools (skills : list (F05.Skill (E := E))) (skill : F05.Skill (E := E)) :
  F05.allTools (F05.createAgent (skills ++ [skill]))
  = F05.allTools (F05.createAgent skills) ++ F05.tools skill.
Proof.
  unfold F05.createAgent, F05.allTools.
  rewrite flat_map_app. simpl. now rewrite app_nil_r.
Qed.

End Skills.

(** C4, as amended.  createAgent registers the actions of its skills
    without failing on a name that is already taken: the handler of the
    skill added last replaces the handler registered before under that name
    (and a name the last skill does not declare keeps its handler), while
    the descriptors of all skills are kept, those of the last skill after
    the others. *)
Theorem C4_later_skill_replaces_handler (E : Env)
    (skills : list (F05.Skill (E := E))) (skill : F05.Skill (E := E)) (name : string) :
  F05.allHandlers (F05.createAgent (skills ++ [skill])) !! name =
    match F05.handlers skill !! name with
    | Some handler => Some handler
    | None => F05.allHandlers (F05.createAgent skills) !! name
    end /\
  F05.allTools (F05.createAgent (skills ++ [skill]))
  = F05.allTools (F05.createAgent skills) ++ F05.tools skill.
Proof. split; [apply createAgent_snoc | apply createAgent_tools]. Qed.

(** C4 as stated fails: a skill that declares read_file again is accepted
    next to filesystemSkill.  The tool list then holds two descriptors named
    read_file, and the handler found under that name is the second skill's. *)
Lemma C4_duplicate_name_is_accepted :
  let agent := F05.createAgent [F05.filesystemSkill; Demo.shadow] in
  count_occ string_dec (map fn_name (F05.allTools agent)) "read_file" = 2 /\
  option_map (fun handler => fst (handler Demo.missing_args (Demo.boot Demo.finish Demo.start)))
             (F05.allHandlers agent !! "read_file")
  = Some (Normal "second") /\
  option_map (fun handler => fst (handler Demo.missing_args (Demo.boot Demo.finish Demo.start)))
             (F05.handlers F05.filesystemSkill !! "read_file")
  = Some (Normal (error_text +:+ "ENOENT: no such file or directory, open 'missing.txt'")).
Proof. repeat split; vm_compute; reflexivity. Qed.

(** ** The defect of lines 290 and 297 of 07-adaptive-agent.ts *)

Section Defect.
Context {E : Env}.

Lemma F07_lookup_think : F07.toolHandlers (E := E) !! "think" = Some F07.think.
Proof. unfold F07.toolHandlers. table_lookup. reflexivity. Qed.

Lemma F07_lookup_write_file :
  F07.toolHandlers (E := E) !! "write_file" = Some F07.write_file.
Proof. unfold F07.toolHandlers. table_lookup. reflexivity. Qed.

Lemma F07_lookup_request_replan :
  F07.toolHandlers (E := E) !! "request_replan" = Some F07.request_replan.
Proof. unfold F07.toolHandlers. table_lookup. reflexivity. Qed.

(** 04: a request for a name without a handler is answered with the
    "not found" text. *)
Lemma F04_answer_unknown call args messages (s : Sys E) :
  F04.toolHandlers (E := E) !! tc_name call = None ->
  JSON_parse E (tc_arguments call) = Some args ->
  F04.answer call messages s =
  (Normal (messages ++ [MTool (tc_id call) (not_found (tc_name call))]),
   mkSys (world s)
     (trace s ++ [EvLog (LTool (tc_name call) args);
                  EvLog (LResult (not_found (tc_name call)))])).
Proof.
  intros Hnone Hparse. unfold F04.answer, parse. cbv zeta.
  rewrite Hparse, bind_ret_l, (invoke_missing _ _ _ _ Hnone).
  unfold bind, log, emit, ret. cbn [world trace].
  rewrite <- !app_assoc. reflexivity.
Qed.

(** 07: the "not found" text is computed and printed, but what is appended
    is "OK". *)
Lemma F07_answer_unknown call args messages (s : Sys E) :
  F07.toolHandlers (E := E) !! tc_name call = None ->
  JSON_parse E (tc_arguments call) = Some args ->
  F07.answer call messages s =
  (Normal (F07.Next (messages ++ [MTool (tc_id call) "OK"])),
   mkSys (world s)
     (trace s ++ [EvLog (LTool (tc_name call) args);
                  EvLog (LResult (not_found (tc_name call)))])).
Proof.
  intros Hnone Hparse. unfold F07.answer, parse. cbv zeta.
  rewrite Hparse, bind_ret_l.
  destruct (String.eqb (tc_name call) "think") eqn:Hthink.
  { apply String.eqb_eq in Hthink.
    rewrite Hthink, F07_lookup_think in Hnone. discriminate Hnone. }
  destruct (String.eqb (tc_name call) "request_replan") eqn:Hreplan.
  { apply String.eqb_eq in Hreplan.
    rewrite Hreplan, F07_lookup_request_replan in Hnone. discriminate Hnone. }
  unfold F07.argsPreview.
  destruct (String.eqb (tc_name call) "write_file") eqn:Hwrite.
  { apply String.eqb_eq in Hwrite.
    rewrite Hwrite, F07_lookup_write_file in Hnone. discriminate Hnone. }
  rewrite !(invoke_missing _ _ _ _ Hnone).
  unfold bind, log, emit, ret. cbn [world trace].
  rewrite <- !app_assoc. reflexivity.
Qed.

End Defect.

(** How often a handler runs for one request. *)

Section Invocations.
Context {E : Env}.

Lemma discreet_ret {A : Type} (a : A) : discreet (ret (E := E) a).
Proof. intros s. reflexivity. Qed.

Lemma discreet_lift {A : Type} (c : Completion A) : discreet (lift (E := E) c).
Proof. intros s. reflexivity. Qed.

Lemma discreet_bind {A B : Type} (m : M E A) (k : A -> M E B) :
  discreet m -> (forall a, discreet (k a)) -> discreet (bind m k).
Proof.
  intros Hm Hk s. unfold bind. specialize (Hm s).
  destruct (m s) as [[a|e] s']; simpl in *.
  - now rewrite Hk.
  - assumption.
Qed.

Lemma discreet_try_catch {A : Type} (m : M E A) (h : JsError -> M E A) :
  discreet m -> (forall e, discreet (h e)) -> discreet (try_catch m h).
Proof.
  intros Hm Hh s. unfold try_catch. specialize (Hm s).
  destruct (m s) as [[a|e] s']; simpl in *.
  - assumption.
  - now rewrite Hh.
Qed.

Lemma discreet_effect {A : Type} (f : World E -> (JsError + A) * World E) :
  discreet (effect f).
Proof. intros s. unfold effect. destruct (f (world s)) as [[e|a] w]; reflexivity. Qed.

Lemma discreet_observe {A : Type} (f : World E -> JsError + A) : discreet (observe f).
Proof. intros s. unfold observe. destruct (f (world s)); reflexivity. Qed.

Lemma discreet_length_of v : discreet (length_of (E := E) v).
Proof. intros s. destruct v as [[]|]; reflexivity. Qed.

Lemma discreet_to_text v : discreet (to_text (E := E) v).
Proof. intros s. unfold to_text. destruct (stringable v); reflexivity. Qed.

Ltac discreet_auto :=
  repeat first
    [ apply discreet_bind; [| intros ?]
    | apply discreet_try_catch; [| intros ?]
    | apply discreet_ret
    | apply discreet_lift
    | apply discreet_effect
    | apply discreet_observe
    | apply discreet_length_of
    | apply discreet_to_text ].

Lemma F04_handlers_discreet n (h : Handler E) :
  F04.toolHandlers !! n = Some h -> forall a, discreet (h a).
Proof.
  intros H a. unfold F04.toolHandlers in H. table_cases H.
  - unfold F04.run_bash, destructure. discreet_auto.
  - unfold F04.read_file, destructure. discreet_auto.
Qed.

Lemma F07_handlers_discreet n (h : Handler E) :
  F07.toolHandlers !! n = Some h -> forall a, discreet (h a).
Proof.
  intros H a. unfold F07.toolHandlers in H. table_cases H.
  - unfold F07.think. discreet_auto.
  - unfold F07.run_bash, destructure. discreet_auto.
  - unfold F07.read_file, destructure. discreet_auto.
  - unfold F07.write_file, destructure. discreet_auto.
  - unfold F07.request_replan. discreet_auto.
Qed.

(** 04: the handler of a request runs once. *)
Lemma F04_answer_invokes_once call args h messages (s : Sys E) :
  JSON_parse E (tc_arguments call) = Some args ->
  F04.toolHandlers (E := E) !! tc_name call = Some h ->
  invocations_of (trace (snd (F04.answer call messages s)))
  = invocations_of (trace s) ++ [(tc_name call, args)].
Proof.
  intros Hparse Hfound. unfold F04.answer, parse. cbv zeta.
  rewrite Hparse, bind_ret_l, (invoke_found _ _ _ _ _ Hfound).
  unfold bind, log, emit, ret. cbn [world trace].
  match goal with
  | |- context [h args ?state] =>
      pose proof (F04_handlers_discreet _ h Hfound args state) as Hrun;
      destruct (h args state) as [[result|e] s2]
  end; cbn [snd trace] in *;
    rewrite ?invocations_of_app, Hrun, !invocations_of_app; simpl;
    now rewrite ?app_nil_r.
Qed.

Lemma F07_argsPreview_run name fields (s : Sys E) :
  tame (JObj fields) = true ->
  (name = "write_file" -> is_nullish (own "content" fields) = false) ->
  F07.argsPreview name (JObj fields) s = (Normal tt, s).
Proof.
  intros Htame Hcontent. unfold F07.argsPreview.
  destruct (String.eqb name "write_file") eqn:Hname; [| reflexivity].
  apply String.eqb_eq in Hname. specialize (Hcontent Hname).
  rewrite !lift_prop_object, bind_ret_l.
  unfold bind at 1. rewrite (to_text_run _ _ (tame_own_stringable _ "path" Htame)).
  rewrite bind_ret_l.
  assert (Hlen : exists len, length_of (E := E) (own "content" fields) s = (Normal len, s)
                             /\ stringable len = true).
  { destruct (own "content" fields) as [y|] eqn:Hown; [| discriminate Hcontent].
    pose proof (tame_own _ _ _ Htame Hown) as Hy.
    destruct y as [| | | | |inner]; simpl in *; try discriminate Hcontent;
      try (eexists; split; [reflexivity | reflexivity]).
    exists (own "length" inner). split; [reflexivity |].
    apply tame_own_stringable. exact Hy. }
  destruct Hlen as (len & Hrun & Hlen).
  unfold bind at 1. rewrite Hrun.
  unfold bind at 1. rewrite (to_text_run _ _ Hlen). reflexivity.
Qed.

(** 07: the handler of a request other than think and request_replan runs
    twice, at line 290 for the console and at line 297 for the
    transcript. *)
Lemma F07_answer_invokes_twice call fields h messages (s : Sys E) :
  JSON_parse E (tc_arguments call) = Some (JObj fields) ->
  tc_name call <> "think" ->
  tc_name call <> "request_replan" ->
  tame (JObj fields) = true ->
  (tc_name call = "write_file" -> is_nullish (own "content" fields) = false) ->
  F07.toolHandlers (E := E) !! tc_name call = Some h ->
  invocations_of (trace (snd (F07.answer call messages s)))
  = invocations_of (trace s)
    ++ [(tc_name call, JObj fields); (tc_name call, JObj fields)].
Proof.
  intros Hparse Hthink Hreplan Htame Hcontent Hfound. unfold F07.answer, parse. cbv zeta.
  rewrite Hparse, bind_ret_l.
  apply String.eqb_neq in Hthink, Hreplan. rewrite Hthink, Hreplan.
  rewrite !(invoke_found _ _ _ _ _ Hfound).
  unfold bind at 1. unfold bind at 1.
  rewrite (F07_argsPreview_run _ _ _ Htame Hcontent).
  unfold bind, log, emit, ret. cbn [world trace].
  match goal with
  | |- context [h (JObj fields) ?state] =>
      pose proof (F07_handlers_discreet _ h Hfound (JObj fields) state) as Hrun;
      destruct (F07_handlers_nothrow _ h fields Hfound state) as (result & s2 & Hfirst);
      rewrite Hfirst in *
  end.
  cbn [snd world trace] in *.
  match goal with
  | |- context [h (JObj fields) ?state] =>
      pose proof (F07_handlers_discreet _ h Hfound (JObj fields) state) as Hrun2;
      destruct (F07_handlers_nothrow _ h fields Hfound state) as (text & s3 & Hsecond);
      rewrite Hsecond in *
  end.
  cbn [snd world trace] in *.
  rewrite Hrun2, !invocations_of_app, Hrun, !invocations_of_app. simpl.
  rewrite !app_nil_r, <- app_assoc. reflexivity.
Qed.

End Invocations.

(** C1 fails on executeWithReact.  The service asks once for the shell
    command [mkdir out].  In 07 the handler of that one request is invoked
    twice and the command runs twice, for one action-result turn; the loop
    of 04 invokes it once. *)
Theorem C1_handler_invoked_twice_in_07 :
  let run07 := F07.executeWithReact "task" Demo.plan (Demo.boot Demo.once_bash Demo.start) in
  let run04 := F04.agentLoop "task" (Demo.boot Demo.once_bash Demo.start) in
  request_ids (match value_of (fst run07) with Some out => snd out | None => [] end)
    = ["b1"] /\
  result_tags (match value_of (fst run07) with Some out => snd out | None => [] end)
    = ["b1"] /\
  invocations_of (trace (snd run07))
    = [("run_bash", Demo.mkdir_args); ("run_bash", Demo.mkdir_args)] /\
  Demo.shell (world (snd run07)) = ["mkdir out"; "mkdir out"] /\
  invocations_of (trace (snd run04)) = [("run_bash", Demo.mkdir_args)] /\
  Demo.shell (world (snd run04)) = ["mkdir out"].
Proof. repeat split; vm_compute; reflexivity. Qed.

(** C8 fails on executeWithReact.  The service asks once for list_dir, which
    has no handler.  In 07 the action-result appended for the request is
    "OK"; the loop of 04 appends the "not found" text.  Both loops go on to
    the next decision request. *)
Theorem C8_unknown_action_answered_ok_in_07 :
  let run07 := F07.executeWithReact "task" Demo.plan (Demo.boot Demo.unknown_tool Demo.start) in
  let run04 := F04.agentLoop "task" (Demo.boot Demo.unknown_tool Demo.start) in
  option_map (fun out => snd out) (value_of (fst run07))
    = Some [ MSystem (ExecutorPrompt Demo.plan); MUser "task";
             MAssistant (Demo.unknown_tool 0 (mkRequest [] []));
             MTool "u1" "OK";
             MAssistant (Demo.say "done") ] /\
  value_of (fst run04)
    = Some [ MSystem (StaticPrompt "04"); MUser "task";
             MAssistant (Demo.unknown_tool 0 (mkRequest [] []));
             MTool "u1" (not_found "list_dir");
             MAssistant (Demo.say "done") ] /\
  length (requests_of (trace (snd run07))) = 2 /\
  length (requests_of (trace (snd run04))) = 2.
Proof. repeat split; vm_compute; reflexivity. Qed.
(* ================================================================== *)
(** * Further properties of the loops *)
(* ================================================================== *)

#[local] Hint Resolve quiet_ask_user : quiet.

(** ** Rules for [within] and [counts] *)

Section Within.
Context {E : Env}.

Lemma within_ret {A : Type} (P : Event -> Prop) (a : A) (Q : A -> Prop) :
  Q a -> within (E := E) P (ret a) Q.
Proof.
  intros H s. split.
  - exists []. split; [symmetry; apply app_nil_r | constructor].
  - intros a' Ha. injection Ha as <-. exact H.
Qed.

Lemma within_throw {A : Type} (P : Event -> Prop) e (Q : A -> Prop) :
  within (E := E) P (throw e) Q.
Proof.
  intros s. split.
  - exists []. split; [symmetry; apply app_nil_r | constructor].
  - intros a Ha. discriminate Ha.
Qed.

Lemma within_lift {A : Type} (P : Event -> Prop) (c : Completion A) :
  within (E := E) P (lift c) (fun a => c = Normal a).
Proof.
  intros s. split.
  - exists []. split; [symmetry; apply app_nil_r | constructor].
  - intros a Ha. exact Ha.
Qed.

Lemma within_bind {A B : Type} (P : Event -> Prop) (m : M E A) (k : A -> M E B)
    (Q : A -> Prop) (R : B -> Prop) :
  within P m Q -> (forall a, Q a -> within P (k a) R) -> within P (bind m k) R.
Proof.
  intros Hm Hk s. destruct (Hm s) as [(d1 & Ht1 & Hd1) Hq]. unfold bind.
  destruct (m s) as [[a|e] s1]; simpl in *.
  - destruct (Hk a (Hq a eq_refl) s1) as [(d2 & Ht2 & Hd2) Hr].
    split; [| exact Hr]. exists (d1 ++ d2). split.
    + rewrite Ht2, Ht1. symmetry. apply app_assoc.
    + apply Forall_app. split; assumption.
  - split; [exists d1; split; assumption | discriminate].
Qed.

Lemma within_weaken {A : Type} (P P' : Event -> Prop) (m : M E A) (Q Q' : A -> Prop) :
  (forall ev, P ev -> P' ev) -> (forall a, Q a -> Q' a) ->
  within P m Q -> within P' m Q'.
Proof.
  intros HP HQ Hm s. destruct (Hm s) as [(d & Ht & Hd) Hq]. split.
  - exists d. split; [assumption |]. eapply Forall_impl; [exact Hd | exact HP].
  - intros a Ha. apply HQ, Hq, Ha.
Qed.

(** What is known of the value of a run can be added to what the trace shows. *)
Lemma within_post {A : Type} (P : Event -> Prop) (m : M E A) (Q Q' : A -> Prop) :
  within P m Q ->
  (forall s a s', m s = (Normal a, s') -> Q' a) ->
  within P m (fun a => Q a /\ Q' a).
Proof.
  intros Hm Hpost s. destruct (Hm s) as [Ht Hq]. split; [exact Ht |].
  intros a Ha. split; [apply Hq, Ha |].
  destruct (m s) as [c s'] eqn:Hrun. simpl in Ha. subst c.
  eapply Hpost. exact Hrun.
Qed.

Lemma within_try_catch {A : Type} (P : Event -> Prop) (m : M E A)
    (h : JsError -> M E A) (Q : A -> Prop) :
  within P m Q -> (forall e, within P (h e) Q) -> within P (try_catch m h) Q.
Proof.
  intros Hm Hh s. destruct (Hm s) as [(d1 & Ht1 & Hd1) Hq]. unfold try_catch.
  destruct (m s) as [[a|e] s1]; simpl in *.
  - split; [exists d1; split; assumption | exact Hq].
  - destruct (Hh e s1) as [(d2 & Ht2 & Hd2) Hr].
    split; [| exact Hr]. exists (d1 ++ d2). split.
    + rewrite Ht2, Ht1. symmetry. apply app_assoc.
    + apply Forall_app. split; assumption.
Qed.

Lemma emits_bind {A B : Type} (P : Event -> Prop) (m : M E A) (k : A -> M E B)
    (R : B -> Prop) :
  emits P m -> (forall a, within P (k a) R) -> within P (bind m k) R.
Proof. intros Hm Hk. eapply within_bind; [exact Hm | intros a _; apply Hk]. Qed.

Lemma emits_of_within {A : Type} (P : Event -> Prop) (m : M E A) (Q : A -> Prop) :
  within P m Q -> emits P m.
Proof. apply within_weaken; auto. Qed.

Lemma emits_weaken {A : Type} (P P' : Event -> Prop) (m : M E A) :
  (forall ev, P ev -> P' ev) -> emits P m -> emits P' m.
Proof. intros HP. apply within_weaken; auto. Qed.

Lemma emits_ret {A : Type} (P : Event -> Prop) (a : A) : emits (E := E) P (ret a).
Proof. apply within_ret. exact I. Qed.

Lemma emits_throw {A : Type} (P : Event -> Prop) e : emits (E := E) (A := A) P (throw e).
Proof. apply within_throw. Qed.

Lemma emits_lift {A : Type} (P : Event -> Prop) (c : Completion A) :
  emits (E := E) P (lift c).
Proof. eapply emits_of_within. apply within_lift. Qed.

Lemma emits_destructure (P : Event -> Prop) args k :
  emits (E := E) P (destructure args k).
Proof. apply emits_lift. Qed.

Lemma emits_emit (P : Event -> Prop) ev : P ev -> emits (E := E) P (emit ev).
Proof.
  intros H s. split; [| auto]. exists [ev]. split; [reflexivity |].
  constructor; [exact H | constructor].
Qed.

Lemma emits_log (P : Event -> Prop) l : P (EvLog l) -> emits (E := E) P (log l).
Proof. apply emits_emit. Qed.

Lemma emits_create (P : Event -> Prop) request :
  P (EvRequest request) -> emits (E := E) P (create request).
Proof.
  intros H s. split; [| auto]. exists [EvRequest request]. unfold create.
  destruct (chat_create E request (world s)) as [m w]. simpl.
  split; [reflexivity |]. constructor; [exact H | constructor].
Qed.

Lemma emits_effect {A : Type} (P : Event -> Prop)
    (f : World E -> (JsError + A) * World E) : emits P (effect f).
Proof.
  intros s. split; [| auto]. exists []. unfold effect.
  destruct (f (world s)) as [[e|a] w]; simpl;
    (split; [symmetry; apply app_nil_r | constructor]).
Qed.

Lemma emits_observe {A : Type} (P : Event -> Prop) (f : World E -> JsError + A) :
  emits P (observe f).
Proof.
  intros s. split; [| auto]. exists []. unfold observe.
  destruct (f (world s)) as [e|a]; simpl;
    (split; [symmetry; apply app_nil_r | constructor]).
Qed.

Lemma within_parse (P : Event -> Prop) text :
  within (E := E) P (parse text) (fun v => JSON_parse E text = Some v).
Proof.
  unfold parse. destruct (JSON_parse E text) as [v|].
  - apply within_ret. reflexivity.
  - apply within_throw.
Qed.

Lemma emits_parse (P : Event -> Prop) text : emits (E := E) P (parse text).
Proof. eapply emits_of_within. apply within_parse. Qed.

Lemma emits_length_of (P : Event -> Prop) v : emits (E := E) P (length_of v).
Proof. destruct v as [[]|]; simpl; first [apply emits_ret | apply emits_throw]. Qed.

Lemma emits_to_text (P : Event -> Prop) v : emits (E := E) P (to_text v).
Proof. unfold to_text. destruct (stringable v); [apply emits_ret | apply emits_throw]. Qed.

Lemma emits_ask_user (P : Event -> Prop) question :
  emits (E := E) P (F08.ask_user question).
Proof.
  intros s. split; [| auto]. exists []. unfold F08.ask_user.
  destruct (ask E question (world s)) as [answer w]. simpl.
  split; [symmetry; apply app_nil_r | constructor].
Qed.

Lemma within_for_each {A S : Type} (P : Event -> Prop) (body : A -> S -> M E S)
    (Inv : S -> Prop) xs :
  (forall x acc, Inv acc -> within P (body x acc) Inv) ->
  forall acc, Inv acc -> within P (for_each body xs acc) Inv.
Proof.
  intros Hbody. induction xs as [|x xs IH]; intros acc Hacc; simpl.
  - apply within_ret. exact Hacc.
  - eapply within_bind; [apply Hbody; exact Hacc | exact IH].
Qed.

Lemma emits_for_each {A S : Type} (P : Event -> Prop) (body : A -> S -> M E S) xs :
  (forall x acc, emits P (body x acc)) -> forall acc, emits P (for_each body xs acc).
Proof.
  intros Hbody acc. apply within_for_each with (Inv := fun _ => True); [| exact I].
  intros x a _. apply Hbody.
Qed.

(** A handler call adds the call itself and what the handler adds. *)
Lemma emits_invoke (P : Event -> Prop) (handlers : gmap string (Handler E))
    name args fallback :
  (forall h, handlers !! name = Some h -> P (EvInvoke name args) /\ emits P (h args)) ->
  emits P (invoke handlers name args fallback).
Proof.
  intros H. unfold invoke. destruct (handlers !! name) as [h|] eqn:Hh.
  - destruct (H h eq_refl) as [Hev Hrun].
    apply emits_bind; [apply emits_emit; exact Hev | intros _; exact Hrun].
  - apply emits_ret.
Qed.

Lemma requests_of_Forall (P : Request -> Prop) delta :
  Forall (on_requests P) delta -> Forall P (requests_of delta).
Proof.
  induction 1 as [|ev delta Hev _ IH]; simpl; [constructor |].
  destruct ev; simpl in *; try assumption. constructor; assumption.
Qed.

Lemma invocations_of_Forall (P : string -> JValue -> Prop) delta :
  Forall (on_invocations P) delta ->
  Forall (fun call => P (fst call) (snd call)) (invocations_of delta).
Proof.
  induction 1 as [|ev delta Hev _ IH]; simpl; [constructor |].
  destruct ev; simpl in *; try assumption. constructor; assumption.
Qed.

Lemma within_value {A : Type} (P : Event -> Prop) (m : M E A) (Q : A -> Prop) s a :
  within P m Q -> fst (m s) = Normal a -> Q a.
Proof. intros H. apply (H s). Qed.

Lemma local_on_requests (P : Request -> Prop) ev : is_local ev -> on_requests P ev.
Proof. destruct ev; simpl; auto; contradiction. Qed.

Lemma log_is_local ev : is_log ev -> is_local ev.
Proof. destruct ev; simpl; auto. Qed.

(** ** Counting requests *)

Lemma counts_quiet {A : Type} (p : Request -> bool) k (m : M E A) :
  quiet m -> counts p k m.
Proof. intros H s. rewrite H. lia. Qed.

Lemma counts_weaken {A : Type} (p : Request -> bool) k k' (m : M E A) :
  k <= k' -> counts p k m -> counts p k' m.
Proof. intros Hk H s. specialize (H s). lia. Qed.

Lemma counts_bind {A B : Type} (p : Request -> bool) k1 k2 (m : M E A) (f : A -> M E B) :
  counts p k1 m -> (forall a, counts p k2 (f a)) -> counts p (k1 + k2) (bind m f).
Proof.
  intros Hm Hf s. specialize (Hm s). unfold bind.
  destruct (m s) as [[a|e] s1]; simpl in *.
  - specialize (Hf a s1). lia.
  - lia.
Qed.

Lemma counts_quiet_bind {A B : Type} (p : Request -> bool) k (m : M E A)
    (f : A -> M E B) :
  quiet m -> (forall a, counts p k (f a)) -> counts p k (bind m f).
Proof.
  intros Hm Hf. change k with (0 + k). apply counts_bind; [| exact Hf].
  apply counts_quiet. exact Hm.
Qed.

Lemma counts_create (p : Request -> bool) request :
  counts (E := E) p (if p request then 1 else 0) (create request).
Proof.
  intros s. unfold create. destruct (chat_create E request (world s)) as [m w]. simpl.
  rewrite requests_of_app, List.filter_app, length_app. simpl.
  destruct (p request); simpl; lia.
Qed.

Lemma counts_create_bind {B : Type} (p : Request -> bool) k request
    (f : AssistantMessage -> M E B) :
  (forall a, counts p k (f a)) -> counts p (S k) (bind (create request) f).
Proof.
  intros Hf. change (S k) with (1 + k). apply counts_bind; [| exact Hf].
  eapply counts_weaken; [| apply counts_create]. destruct (p request); lia.
Qed.

Lemma counts_skip_bind {B : Type} (p : Request -> bool) k request
    (f : AssistantMessage -> M E B) :
  p request = false ->
  (forall a, counts p k (f a)) -> counts p k (bind (create request) f).
Proof.
  intros Hp Hf. change k with (0 + k). apply counts_bind; [| exact Hf].
  pose proof (counts_create p request) as H. rewrite Hp in H. exact H.
Qed.

End Within.

Create HintDb emits.

#[local] Hint Resolve emits_ret emits_throw emits_lift emits_destructure emits_effect
  emits_observe emits_parse emits_length_of emits_to_text emits_ask_user : emits.
#[local] Hint Extern 1 (emits _ (log _)) => apply emits_log; exact I : emits.

(** Breaks a computation into its primitives, as [quiet_auto] does. *)
Ltac emits_step :=
  match goal with
  | |- emits _ (bind _ _) => apply emits_bind; [| intros ?]
  | |- emits _ (try_catch _ _) => apply within_try_catch; [| intros ?]
  | |- emits _ (for_each _ _ _) => apply emits_for_each; intros ? ?
  | |- emits _ (if ?b then _ else _) => destruct b
  | |- emits _ (match ?x with _ => _ end) => destruct x
  | |- within _ _ (fun _ => True) => change (within ?P ?m (fun _ => True)) with (emits P m)
  | |- emits _ _ => solve [auto with emits]
  end.

Ltac emits_auto := repeat emits_step.

(** ** What the handlers and the loop bodies add to the trace *)

Section Bodies.
Context {E : Env}.

Lemma emits_invoke_table (P : Event -> Prop) (handlers : gmap string (Handler E))
    name args fallback :
  (forall n h, handlers !! n = Some h -> forall a, emits is_log (h a)) ->
  (forall ev, is_local ev -> P ev) ->
  emits P (invoke handlers name args fallback).
Proof.
  intros Hh HP. apply emits_invoke. intros h Hfound. split.
  - apply HP. exact I.
  - eapply emits_weaken; [| eapply Hh; exact Hfound].
    intros ev Hev. apply HP, log_is_local, Hev.
Qed.

(** A loop body that adds local events and appends one action-result turn
    per request: over the requests of a turn it adds local events and
    appends the answers in order. *)
Lemma within_answers (P : Event -> Prop)
    (body : ToolCall -> list Message -> M E (list Message)) toolCalls messages :
  (forall call acc, emits is_local (body call acc)) ->
  (forall call acc s acc' s',
      body call acc s = (Normal acc', s') ->
      exists result, acc' = acc ++ [MTool (tc_id call) result]) ->
  (forall ev, is_local ev -> P ev) ->
  within P (for_each body toolCalls messages)
    (fun messages' => exists results,
       length results = length toolCalls /\
       messages' = messages ++ answers toolCalls results).
Proof.
  intros Hlocal Hshape HP.
  apply within_weaken with (P := is_local)
    (Q := fun messages' => True /\ exists results,
            length results = length toolCalls /\
            messages' = messages ++ answers toolCalls results);
    [exact HP | tauto |].
  apply within_post; [apply emits_for_each; exact Hlocal |].
  intros s a s' H. eapply for_each_answers; eassumption.
Qed.

Lemma F04_handlers_log n (h : Handler E) :
  F04.toolHandlers !! n = Some h -> forall a, emits is_log (h a).
Proof.
  intros H a. unfold F04.toolHandlers in H. table_cases H.
  - unfold F04.run_bash. emits_auto.
  - unfold F04.read_file. emits_auto.
Qed.

Lemma F07_handlers_log n (h : Handler E) :
  F07.toolHandlers !! n = Some h -> forall a, emits is_log (h a).
Proof.
  intros H a. unfold F07.toolHandlers in H. table_cases H.
  - unfold F07.think. emits_auto.
  - unfold F07.run_bash. emits_auto.
  - unfold F07.read_file. emits_auto.
  - unfold F07.write_file. emits_auto.
  - unfold F07.request_replan. emits_auto.
Qed.

Lemma F06_handlers_log n (h : Handler E) :
  F06.toolHandlers !! n = Some h -> forall a, emits is_log (h a).
Proof.
  intros H a. unfold F06.toolHandlers in H. table_cases H.
  - unfold F06.think. emits_auto.
  - unfold F07.run_bash. emits_auto.
  - unfold F07.read_file. emits_auto.
  - unfold F07.write_file. emits_auto.
Qed.

Lemma F06_handlers_quiet n (h : Handler E) :
  F06.toolHandlers !! n = Some h -> forall a, quiet (h a).
Proof.
  intros H a. unfold F06.toolHandlers in H. table_cases H.
  - unfold F06.think. quiet_auto.
  - unfold F07.run_bash. quiet_auto.
  - unfold F07.read_file. quiet_auto.
  - unfold F07.write_file. quiet_auto.
Qed.

Lemma F08_handlers_log n (h : Handler E) :
  F08.toolHandlers !! n = Some h -> forall a, emits is_log (h a).
Proof.
  intros H a. unfold F08.toolHandlers in H. table_cases H.
  - unfold F08.think. emits_auto.
  - unfold F07.run_bash. emits_auto.
  - unfold F07.read_file. emits_auto.
  - unfold F08.write_file. emits_auto.
  - unfold F08.ask_user_choice, F08.showOption. emits_auto.
  - unfold F08.ask_user_input, F08.shown_if_truthy. emits_auto.
  - unfold F08.ask_user_confirm, F08.shown_if_truthy. emits_auto.
Qed.

(** Every handler of an agent is a handler of one of its skills. *)
Lemma createAgent_handlers (Pr : Handler E -> Prop)
    (skills : list (F05.Skill (E := E))) :
  (forall skill, In skill skills ->
     forall n h, F05.handlers skill !! n = Some h -> Pr h) ->
  forall n h, F05.allHandlers (F05.createAgent skills) !! n = Some h -> Pr h.
Proof.
  induction skills as [|skill skills IH] using rev_ind; intros Hskills n h H.
  - unfold F05.createAgent in H. simpl in H. rewrite lookup_empty in H. discriminate.
  - rewrite createAgent_snoc in H.
    destruct (F05.handlers skill !! n) as [h'|] eqn:Hh.
    + injection H as <-. eapply Hskills; [| exact Hh].
      apply in_or_app. right. left. reflexivity.
    + eapply IH; [| exact H]. intros sk Hin. apply Hskills.
      apply in_or_app. left. exact Hin.
Qed.

Lemma emits_evaluate (P : Event -> Prop) expression :
  emits (E := E) P (F05.evaluate expression).
Proof.
  intros s. split; [| auto]. exists []. unfold F05.evaluate.
  destruct (js_eval E expression (world s)) as [outcome w]. simpl.
  split; [symmetry; apply app_nil_r | constructor].
Qed.

Lemma F05_handlers_log n (h : Handler E) :
  F05.allHandlers F05.agent !! n = Some h -> forall a, emits is_log (h a).
Proof.
  unfold F05.agent. revert n h.
  apply (createAgent_handlers (fun h => forall a, emits is_log (h a))).
  intros skill [<- | [<- | [<- | []]]] n h H a; cbn [F05.handlers] in H.
  - unfold F05.filesystemSkill in H. cbn [F05.handlers] in H. table_cases H.
    + unfold F05.read_file. emits_auto.
    + unfold F05.write_file. emits_auto.
    + unfold F05.list_dir. emits_auto.
  - unfold F05.bashSkill in H. cbn [F05.handlers] in H. table_cases H.
    unfold F05.run_bash. emits_auto.
  - unfold F05.mathSkill in H. cbn [F05.handlers] in H. table_cases H.
    unfold F05.calculate, F05.thrown_message.
    apply emits_bind; [auto with emits | intros expression].
    apply emits_bind; [apply emits_evaluate | intros outcome].
    emits_auto.
Qed.

(** A computation that adds only local events sends no request and closes
    nothing. *)
Lemma local_quiet {A : Type} (m : M E A) : emits is_local m -> quiet m.
Proof.
  intros H s. destruct (H s) as [(delta & Ht & Hd) _].
  rewrite Ht, requests_of_app.
  replace (requests_of delta) with (@nil Request); [apply app_nil_r |].
  clear Ht. induction Hd as [|ev delta Hev _ IH]; [reflexivity |].
  destruct ev; simpl in *; try contradiction; exact IH.
Qed.

Lemma local_open {A : Type} (m : M E A) s :
  emits is_local m -> closes_of (trace (snd (m s))) = closes_of (trace s).
Proof.
  intros H. destruct (H s) as [(delta & Ht & Hd) _].
  rewrite Ht. unfold closes_of. rewrite List.filter_app, length_app.
  replace (List.filter _ delta) with (@nil Event); [simpl; lia |].
  clear Ht. induction Hd as [|ev delta Hev _ IH]; [reflexivity |].
  destruct ev; simpl in *; try contradiction; exact IH.
Qed.

Lemma F07_argsPreview_local name args :
  emits is_local (F07.argsPreview (E := E) name args).
Proof. unfold F07.argsPreview. emits_auto. Qed.

Lemma F04_answer_local call messages : emits is_local (F04.answer (E := E) call messages).
Proof.
  unfold F04.answer. emits_auto.
  apply emits_invoke_table; [apply F04_handlers_log | auto].
Qed.

Lemma F05_answer_local call messages :
  emits is_local (F05.answer (E := E) F05.agent call messages).
Proof.
  unfold F05.answer. emits_auto.
  apply emits_invoke_table; [apply F05_handlers_log | auto].
Qed.

Lemma F06_answer_local call messages : emits is_local (F06.answer (E := E) call messages).
Proof.
  unfold F06.answer. emits_auto;
    [apply F07_argsPreview_local | apply emits_invoke_table; [apply F06_handlers_log | auto]].
Qed.

Lemma F06_react_answer_local call messages :
  emits is_local (F06.react_answer (E := E) call messages).
Proof.
  unfold F06.react_answer. emits_auto;
    [apply F07_argsPreview_local | apply emits_invoke_table; [apply F06_handlers_log | auto]].
Qed.

Lemma F07_answer_local call messages : emits is_local (F07.answer (E := E) call messages).
Proof.
  unfold F07.answer. emits_auto;
    first [apply F07_argsPreview_local
          | apply emits_invoke_table; [apply F07_handlers_log | auto]].
Qed.

Lemma F08_answer_local call messages : emits is_local (F08.answer (E := E) call messages).
Proof.
  unfold F08.answer. emits_auto;
    apply emits_invoke_table; [apply F08_handlers_log | auto].
Qed.

Lemma F05_answer_shape call messages (s : Sys E) messages' s' :
  F05.answer F05.agent call messages s = (Normal messages', s') ->
  exists result, messages' = messages ++ [MTool (tc_id call) result].
Proof.
  unfold F05.answer. intros H.
  repeat bind_inv H.
  injection H as <- <-. eexists. reflexivity.
Qed.

Lemma F06_answer_shape call messages (s : Sys E) messages' s' :
  F06.answer call messages s = (Normal messages', s') ->
  exists result, messages' = messages ++ [MTool (tc_id call) result].
Proof.
  unfold F06.answer. intros H.
  repeat bind_inv H.
  injection H as <- <-. eexists. reflexivity.
Qed.

Lemma F06_react_answer_shape call messages (s : Sys E) messages' s' :
  F06.react_answer call messages s = (Normal messages', s') ->
  exists result, messages' = messages ++ [MTool (tc_id call) result].
Proof.
  unfold F06.react_answer. intros H. bind_inv H.
  destruct (String.eqb (tc_name call) "think").
  - repeat bind_inv H. injection H as <- <-. eexists. reflexivity.
  - repeat bind_inv H.
    injection H as <- <-. eexists. reflexivity.
Qed.

Lemma F08_answer_shape call messages (s : Sys E) messages' s' :
  F08.answer call messages s = (Normal messages', s') ->
  exists result, messages' = messages ++ [MTool (tc_id call) result].
Proof.
  unfold F08.answer. intros H.
  repeat bind_inv H.
  injection H as <- <-. eexists. reflexivity.
Qed.

(** What one pass of the loop body of 07 hands on: the transcript with the
    answer to the request, or, for a revision request, the transcript with
    its fixed answer and the status "replan_requested". *)
Lemma F07_answer_flow call messages (s : Sys E) flow s' :
  F07.answer call messages s = (Normal flow, s') ->
  match flow with
  | F07.Next messages' => exists text, messages' = messages ++ [MTool (tc_id call) text]
  | F07.Return messages' result =>
      status result = replan_requested /\
      messages' = messages ++ [MTool (tc_id call) "REPLAN_REQUESTED"]
  end.
Proof.
  unfold F07.answer. intros H. repeat bind_inv H.
  destruct a0 as [flow0|].
  - injection H as <- <-.
    destruct (String.eqb (tc_name call) "think").
    + repeat bind_inv Hrun0. discriminate Hrun0.
    + destruct (String.eqb (tc_name call) "request_replan").
      * repeat bind_inv Hrun0.
        injection Hrun0 as <- <-. split; reflexivity.
      * repeat bind_inv Hrun0.
        discriminate Hrun0.
  - bind_inv H. injection H as <- <-. eexists. reflexivity.
Qed.

End Bodies.

(** ** The ceilings on decision requests *)

Section Ceilings.
Context {E : Env}.

Lemma filter_all {A : Type} (l : list A) : List.filter (fun _ => true) l = l.
Proof. induction l as [|x l IH]; simpl; congruence. Qed.

Lemma counts_length {A : Type} k (m : M E A) s :
  counts (fun _ => true) k m ->
  length (requests_of (trace (snd (m s)))) <= length (requests_of (trace s)) + k.
Proof. intros H. specialize (H s). rewrite !filter_all in H. exact H. Qed.

Lemma F04_loop_counts p n : forall i messages,
  counts p n (F04.loop (E := E) n i messages).
Proof.
  induction n as [|n IH]; intros i messages; cbn [F04.loop].
  - apply counts_quiet, quiet_ret.
  - apply counts_quiet_bind; [apply quiet_log | intros _].
    apply counts_create_bind. intros m.
    destruct (no_calls m).
    + apply counts_quiet. quiet_auto.
    + apply counts_quiet_bind; [| intros messages'; apply IH].
      apply quiet_for_each. intros call acc. apply F04_answer_quiet.
Qed.

Lemma F03_loop_counts p n : forall i messages,
  counts p n (F03.loop (E := E) n i messages).
Proof.
  induction n as [|n IH]; intros i messages; cbn [F03.loop].
  - apply counts_quiet. quiet_auto.
  - apply counts_quiet_bind; [apply quiet_log | intros _].
    apply counts_create_bind. intros m.
    destruct (no_calls m).
    + apply counts_quiet. quiet_auto.
    + apply counts_quiet_bind; [| intros messages'; apply IH].
      apply quiet_for_each. intros call acc. apply F03_answer_quiet.
Qed.

Lemma F05_loop_counts p n : forall i messages,
  counts p n (F05.loop (E := E) F05.agent n i messages).
Proof.
  induction n as [|n IH]; intros i messages; cbn [F05.loop].
  - apply counts_quiet, quiet_ret.
  - apply counts_quiet_bind; [apply quiet_log | intros _].
    apply counts_create_bind. intros m.
    destruct (no_calls m).
    + apply counts_quiet. quiet_auto.
    + apply counts_quiet_bind; [| intros messages'; apply IH].
      apply quiet_for_each. intros call acc. apply local_quiet, F05_answer_local.
Qed.

Lemma F06_loop_counts p n : forall i messages,
  counts p n (F06.loop (E := E) n i messages).
Proof.
  induction n as [|n IH]; intros i messages; cbn [F06.loop].
  - apply counts_quiet, quiet_ret.
  - apply counts_quiet_bind; [apply quiet_log | intros _].
    apply counts_create_bind. intros m.
    destruct (no_calls m).
    + apply counts_quiet. quiet_auto.
    + apply counts_quiet_bind; [| intros messages'; apply IH].
      apply quiet_for_each. intros call acc. apply local_quiet, F06_answer_local.
Qed.

Lemma F06_react_loop_counts p n : forall i messages,
  counts p n (F06.react_loop (E := E) n i messages).
Proof.
  induction n as [|n IH]; intros i messages; cbn [F06.react_loop].
  - apply counts_quiet, quiet_ret.
  - apply counts_create_bind. intros m.
    destruct (no_calls m).
    + apply counts_quiet. quiet_auto.
    + apply counts_quiet_bind; [| intros messages'; apply IH].
      apply quiet_for_each. intros call acc. apply local_quiet, F06_react_answer_local.
Qed.

Lemma F07_loop_counts p n : forall i messages,
  counts p n (F07.loop (E := E) n i messages).
Proof.
  induction n as [|n IH]; intros i messages; cbn [F07.loop].
  - apply counts_quiet, quiet_ret.
  - apply counts_create_bind. intros m.
    destruct (no_calls m).
    + apply counts_quiet. quiet_auto.
    + apply counts_quiet_bind; [apply F07_for_calls_quiet |].
      intros [messages' | messages' result]; [apply IH | apply counts_quiet, quiet_ret].
Qed.

End Ceilings.

(** X1.  Whatever the service answers and whatever the tools do (also when
    a handler or JSON.parse throws), a run of the loop of 04-real-tools.ts
    or of 03-agent-loop.ts with ceiling LIMIT sends at most LIMIT decision
    requests, a run of the agent of 05-skills.ts at most 10, and a run of
    reactAgent of 06-planning.ts at most 20. *)
Theorem X1_single_phase_loops_request_ceiling (E : Env) (userMessage : string)
    (s : Sys E) :
  (forall LIMIT,
     length (requests_of (trace (snd (F04.agentLoop_with LIMIT userMessage s))))
     <= length (requests_of (trace s)) + LIMIT) /\
  (forall LIMIT,
     length (requests_of (trace (snd (F03.agentLoop_with LIMIT userMessage s))))
     <= length (requests_of (trace s)) + LIMIT) /\
  length (requests_of (trace (snd (F05.run F05.agent userMessage s))))
  <= length (requests_of (trace s)) + 10 /\
  length (requests_of (trace (snd (F06.reactAgent userMessage s))))
  <= length (requests_of (trace s)) + 20.
Proof.
  repeat split; intros; apply counts_length.
  - apply F04_loop_counts.
  - apply F03_loop_counts.
  - apply F05_loop_counts.
  - apply F06_react_loop_counts.
Qed.

(** ** What the loops send: transcripts and instructions *)

Section Soundness.
Context {E : Env}.

Lemma leading_tags_app_user l text :
  leading_tags (l ++ [MUser text]) = leading_tags l.
Proof.
  induction l as [|x l IH]; simpl; [reflexivity |].
  destruct x; simpl; try assumption; [reflexivity | now rewrite IH].
Qed.

Lemma turns_app_user l text : turns (l ++ [MUser text]) = turns l.
Proof.
  induction l as [|x l IH]; simpl; [reflexivity |].
  destruct x; simpl; try assumption.
  now rewrite IH, leading_tags_app_user.
Qed.

(** A user turn keeps the shape. *)
Lemma answered_user messages text :
  answered messages -> answered (messages ++ [MUser text]).
Proof.
  intros [Hlead Hturns]. split.
  - now rewrite leading_tags_app_user.
  - now rewrite turns_app_user.
Qed.

(** What is shown of a run by [within] and by [counts], on its requests. *)
Lemma run_requests {A : Type} (P : Request -> Prop) k (m : M E A) (Q : A -> Prop) s :
  within (on_requests P) m Q -> counts (fun _ => true) k m ->
  exists new,
    requests_of (trace (snd (m s))) = requests_of (trace s) ++ new /\
    length new <= k /\ Forall P new.
Proof.
  intros Hw Hc. destruct (Hw s) as [(delta & Ht & Hd) _].
  apply (counts_length k m s) in Hc.
  exists (requests_of delta). rewrite Ht, requests_of_app in *.
  rewrite length_app in Hc. repeat split.
  - lia.
  - apply requests_of_Forall. exact Hd.
Qed.

Lemma F05_loop_sound n : forall i messages,
  answered messages ->
  within (on_requests (fun rq => answered (rq_messages rq)))
         (F05.loop (E := E) F05.agent n i messages)
         (fun out => answered (snd out)).
Proof.
  induction n as [|n IH]; intros i messages Hans; cbn [F05.loop].
  - apply within_ret. exact Hans.
  - apply emits_bind; [apply emits_log; exact I | intros _].
    apply emits_bind; [apply emits_create; exact Hans | intros m].
    destruct (no_calls m) eqn:Hm.
    + apply emits_bind; [apply emits_log; exact I | intros _].
      apply within_ret. apply answered_final; assumption.
    + eapply within_bind.
      * apply within_answers;
          [apply F05_answer_local | apply F05_answer_shape | apply local_on_requests].
      * intros messages' (results & Hlen & ->). apply IH.
        apply answered_turn; assumption.
Qed.

Lemma F06_react_loop_sound n : forall i messages,
  answered messages ->
  within (on_requests (fun rq => answered (rq_messages rq)))
         (F06.react_loop (E := E) n i messages) answered.
Proof.
  induction n as [|n IH]; intros i messages Hans; cbn [F06.react_loop].
  - apply within_ret. exact Hans.
  - apply emits_bind; [apply emits_create; exact Hans | intros m].
    destruct (no_calls m) eqn:Hm.
    + apply emits_bind; [apply emits_log; exact I | intros _].
      apply within_ret. apply answered_final; assumption.
    + eapply within_bind.
      * apply within_answers;
          [apply F06_react_answer_local | apply F06_react_answer_shape
          | apply local_on_requests].
      * intros messages' (results & Hlen & ->). apply IH.
        apply answered_turn; assumption.
Qed.

Lemma F06_loop_sound plan n : forall i messages,
  (exists rest, messages = MSystem (ExecutorPrompt plan) :: rest) ->
  answered messages ->
  within (on_requests (fun rq => executes plan rq /\ rq_tools rq = F06.tools /\
                                 answered (rq_messages rq)))
         (F06.loop (E := E) n i messages) answered.
Proof.
  induction n as [|n IH]; intros i messages Hhead Hans; cbn [F06.loop].
  - apply within_ret. exact Hans.
  - apply emits_bind; [apply emits_log; exact I | intros _].
    apply emits_bind;
      [apply emits_create; split; [exact Hhead | split; [reflexivity | exact Hans]]
      | intros m].
    destruct (no_calls m) eqn:Hm.
    + apply emits_bind; [apply emits_log; exact I | intros _].
      apply within_ret. apply answered_final; assumption.
    + eapply within_bind.
      * apply within_answers;
          [apply F06_answer_local | apply F06_answer_shape | apply local_on_requests].
      * intros messages' (results & Hlen & ->). apply IH.
        -- destruct Hhead as [rest ->]. eexists. reflexivity.
        -- apply answered_turn; assumption.
Qed.

(** The [for] loop of 07 over the requests of a turn: it answers them all
    and goes on, or it returns at a revision request. *)
Lemma F07_for_calls_flow toolCalls : forall messages (s : Sys E) flow s',
  F07.for_calls toolCalls messages s = (Normal flow, s') ->
  match flow with
  | F07.Next messages' =>
      exists results,
        length results = length toolCalls /\
        messages' = messages ++ answers toolCalls results
  | F07.Return messages' result =>
      status result = replan_requested /\ exists extra, messages' = messages ++ extra
  end.
Proof.
  induction toolCalls as [|call rest IH]; intros messages s flow s' H; simpl in H.
  - injection H as <- <-. exists []. split; [reflexivity |].
    symmetry. apply app_nil_r.
  - bind_inv H. apply F07_answer_flow in Hrun.
    destruct a as [messages1 | messages1 result].
    + destruct Hrun as [text ->]. apply IH in H.
      destruct flow as [messages2 | messages2 result].
      * destruct H as (results & Hlen & ->). exists (text :: results). split.
        -- simpl. now rewrite Hlen.
        -- rewrite <- app_assoc. reflexivity.
      * destruct H as (Hstatus & extra & ->). split; [assumption |].
        eexists. rewrite <- app_assoc. reflexivity.
    + injection H as <- <-. destruct Hrun as [Hstatus ->].
      split; [assumption | eexists; reflexivity].
Qed.

Lemma F07_for_calls_local toolCalls : forall messages,
  emits is_local (F07.for_calls (E := E) toolCalls messages).
Proof.
  induction toolCalls as [|call rest IH]; intros messages; simpl.
  - apply emits_ret.
  - apply emits_bind; [apply F07_answer_local |].
    intros [messages1 | messages1 result]; [apply IH | apply emits_ret].
Qed.

Lemma F07_loop_sound plan n : forall i messages,
  (exists rest, messages = MSystem (ExecutorPrompt plan) :: rest) ->
  answered messages ->
  within (on_requests (fun rq => executes plan rq /\ rq_tools rq = F07.executionTools /\
                                 answered (rq_messages rq)))
         (F07.loop (E := E) n i messages)
         (fun out => status (fst out) = completed -> answered (snd out)).
Proof.
  induction n as [|n IH]; intros i messages Hhead Hans; cbn [F07.loop].
  - apply within_ret. intros _. exact Hans.
  - apply emits_bind;
      [apply emits_create; split; [exact Hhead | split; [reflexivity | exact Hans]]
      | intros m].
    destruct (no_calls m) eqn:Hm.
    + apply emits_bind; [apply emits_log; exact I | intros _].
      apply within_ret. intros _. apply answered_final; assumption.
    + eapply within_bind.
      * apply within_weaken with (P := is_local)
          (Q := fun flow => True /\
             match flow with
             | F07.Next messages' =>
                 exists results,
                   length results = length (calls m) /\
                   messages' = (messages ++ [MAssistant m]) ++ answers (calls m) results
             | F07.Return messages' result =>
                 status result = replan_requested /\
                 exists extra, messages' = (messages ++ [MAssistant m]) ++ extra
             end);
          [apply local_on_requests | intros flow H; exact H |].
        apply within_post; [apply F07_for_calls_local |].
        intros s flow s' H. eapply F07_for_calls_flow. exact H.
      * intros [messages' | messages' result] [_ H].
        -- destruct H as (results & Hlen & ->). apply IH.
           ++ destruct Hhead as [rest ->]. eexists. reflexivity.
           ++ apply answered_turn; assumption.
        -- destruct H as [Hstatus _]. apply within_ret. simpl.
           rewrite Hstatus. discriminate.
Qed.

Lemma F08_loop_sound n : forall i messages,
  answered messages ->
  within (on_requests (fun rq => rq_tools rq = F08.tools /\ answered (rq_messages rq)))
         (F08.loop (E := E) n i messages) answered.
Proof.
  induction n as [|n IH]; intros i messages Hans; cbn [F08.loop].
  - apply emits_bind; [apply emits_emit; exact I | intros _].
    apply within_ret. exact Hans.
  - apply emits_bind; [apply emits_create; split; [reflexivity | exact Hans] | intros m].
    destruct (no_calls m) eqn:Hm.
    + apply emits_bind; [apply emits_log; exact I | intros _].
      apply emits_bind; [apply emits_ask_user | intros follow].
      destruct (String.eqb follow "").
      * apply emits_bind; [apply emits_log; exact I | intros _].
        apply emits_bind; [apply emits_emit; exact I | intros _].
        apply within_ret. apply answered_final; assumption.
      * apply IH. apply answered_user. apply answered_final; assumption.
    + eapply within_bind.
      * apply within_answers;
          [apply F08_answer_local | apply F08_answer_shape | apply local_on_requests].
      * intros messages' (results & Hlen & ->). apply IH.
        apply answered_turn; assumption.
Qed.

End Soundness.


(** ** 07-adaptive-agent.ts: what adaptiveAgent sends *)

Section Adaptive.
Context {E : Env}.

Lemma F07_join_or_quiet xs sep fallback : quiet (F07.join_or (E := E) xs sep fallback).
Proof.
  unfold F07.join_or. destruct xs as [[]|]; try destruct (forallb _ _); auto with quiet.
Qed.

Lemma F07_join_or_emits (P : Event -> Prop) xs sep fallback :
  emits P (F07.join_or (E := E) xs sep fallback).
Proof.
  unfold F07.join_or. destruct xs as [[]|]; try destruct (forallb _ _); auto with emits.
Qed.

(** createPlan sends one request, the planning request, unless joining the
    lists of its context throws before. *)
Lemma F07_createPlan_counts (p : Request -> bool) k task context :
  (forall replan,
     (if p (mkRequest [MSystem (PlannerPrompt replan); MUser task] []) then 1 else 0) <= k) ->
  counts p k (F07.createPlan (E := E) task context).
Proof.
  intros Hk. unfold F07.createPlan. apply counts_quiet_bind.
  - destruct context as [c|]; [| apply quiet_ret].
    destruct (previousPlan c) as [previous|]; [| apply quiet_ret].
    destruct (truthy previous); [| apply quiet_ret].
    apply quiet_bind; [apply F07_join_or_quiet | intros done].
    apply quiet_bind; [apply F07_join_or_quiet | intros found]. apply quiet_ret.
  - intros replan. change k with (0 + k).
    eapply counts_weaken; [| apply counts_bind with (k1 := k) (k2 := 0)];
      [lia | | intros m; apply counts_quiet, quiet_parse].
    eapply counts_weaken; [apply Hk | apply counts_create].
Qed.

Lemma F07_createPlan_emits (P : Event -> Prop) task context :
  (forall replan, P (EvRequest (mkRequest [MSystem (PlannerPrompt replan); MUser task] []))) ->
  emits P (F07.createPlan (E := E) task context).
Proof.
  intros HP. unfold F07.createPlan. apply emits_bind.
  - destruct context as [c|]; [| apply emits_ret].
    destruct (previousPlan c) as [previous|]; [| apply emits_ret].
    destruct (truthy previous); [| apply emits_ret].
    apply emits_bind; [apply F07_join_or_emits | intros done].
    apply emits_bind; [apply F07_join_or_emits | intros found]. apply emits_ret.
  - intros replan. apply emits_bind; [apply emits_create, HP | intros m].
    apply emits_parse.
Qed.

Lemma F07_printStep_quiet step : quiet (F07.printStep (E := E) step).
Proof. unfold F07.printStep. quiet_auto. Qed.

Lemma F07_printStep_emits (P : Event -> Prop) step :
  emits P (F07.printStep (E := E) step).
Proof. unfold F07.printStep. emits_auto. Qed.

Lemma F07_printPlan_quiet plan isReplan : quiet (F07.printPlan (E := E) plan isReplan).
Proof.
  unfold F07.printPlan.
  apply quiet_bind; [auto with quiet | intros goal].
  apply quiet_bind; [auto with quiet | intros _].
  apply quiet_bind; [auto with quiet | intros _].
  apply quiet_bind; [auto with quiet | intros steps].
  destruct steps as [[]|]; auto with quiet.
  apply quiet_for_each. intros step acc. apply F07_printStep_quiet.
Qed.

(** The steps that can be printed one by one hold no null. *)
Lemma steps_read_inv items : forall (s : Sys E) s',
  for_each (fun step (_ : unit) => F07.printStep step) items tt s = (Normal tt, s') ->
  forallb (fun item => match item with JNull => false | _ => true end) items = true.
Proof.
  induction items as [|item items IH]; intros s s' H; simpl in *; [reflexivity |].
  bind_inv H. destruct a. unfold F07.printStep in Hrun. bind_inv Hrun.
  unfold lift in Hrun0.
  destruct item; simpl in *; try discriminate Hrun0; eapply IH; exact H.
Qed.

(** printPlan ends normally only on a plan it can print. *)
Lemma F07_printPlan_post plan isReplan (s : Sys E) u s' :
  F07.printPlan plan isReplan s = (Normal u, s') -> printable plan = true.
Proof.
  unfold F07.printPlan. intros H. bind_inv H. bind_inv H. bind_inv H. bind_inv H.
  unfold lift in Hrun, Hrun2.
  destruct plan; simpl in Hrun, Hrun2; try discriminate Hrun;
    injection Hrun2 as <- _; try discriminate H.
  simpl. destruct (own "steps" fields) as [[]|]; try discriminate H.
  destruct u. eapply steps_read_inv. exact H.
Qed.

Lemma F07_printPlan_within (P : Event -> Prop) plan isReplan :
  (forall l, P (EvLog l)) ->
  within P (F07.printPlan (E := E) plan isReplan) (fun _ => printable plan = true).
Proof.
  intros HP.
  apply within_weaken with (P := P) (Q := fun u => True /\ printable plan = true);
    [auto | tauto |].
  apply within_post.
  - unfold F07.printPlan.
    apply emits_bind; [apply emits_lift | intros goal].
    apply emits_bind; [apply emits_to_text | intros _].
    apply emits_bind; [apply emits_log, HP | intros _].
    apply emits_bind; [apply emits_lift | intros steps].
    destruct steps as [[]|]; try apply emits_throw.
    apply emits_for_each. intros step acc. apply F07_printStep_emits.
  - intros s u s' H. eapply F07_printPlan_post. exact H.
Qed.

(** The requests of an attempt: [a] bounds those of one execution, [b]
    those of one call of createPlan. *)
Lemma F07_attempts_counts (p : Request -> bool) a b MAX task :
  (forall plan, counts p a (F07.executeWithReact (E := E) task plan)) ->
  (forall context, counts p b (F07.createPlan (E := E) task context)) ->
  forall r replanCount plan,
    r + replanCount = MAX + 1 ->
    counts p (r * a + (r - 1) * b) (F07.attempts (E := E) MAX r replanCount task plan).
Proof.
  intros Ha Hb. induction r as [|r IH]; intros replanCount plan Hcount;
    cbn [F07.attempts].
  - apply counts_quiet, quiet_ret.
  - apply counts_quiet_bind; [apply quiet_log | intros _].
    apply counts_weaken with (k := a + (r * a + r * b)); [simpl; lia |].
    apply counts_bind; [apply Ha | intros outcome].
    destruct (status (fst outcome)); [apply counts_quiet; quiet_auto |].
    destruct (Nat.ltb MAX (S replanCount)) eqn:Hlt; [apply counts_quiet; quiet_auto |].
    apply Nat.ltb_ge in Hlt.
    apply counts_quiet_bind; [apply quiet_log | intros _].
    apply counts_weaken with (k := b + (r * a + (r - 1) * b)).
    { destruct r as [|r]; [lia | simpl; lia]. }
    apply counts_bind; [apply Hb | intros plan'].
    apply counts_quiet_bind; [apply F07_printPlan_quiet | intros _].
    apply IH. lia.
Qed.

Lemma F07_adaptiveAgent_counts (p : Request -> bool) a b MAX task :
  (forall plan, counts p a (F07.executeWithReact (E := E) task plan)) ->
  (forall context, counts p b (F07.createPlan (E := E) task context)) ->
  counts p ((MAX + 1) * (a + b)) (F07.adaptiveAgent_with (E := E) MAX task).
Proof.
  intros Ha Hb. unfold F07.adaptiveAgent_with.
  apply counts_quiet_bind; [apply quiet_log | intros _].
  apply counts_weaken with (k := b + ((MAX + 1) * a + (MAX + 1 - 1) * b)); [nia |].
  apply counts_bind; [apply Hb | intros plan].
  apply counts_quiet_bind; [apply F07_printPlan_quiet | intros _].
  apply F07_attempts_counts; [assumption | assumption | lia].
Qed.

(** The [while] loop of adaptiveAgent is always left through one of its two
    [return] statements or by an exception: its condition never fails. *)
Lemma F07_attempts_ends MAX task : forall r replanCount plan (s : Sys E),
  S r + replanCount = MAX + 1 ->
  fst (F07.attempts MAX (S r) replanCount task plan s) <> Normal LoopExit.
Proof.
  induction r as [|r IH]; intros replanCount plan s Hcount;
    rewrite F07_attempts_step; cbv zeta;
    (destruct (F07.executeWithReact _ _ _) as [[outcome|e] s1]; [| discriminate]);
    (destruct (status (fst outcome)); [discriminate |]);
    (destruct (Nat.ltb MAX (S replanCount)) eqn:Hlt; [discriminate |]);
    apply Nat.ltb_ge in Hlt.
  - lia.
  - destruct (F07.createPlan _ _ _) as [[plan'|e] s3]; [| discriminate].
    destruct (F07.printPlan _ _ _) as [[u|e] s4]; [| discriminate].
    apply IH. lia.
Qed.

Lemma F07_execute_sound task plan :
  printable plan = true ->
  emits (on_requests adaptive_request) (F07.executeWithReact (E := E) task plan).
Proof.
  intros Hprint. unfold F07.executeWithReact, F07.executeWithReact_with.
  eapply within_weaken;
    [| | apply (F07_loop_sound plan 20 0 [MSystem (ExecutorPrompt plan); MUser task])].
  - intros [] Hev; simpl in *; auto. right. exists plan. tauto.
  - auto.
  - eexists. reflexivity.
  - apply answered_start.
Qed.

Lemma F07_attempts_sound MAX task : forall r replanCount plan,
  printable plan = true ->
  emits (on_requests adaptive_request) (F07.attempts (E := E) MAX r replanCount task plan).
Proof.
  induction r as [|r IH]; intros replanCount plan Hprint; cbn [F07.attempts].
  - apply emits_ret.
  - apply emits_bind; [apply emits_log; exact I | intros _].
    apply emits_bind; [apply F07_execute_sound; assumption | intros outcome].
    destruct (status (fst outcome)).
    { apply emits_bind; [apply emits_log; exact I | intros _]. apply emits_ret. }
    destruct (Nat.ltb MAX (S replanCount)).
    { apply emits_bind; [apply emits_log; exact I | intros _]. apply emits_ret. }
    apply emits_bind; [apply emits_log; exact I | intros _].
    apply emits_bind.
    { apply F07_createPlan_emits. intros replan. left. split; reflexivity. }
    intros plan'. eapply within_bind.
    { apply F07_printPlan_within. intros l. exact I. }
    intros u Hprint'. apply IH. exact Hprint'.
Qed.

Lemma F07_adaptiveAgent_sound MAX task :
  emits (on_requests adaptive_request) (F07.adaptiveAgent_with (E := E) MAX task).
Proof.
  unfold F07.adaptiveAgent_with.
  apply emits_bind; [apply emits_log; exact I | intros _].
  apply emits_bind.
  { apply F07_createPlan_emits. intros replan. left. split; reflexivity. }
  intros plan. eapply within_bind.
  { apply F07_printPlan_within. intros l. exact I. }
  intros u Hprint. apply F07_attempts_sound. exact Hprint.
Qed.

Lemma F07_adaptiveAgent_budget MAX task :
  counts is_planning ((MAX + 1) * (0 + 1)) (F07.adaptiveAgent_with (E := E) MAX task) /\
  counts is_executing ((MAX + 1) * (20 + 0)) (F07.adaptiveAgent_with (E := E) MAX task) /\
  counts (fun _ => true) ((MAX + 1) * (20 + 1)) (F07.adaptiveAgent_with (E := E) MAX task).
Proof.
  split; [| split]; apply F07_adaptiveAgent_counts;
    try (intros context; apply F07_createPlan_counts; intros replan; simpl; lia);
    try (intros plan; apply F07_loop_counts).
  intros plan s0. unfold F07.executeWithReact, F07.executeWithReact_with.
  rewrite (F07_loop_requests is_planning 20 planning_not_executing). lia.
Qed.

End Adaptive.

(** X3.  Whatever the service answers, one run of executeWithReact with
    ceiling LIMIT sends at most LIMIT decision requests.  Each carries the
    execution tools and a transcript that starts with the executor's
    instructions for the plan it was given and in which every action
    request of an assistant turn is followed by its action-result turn, in
    order.  When the run returns the status "completed", the transcript it
    ends with has that shape too. *)
Theorem X3_execute_with_react_requests (E : Env) (LIMIT : nat) (task : string)
    (plan : JValue) (s : Sys E) :
  (exists new,
     requests_of (trace (snd (F07.executeWithReact_with LIMIT task plan s)))
     = requests_of (trace s) ++ new /\
     length new <= LIMIT /\
     Forall (fun rq => executes plan rq /\ rq_tools rq = F07.executionTools /\
                       answered (rq_messages rq)) new) /\
  (forall out,
     fst (F07.executeWithReact_with LIMIT task plan s) = Normal out ->
     status (fst out) = completed -> answered (snd out)).
Proof.
  assert (H := F07_loop_sound (E := E) plan LIMIT 0
                 [MSystem (ExecutorPrompt plan); MUser task]
                 (ex_intro _ [MUser task] eq_refl) (answered_start _ _)).
  split.
  - exact (run_requests _ LIMIT _ _ s H (F07_loop_counts _ LIMIT 0 _)).
  - intros out Hout. exact (within_value _ _ _ s out H Hout).
Qed.

(** X4.  The budget of adaptiveAgent: for every replan maximum MAX and
    whatever the service answers, a run sends at most MAX + 1 planning
    requests and at most (MAX + 1) * 20 execution requests, hence at most
    (MAX + 1) * 21 decision requests in all. *)
Theorem X4_adaptive_agent_request_budget (E : Env) (MAX : nat) (task : string)
    (s : Sys E) :
  let s' := snd (F07.adaptiveAgent_with MAX task s) in
  length (planning_requests (trace s')) <= length (planning_requests (trace s)) + (MAX + 1) /\
  length (List.filter is_executing (requests_of (trace s')))
  <= length (List.filter is_executing (requests_of (trace s))) + (MAX + 1) * 20 /\
  length (requests_of (trace s')) <= length (requests_of (trace s)) + (MAX + 1) * 21.
Proof.
  cbv zeta.
  destruct (F07_adaptiveAgent_budget (E := E) MAX task) as (Hplanning & Hexecuting & Hall).
  specialize (Hplanning s). specialize (Hexecuting s).
  apply (counts_length _ _ s) in Hall.
  unfold planning_requests. repeat split; lia.
Qed.

(** X5.  adaptiveAgent never leaves its [while] loop through the loop
    condition: whatever the service answers, a run ends with an exception,
    at the "return" after a completed execution, or at the "limit of
    replans" return; it never falls out of the loop. *)
Theorem X5_adaptive_agent_ends_at_a_return (E : Env) (MAX : nat) (task : string)
    (s : Sys E) :
  (exists e, fst (F07.adaptiveAgent_with MAX task s) = Throw e) \/
  fst (F07.adaptiveAgent_with MAX task s) = Normal Done \/
  fst (F07.adaptiveAgent_with MAX task s) = Normal Aborted.
Proof.
  assert (H : fst (F07.adaptiveAgent_with MAX task s) <> Normal LoopExit).
  { unfold F07.adaptiveAgent_with, bind.
    destruct (log _ s) as [[u|e] s0]; [| discriminate].
    destruct (F07.createPlan _ _ s0) as [[plan|e] s1]; [| discriminate].
    destruct (F07.printPlan _ _ s1) as [[u'|e] s2]; [| discriminate].
    replace (MAX + 1) with (S MAX) by lia.
    apply F07_attempts_ends. lia. }
  destruct (fst (F07.adaptiveAgent_with MAX task s)) as [[| |]|e].
  - right. left. reflexivity.
  - right. right. reflexivity.
  - contradiction.
  - left. exists e. reflexivity.
Qed.

(** X6.  adaptiveAgent executes only plans that printPlan has printed:
    every decision request of a run is a planning request without tools, or
    an execution request, with the execution tools, whose instructions
    carry a plan that is an object with an array [steps] without null
    items.  A plan of another shape makes the run throw before the first
    execution request for it. *)
Theorem X6_adaptive_agent_executes_printed_plans (E : Env) (MAX : nat)
    (task : string) (s : Sys E) :
  exists new,
    requests_of (trace (snd (F07.adaptiveAgent_with MAX task s)))
    = requests_of (trace s) ++ new /\
    Forall (fun rq =>
              (is_planning rq = true /\ rq_tools rq = []) \/
              (exists plan, executes plan rq /\ printable plan = true /\
                            rq_tools rq = F07.executionTools)) new.
Proof.
  destruct (F07_adaptiveAgent_sound (E := E) MAX task s) as [(delta & Ht & Hd) _].
  exists (requests_of delta). rewrite Ht, requests_of_app. split; [reflexivity |].
  apply (requests_of_Forall adaptive_request). exact Hd.
Qed.

(** ** 06-planning.ts: the two phases of planThenExecute *)

Section Phases.
Context {E : Env}.

(** showPlan ends normally only on a plan printPlan can print. *)
Lemma F06_showPlan_post plan (s : Sys E) u s' :
  F06.showPlan plan s = (Normal u, s') -> printable plan = true.
Proof.
  unfold F06.showPlan. intros H. repeat bind_inv H.
  unfold lift in Hrun, Hrun2.
  destruct plan; simpl in Hrun, Hrun2; try discriminate Hrun;
    injection Hrun2 as <- _; try discriminate H.
  simpl. destruct (own "steps" fields) as [[]|]; try discriminate H.
  destruct u. eapply steps_read_inv. exact H.
Qed.

Lemma F06_showPlan_within (P : Event -> Prop) plan :
  (forall l, P (EvLog l)) ->
  within P (F06.showPlan (E := E) plan) (fun _ => printable plan = true).
Proof.
  intros HP.
  apply within_weaken with (P := P) (Q := fun u => True /\ printable plan = true);
    [auto | tauto |].
  apply within_post.
  - unfold F06.showPlan.
    apply emits_bind; [apply emits_lift | intros goal].
    apply emits_bind; [apply emits_to_text | intros _].
    apply emits_bind; [apply emits_log, HP | intros _].
    apply emits_bind; [apply emits_lift | intros steps].
    apply emits_bind; [apply emits_length_of | intros count].
    apply emits_bind; [apply emits_to_text | intros _].
    destruct steps as [[]|]; try apply emits_throw.
    apply emits_for_each. intros step acc. apply F07_printStep_emits.
  - intros s u s' H. eapply F06_showPlan_post. exact H.
Qed.

Lemma F06_showPlan_quiet plan : quiet (F06.showPlan (E := E) plan).
Proof.
  unfold F06.showPlan.
  apply quiet_bind; [auto with quiet | intros goal].
  apply quiet_bind; [auto with quiet | intros _].
  apply quiet_bind; [auto with quiet | intros _].
  apply quiet_bind; [auto with quiet | intros steps].
  apply quiet_bind; [auto with quiet | intros count].
  apply quiet_bind; [auto with quiet | intros _].
  destruct steps as [[]|]; auto with quiet.
  apply quiet_for_each. intros step acc. apply F07_printStep_quiet.
Qed.

End Phases.

(** X7.  The two phases of planThenExecute, whatever the service answers.
    The first decision request of a run is the planning request, sent
    without tools.  Every further request (there are at most 15) is an
    execution request sent with the tools: its transcript starts with the
    executor's instructions for the very plan that JSON.parse read from the
    cleaned planning answer, that plan is an object with an array [steps]
    without null items (showPlan has printed it), and every action request
    in it is followed by its action-result turn.  The transcript of a run
    that ends normally has that shape too. *)
Theorem X7_plan_then_execute_phases (E : Env) (userMessage : string) (s : Sys E) :
  let reply := fst (chat_create E (planning_request userMessage) (world s)) in
  (exists rest,
     requests_of (trace (snd (F06.planThenExecute userMessage s)))
     = requests_of (trace s) ++ planning_request userMessage :: rest /\
     length rest <= 15 /\
     Forall (fun rq =>
               exists plan,
                 JSON_parse E (cleanJson (text_of_message reply)) = Some plan /\
                 printable plan = true /\
                 executes plan rq /\ rq_tools rq = F06.tools /\
                 answered (rq_messages rq)) rest) /\
  (forall messages,
     fst (F06.planThenExecute userMessage s) = Normal (Some messages) ->
     answered messages).
Proof.
  cbv zeta. unfold F06.planThenExecute.
  match goal with
  | |- context [bind (create ?rq) ?K] => set (k := K)
  end.
  destruct (chat_create E (planning_request userMessage) (world s)) as [m w] eqn:Hm.
  set (s1 := mkSys w (trace s ++ [EvLog (LPhase 1);
                                  EvRequest (planning_request userMessage)])).
  assert (Hstep : bind (log (LPhase 1))
                    (fun _ => bind (create (planning_request userMessage)) k) s
                  = k m s1).
  { unfold bind, log, emit, create, planning_request in *. simpl. rewrite Hm.
    unfold s1. rewrite <- app_assoc. reflexivity. }
  fold (planning_request userMessage). rewrite Hstep. simpl fst.
  set (P := fun rq =>
              exists plan,
                JSON_parse E (cleanJson (text_of_message m)) = Some plan /\
                printable plan = true /\
                executes plan rq /\ rq_tools rq = F06.tools /\
                answered (rq_messages rq)).
  assert (Hk : within (on_requests P) (k m)
                 (fun r => forall messages, r = Some messages -> answered messages)).
  { unfold k.
    eapply within_bind with
      (Q := fun parsed => forall plan, parsed = Some plan ->
              JSON_parse E (cleanJson (text_of_message m)) = Some plan).
    - apply within_try_catch.
      + eapply within_bind; [apply within_parse |].
        intros plan Hplan. apply within_ret. intros plan' [= <-]. exact Hplan.
      + intros e. apply emits_bind; [apply emits_log; exact I | intros _].
        apply within_ret. intros plan' H. discriminate H.
    - intros [plan|] Hparsed; [| apply within_ret; intros messages H; discriminate H].
      specialize (Hparsed plan eq_refl).
      eapply within_bind; [apply F06_showPlan_within; intros l; exact I |].
      intros u Hprint.
      apply emits_bind; [apply emits_log; exact I | intros _].
      eapply within_bind.
      + eapply within_weaken;
          [| | apply (F06_loop_sound plan 15 0 [MSystem (ExecutorPrompt plan);
                                                MUser userMessage]
                        (ex_intro _ [MUser userMessage] eq_refl)
                        (answered_start _ _))].
        * intros [] Hev; simpl in *; auto. exists plan. tauto.
        * intros messages Hans. exact Hans.
      + intros messages Hans. apply within_ret. intros messages' [= <-]. exact Hans. }
  assert (Hc : counts (fun _ => true) 15 (k m)).
  { unfold k. apply counts_quiet_bind; [quiet_auto | intros parsed].
    destruct parsed as [plan|]; [| apply counts_quiet, quiet_ret].
    apply counts_quiet_bind; [apply F06_showPlan_quiet | intros _].
    apply counts_quiet_bind; [apply quiet_log | intros _].
    change 15 with (15 + 0).
    apply counts_bind; [apply F06_loop_counts | intros messages].
    apply counts_quiet, quiet_ret. }
  split.
  - destruct (run_requests P 15 (k m) _ s1 Hk Hc) as (rest & Hrest & Hlen & Hall).
    exists rest. split; [| split; assumption].
    rewrite Hrest. unfold s1. simpl. rewrite requests_of_app. simpl.
    rewrite <- app_assoc. reflexivity.
  - intros messages Hout. exact (within_value _ _ _ s1 _ Hk Hout messages eq_refl).
Qed.

(** ** Transcripts only grow *)

Section Growth.
Context {E : Env}.

Lemma chain_weaken start start' transcripts :
  (exists extra, start' = start ++ extra) ->
  chain start' transcripts -> chain start transcripts.
Proof.
  destruct transcripts as [|t rest]; simpl; [auto |].
  intros [extra ->] [[extra' ->] Hrest]. split; [| exact Hrest].
  exists (extra ++ extra'). symmetry. apply app_assoc.
Qed.

Lemma chain_refl start : exists extra : list Message, start = start ++ extra.
Proof. exists []. symmetry. apply app_nil_r. Qed.

Lemma F04_loop_chain n : forall i messages (s : Sys E),
  exists new,
    requests_of (trace (snd (F04.loop n i messages s))) = requests_of (trace s) ++ new /\
    chain messages (map rq_messages new
                    ++ final_of (fun m => m) (fst (F04.loop n i messages s))).
Proof.
  induction n as [|n IH]; intros i messages s.
  - exists []. split; [symmetry; apply app_nil_r |].
    simpl. split; [apply chain_refl | exact I].
  - rewrite F04_loop_step. cbv zeta.
    destruct (chat_create E _ _) as [m w].
    set (request := mkRequest messages F04.tools).
    set (s1 := mkSys w (trace s ++ [EvLog _; EvRequest request])).
    assert (H1 : requests_of (trace s1) = requests_of (trace s) ++ [request]).
    { unfold s1. simpl. rewrite requests_of_app. reflexivity. }
    destruct (no_calls m).
    + exists [request]. cbn [fst snd trace]. rewrite requests_of_app, H1. simpl.
      rewrite app_nil_r. split; [reflexivity |].
      repeat split; [apply chain_refl | eexists; reflexivity].
    + pose proof (F04_for_each_quiet (calls m) (messages ++ [MAssistant m]) s1) as Hq.
      destruct (for_each F04.answer _ _ s1) as [[messages1|e] s2] eqn:Hfe; cbn [snd] in Hq.
      * apply F04_for_each_shape in Hfe as (results & Hlen & ->).
        destruct (IH (S i) ((messages ++ [MAssistant m]) ++ answers (calls m) results) s2)
          as (new & Hnew & Hchain).
        exists (request :: new). split.
        -- rewrite Hnew, Hq, H1, <- app_assoc. reflexivity.
        -- simpl. split; [apply chain_refl |].
           eapply chain_weaken; [| exact Hchain].
           eexists. rewrite <- app_assoc. reflexivity.
      * exists [request]. cbn [fst snd]. rewrite Hq, H1. split; [reflexivity |]. simpl.
        split; [apply chain_refl | exact I].
Qed.

Lemma F07_loop_chain n : forall i messages (s : Sys E),
  exists new,
    requests_of (trace (snd (F07.loop n i messages s))) = requests_of (trace s) ++ new /\
    chain messages (map rq_messages new ++ final_of snd (fst (F07.loop n i messages s))).
Proof.
  induction n as [|n IH]; intros i messages s.
  - exists []. split; [symmetry; apply app_nil_r |].
    simpl. split; [apply chain_refl | exact I].
  - rewrite F07_loop_step. cbv zeta.
    destruct (chat_create E _ _) as [m w].
    set (request := mkRequest messages F07.executionTools).
    set (s1 := mkSys w (trace s ++ [EvRequest request])).
    assert (H1 : requests_of (trace s1) = requests_of (trace s) ++ [request]).
    { unfold s1. simpl. rewrite requests_of_app. reflexivity. }
    destruct (no_calls m).
    + exists [request]. cbn [fst snd trace]. rewrite requests_of_app, H1. simpl.
      rewrite app_nil_r. split; [reflexivity |].
      repeat split; [apply chain_refl | eexists; reflexivity].
    + pose proof (F07_for_calls_quiet (calls m) (messages ++ [MAssistant m]) s1) as Hq.
      destruct (F07.for_calls _ _ s1) as [[flow|e] s2] eqn:Hfc; cbn [snd] in Hq.
      * apply F07_for_calls_extends in Hfc as (extra & [-> | (result & ->)]).
        -- destruct (IH (S i) ((messages ++ [MAssistant m]) ++ extra) s2)
             as (new & Hnew & Hchain).
           exists (request :: new). split.
           ++ rewrite Hnew, Hq, H1, <- app_assoc. reflexivity.
           ++ simpl. split; [apply chain_refl |].
              eapply chain_weaken; [| exact Hchain].
              eexists. rewrite <- app_assoc. reflexivity.
        -- exists [request]. cbn [fst snd]. rewrite Hq, H1. split; [reflexivity |]. simpl.
           repeat split; [apply chain_refl |].
           eexists. rewrite <- app_assoc. reflexivity.
      * exists [request]. cbn [fst snd]. rewrite Hq, H1. split; [reflexivity |]. simpl.
        split; [apply chain_refl | exact I].
Qed.

Lemma F08_for_each_shape toolCalls messages (s : Sys E) messages' s' :
  for_each F08.answer toolCalls messages s = (Normal messages', s') ->
  exists results,
    length results = length toolCalls /\ messages' = messages ++ answers toolCalls results.
Proof. apply for_each_answers. intros *. apply F08_answer_shape. Qed.

Lemma F08_loop_chain n : forall i messages (s : Sys E),
  exists new,
    requests_of (trace (snd (F08.loop n i messages s))) = requests_of (trace s) ++ new /\
    chain messages (map rq_messages new
                    ++ final_of (fun m => m) (fst (F08.loop n i messages s))).
Proof.
  induction n as [|n IH]; intros i messages s.
  - exists []. simpl. rewrite requests_of_app. simpl.
    split; [reflexivity |]. split; [apply chain_refl | exact I].
  - rewrite F08_loop_step. cbv zeta.
    destruct (chat_create E _ _) as [m w].
    set (request := mkRequest messages F08.tools).
    destruct (no_calls m).
    + destruct (ask E _ w) as [follow w2].
      destruct (String.eqb follow "").
      * exists [request]. simpl. rewrite !requests_of_app. simpl.
        rewrite app_nil_r. split; [reflexivity |].
        repeat split; [apply chain_refl | eexists; reflexivity].
      * match goal with
        | |- context [F08.loop n (S i) ?messages1 ?state] =>
            destruct (IH (S i) messages1 state) as (new & Hnew & Hchain)
        end.
        exists (request :: new). split.
        -- rewrite Hnew. simpl. rewrite requests_of_app. simpl.
           rewrite <- app_assoc. reflexivity.
        -- simpl. split; [apply chain_refl |].
           eapply chain_weaken; [| exact Hchain]. eexists. reflexivity.
    + set (s1 := mkSys w (trace s ++ [EvRequest request])).
      assert (H1 : requests_of (trace s1) = requests_of (trace s) ++ [request]).
      { unfold s1. simpl. rewrite requests_of_app. reflexivity. }
      pose proof (F08_for_each_quiet (calls m) (messages ++ [MAssistant m]) s1) as Hq.
      destruct (for_each F08.answer _ _ s1) as [[messages1|e] s3] eqn:Hfe; cbn [snd] in Hq.
      * apply F08_for_each_shape in Hfe as (results & Hlen & ->).
        destruct (IH (S i) ((messages ++ [MAssistant m]) ++ answers (calls m) results) s3)
          as (new & Hnew & Hchain).
        exists (request :: new). split.
        -- rewrite Hnew, Hq, H1, <- app_assoc. reflexivity.
        -- simpl. split; [apply chain_refl |].
           eapply chain_weaken; [| exact Hchain].
           eexists. rewrite <- app_assoc. reflexivity.
      * exists [request]. cbn [fst snd]. rewrite Hq, H1. split; [reflexivity |]. simpl.
        split; [apply chain_refl | exact I].
Qed.

End Growth.

(** X8.  The transcript of a run is append-only in 04-real-tools.ts, in
    executeWithReact of 07-adaptive-agent.ts and in interactiveAgent of
    08-interactive-agent.ts: the first decision request carries the system
    turn and the task, each later request carries the transcript of the
    request before it followed by new turns, and the transcript the run
    ends with extends the transcript of the last request.  No turn is ever
    dropped or rewritten. *)
Theorem X8_transcripts_only_grow (E : Env) (LIMIT : nat) (task : string) (s : Sys E) :
  (let run := F04.agentLoop_with LIMIT task s in
   exists new,
     requests_of (trace (snd run)) = requests_of (trace s) ++ new /\
     chain [MSystem (StaticPrompt "04"); MUser task]
           (map rq_messages new ++ final_of (fun m => m) (fst run))) /\
  (forall plan,
     let run := F07.executeWithReact_with LIMIT task plan s in
     exists new,
       requests_of (trace (snd run)) = requests_of (trace s) ++ new /\
       chain [MSystem (ExecutorPrompt plan); MUser task]
             (map rq_messages new ++ final_of snd (fst run))) /\
  (let run := F08.interactiveAgent_with LIMIT task None s in
   exists new,
     requests_of (trace (snd run)) = requests_of (trace s) ++ new /\
     chain [MSystem (StaticPrompt "08"); MUser task]
           (map rq_messages new ++ final_of (fun m => m) (fst run))).
Proof.
  split; [| split].
  - apply F04_loop_chain.
  - intros plan. apply F07_loop_chain.
  - apply F08_loop_chain.
Qed.

(** ** 04-real-tools.ts: each request is dispatched once, in order *)

Section Dispatch.
Context {E : Env}.

Lemma requested_app l1 l2 : requested (l1 ++ l2) = requested l1 ++ requested l2.
Proof. unfold requested. apply flat_map_app. Qed.

Lemma requested_answers toolCalls results : requested (answers toolCalls results) = [].
Proof.
  revert results. induction toolCalls as [|c cs IH]; intros [|r rs]; simpl;
    try reflexivity. apply IH.
Qed.

(** The body of the [for] loop calls the handler of a readable, registered
    request once, and no handler otherwise; this is so whether the handler
    returns or throws. *)
Lemma F04_answer_dispatched call messages (s : Sys E) :
  invocations_of (trace (snd (F04.answer call messages s)))
  = invocations_of (trace s) ++ dispatched (E := E) F04.toolHandlers call.
Proof.
  unfold dispatched.
  destruct (JSON_parse E (tc_arguments call)) as [args|] eqn:Hparse.
  - destruct (F04.toolHandlers !! tc_name call) as [h|] eqn:Hfound.
    + apply (F04_answer_invokes_once call args h); assumption.
    + rewrite (F04_answer_unknown call args messages s Hfound Hparse). simpl.
      rewrite invocations_of_app. reflexivity.
  - unfold F04.answer, parse. rewrite Hparse. simpl. symmetry. apply app_nil_r.
Qed.

Lemma F04_for_each_dispatched toolCalls : forall messages (s : Sys E) messages' s',
  for_each F04.answer toolCalls messages s = (Normal messages', s') ->
  invocations_of (trace s')
  = invocations_of (trace s) ++ flat_map (dispatched (E := E) F04.toolHandlers) toolCalls.
Proof.
  induction toolCalls as [|call rest IH]; intros messages s messages' s' H; simpl in H.
  - injection H as <- <-. symmetry. apply app_nil_r.
  - bind_inv H. pose proof (F04_answer_dispatched call messages s) as Hcall.
    rewrite Hrun in Hcall. cbn [snd] in Hcall.
    rewrite (IH _ _ _ _ H), Hcall. simpl. symmetry. apply app_assoc.
Qed.

Lemma F04_loop_dispatched n : forall i messages (s : Sys E) messages' s',
  F04.loop n i messages s = (Normal messages', s') ->
  exists extra,
    messages' = messages ++ extra /\
    invocations_of (trace s')
    = invocations_of (trace s)
      ++ flat_map (dispatched (E := E) F04.toolHandlers) (requested extra).
Proof.
  induction n as [|n IH]; intros i messages s messages' s' H.
  - injection H as <- <-. exists []. split; symmetry; apply app_nil_r.
  - rewrite F04_loop_step in H. cbv zeta in H.
    destruct (chat_create E _ _) as [m w].
    destruct (no_calls m) eqn:Hm.
    + injection H as <- <-. exists [MAssistant m]. split; [reflexivity |].
      simpl. rewrite !invocations_of_app. simpl.
      unfold no_calls in Hm. destruct (calls m); [| discriminate Hm].
      simpl. now rewrite !app_nil_r.
    + destruct (for_each F04.answer _ _ _) as [[messages1|e] s2] eqn:Hfe;
        [| discriminate H].
      pose proof (F04_for_each_dispatched _ _ _ _ _ Hfe) as Hcalls.
      apply F04_for_each_shape in Hfe as (results & Hlen & ->).
      apply IH in H as (extra & -> & Hrest).
      exists ([MAssistant m] ++ answers (calls m) results ++ extra). split.
      * rewrite <- !app_assoc. reflexivity.
      * rewrite Hrest, Hcalls. simpl. rewrite invocations_of_app. simpl.
        rewrite app_nil_r, !requested_app, requested_answers, !flat_map_app.
        simpl. rewrite <- app_assoc. reflexivity.
Qed.

End Dispatch.

(** A run is known by its value and its final state. *)
Lemma run_of_value {A B : Type} (run : A * B) (a : A) :
  fst run = a -> run = (a, snd run).
Proof. intros <-. apply surjective_pairing. Qed.

(** X9.  In 04-real-tools.ts, when the service asks for no inherited name,
    a run that ends normally has called the handlers exactly as the service
    asked: one call for each action request of each assistant turn of the
    final transcript whose name is registered, with the parsed payload, in
    the order of the requests; no handler is called twice for one request
    and none for an unregistered name. *)
Theorem X9_requests_are_dispatched_once_in_order (E : Env) (LIMIT : nat)
    (userMessage : string) (s : Sys E) (messages : list Message) (s' : Sys E) :
  plain_names (E := E) ->
  F04.agentLoop_with LIMIT userMessage s = (Normal messages, s') ->
  invocations_of (trace s')
  = invocations_of (trace s)
    ++ flat_map (dispatched (E := E) F04.toolHandlers) (requested messages).
Proof.
  intros _ H. apply F04_loop_dispatched in H as (extra & -> & Hcalls).
  rewrite Hcalls, requested_app. reflexivity.
Qed.

Lemma X9_requests_are_dispatched_once_in_order_witness :
  let s := Demo.boot Demo.explore Demo.start in
  let s' := snd (F04.agentLoop_with 10 "task" s) in
  invocations_of (trace s')
  = invocations_of (trace s)
    ++ flat_map (dispatched (E := Demo.env Demo.explore) F04.toolHandlers)
         (requested Demo.explore_transcript) /\
  flat_map (dispatched (E := Demo.env Demo.explore) F04.toolHandlers)
    (requested Demo.explore_transcript)
  = [("run_bash", JObj [("command", JStr "ls")]); ("read_file", Demo.missing_args)].
Proof.
  split.
  - apply (X9_requests_are_dispatched_once_in_order (Demo.env Demo.explore) 10 "task"
             (Demo.boot Demo.explore Demo.start) Demo.explore_transcript).
    + intros request w. simpl. destruct (Demo.replies w); repeat constructor.
    + apply run_of_value. vm_compute. reflexivity.
  - vm_compute. reflexivity.
Defined.

(** ** 08-interactive-agent.ts: closing the terminal, and the write gate *)

Section Terminal.
Context {E : Env}.

Lemma closes_of_app t1 t2 : closes_of (t1 ++ t2) = closes_of t1 + closes_of t2.
Proof. unfold closes_of. rewrite List.filter_app. apply length_app. Qed.

Lemma F08_for_each_open toolCalls messages (s : Sys E) :
  closes_of (trace (snd (for_each F08.answer toolCalls messages s))) = closes_of (trace s).
Proof.
  apply local_open. apply emits_for_each. intros call acc. apply F08_answer_local.
Qed.

Lemma F08_loop_closes n : forall i messages (s : Sys E),
  closes_of (trace (snd (F08.loop n i messages s)))
  = closes_of (trace s) + closed_by (fst (F08.loop n i messages s)) /\
  (forall messages', fst (F08.loop n i messages s) = Normal messages' ->
                     last (trace (snd (F08.loop n i messages s))) = Some EvClose).
Proof.
  induction n as [|n IH]; intros i messages s.
  - simpl. rewrite closes_of_app. split; [reflexivity |].
    intros _ _. apply last_snoc.
  - rewrite F08_loop_step. cbv zeta.
    destruct (chat_create E _ _) as [m w].
    set (request := mkRequest messages F08.tools).
    destruct (no_calls m).
    + destruct (ask E _ w) as [follow w2].
      destruct (String.eqb follow "").
      * cbn [fst snd trace closed_by]. rewrite !closes_of_app.
        split; [unfold closes_of; simpl; lia |].
        intros _ _.
        change [EvLog LBye; EvClose] with ([EvLog LBye] ++ [EvClose]).
        rewrite app_assoc. apply last_snoc.
      * match goal with
        | |- context [F08.loop n (S i) ?messages1 ?state] =>
            destruct (IH (S i) messages1 state) as [Hcount Hlast]
        end.
        split; [| exact Hlast]. rewrite Hcount. cbn [trace].
        rewrite closes_of_app. cbn. lia.
    + set (s1 := mkSys w (trace s ++ [EvRequest request])).
      assert (H1 : closes_of (trace s1) = closes_of (trace s)).
      { unfold s1. cbn [trace]. rewrite closes_of_app. cbn. lia. }
      pose proof (F08_for_each_open (calls m) (messages ++ [MAssistant m]) s1) as Hopen.
      destruct (for_each F08.answer _ _ s1) as [[messages1|e] s3]; cbn [snd] in Hopen.
      * destruct (IH (S i) messages1 s3) as [Hcount Hlast].
        split; [| exact Hlast]. rewrite Hcount, Hopen, H1. reflexivity.
      * cbn [fst snd closed_by]. split; [lia | discriminate].
Qed.

Lemma closed_by_bind_ret {A : Type} (m : M E A) (s : Sys E) :
  closed_by (fst (bind m (fun _ => ret tt) s)) = closed_by (fst (m s)) /\
  snd (bind m (fun _ => ret tt) s) = snd (m s).
Proof. unfold bind. destruct (m s) as [[a|e] s1]; split; reflexivity. Qed.

End Terminal.

(** X10.  interactiveAgent, and [main] of 08-interactive-agent.ts for every
    command-line argument, call rl.close() exactly once in a run that ends
    normally (it is then the last thing the run does), and not at all in a
    run that ends with an exception: when a handler or JSON.parse throws,
    the terminal is left open. *)
Theorem X10_terminal_closed_once_unless_thrown (E : Env) (s : Sys E) :
  (forall LIMIT task systemPrompt,
     let run := F08.interactiveAgent_with LIMIT task systemPrompt s in
     closes_of (trace (snd run)) = closes_of (trace s) + closed_by (fst run) /\
     (forall messages, fst run = Normal messages -> last (trace (snd run)) = Some EvClose)) /\
  (forall argument,
     let run := F08.main argument s in
     closes_of (trace (snd run)) = closes_of (trace s) + closed_by (fst run)).
Proof.
  split.
  - intros LIMIT task systemPrompt. apply F08_loop_closes.
  - intros argument. cbv zeta. unfold F08.main, F08.interactiveAgent.
    destruct (String.eqb _ "project").
    { match goal with
      | |- context [bind ?m _ ?state] => destruct (closed_by_bind_ret m state) as [-> ->]
      end.
      apply F08_loop_closes. }
    destruct (String.eqb _ "refactor").
    { match goal with
      | |- context [bind ?m _ ?state] => destruct (closed_by_bind_ret m state) as [-> ->]
      end.
      apply F08_loop_closes. }
    destruct (String.eqb _ "free").
    + unfold bind, log, emit, F08.ask_user. cbn [world trace].
      destruct (ask E "> " (world s)) as [task w].
      match goal with
      | |- context [F08.interactiveAgent_with 30 task None ?state] =>
          destruct (F08_loop_closes 30 0 [MSystem (StaticPrompt "08"); MUser task] state)
            as [Hcount _];
          unfold F08.interactiveAgent_with;
          destruct (F08.loop 30 0 _ state) as [[messages|e] s2]
      end;
        cbn [fst snd closed_by ret trace] in *; rewrite Hcount, closes_of_app;
        unfold closes_of; simpl; lia.
    + unfold bind, log, emit. cbn [fst snd trace closed_by].
      rewrite !closes_of_app. unfold closes_of. simpl. lia.
Qed.

Section WriteGate.
Context {E : Env}.

Lemma F08_lookup_write_file :
  F08.toolHandlers (E := E) !! "write_file" = Some F08.write_file.
Proof. unfold F08.toolHandlers. table_lookup. reflexivity. Qed.

(** write_file of 08, step by step, for a path that can be turned into text
    and a content that is a string. *)
Lemma F08_write_file_run fields text (s : Sys E) :
  stringable (own "path" fields) = true ->
  own "content" fields = Some (JStr text) ->
  F08.write_file (JObj fields) s =
  let path := own "path" fields in
  let t := trace s ++
           [EvLog (LWizard (if existsSync E path (world s)
                            then "перезаписать" else "создать") [path]);
            EvLog (LWizard "preview" [Some (JStr text)])] in
  let (answer, w1) := ask E "Разрешить? [y/n/edit]: " (world s) in
  if F08.one_of (E := E) answer ["y"; "д"]
  then
    match writeFileSync E path (Some (JStr text)) w1 with
    | (inr _, w2) =>
        (Normal ("✅ Файл " +:+ ToString E path +:+ " записан (одобрено пользователем)"),
         mkSys w2 t)
    | (inl e, w2) => (Normal (error_text +:+ e_message e), mkSys w2 t)
    end
  else if F08.one_of (E := E) answer ["edit"; "e"]
  then
    let (newPath, w2) :=
      ask E ("Новый путь (Enter = " +:+ ToString E path +:+ "): ") w1 in
    let finalPath := if String.eqb newPath "" then path else Some (JStr newPath) in
    match writeFileSync E finalPath (Some (JStr text)) w2 with
    | (inr _, w3) =>
        (Normal ("✅ Файл " +:+ (if String.eqb newPath "" then ToString E path else newPath)
                 +:+ " записан (путь изменён пользователем)"),
         mkSys w3 t)
    | (inl e, w3) => (Normal (error_text +:+ e_message e), mkSys w3 t)
    end
  else (Normal ("❌ Пользователь отклонил запись файла " +:+ ToString E path),
        mkSys w1 t).
Proof.
  intros Hpath Hcontent. unfold F08.write_file, destructure, lift, prop.
  unfold bind, observe, to_text, log, emit, F08.ask_user, try_catch, effect, ret.
  cbn [world trace]. rewrite Hpath, Hcontent. cbn [world trace].
  destruct (ask E "Разрешить? [y/n/edit]: " (world s)) as [answer w1].
  cbn [world trace]. rewrite <- app_assoc. cbn [app].
  destruct (F08.one_of answer ["y"; "д"]).
  { cbn [world trace].
    destruct (writeFileSync E _ _ w1) as [[e|u] w2]; reflexivity. }
  destruct (F08.one_of answer ["edit"; "e"]); [| reflexivity].
  cbn [world trace]. destruct (ask E _ w1) as [newPath w2]. cbn [world trace].
  destruct (writeFileSync E _ _ w2) as [[e|u] w3]; reflexivity.
Qed.

(** A path that cannot be turned into text makes write_file throw before it
    asks. *)
Lemma F08_write_file_unshown fields (s : Sys E) :
  stringable (own "path" fields) = false ->
  exists e, F08.write_file (JObj fields) s = (Throw e, s).
Proof.
  intros Hpath. unfold F08.write_file, destructure, lift, prop.
  unfold bind, observe, to_text, throw. cbn [world trace]. rewrite Hpath.
  eexists. destruct s. reflexivity.
Qed.

(** Without a string to write, write_file throws before it asks. *)
Lemma F08_write_file_unasked fields (s : Sys E) :
  (forall text, own "content" fields <> Some (JStr text)) ->
  exists e t, F08.write_file (JObj fields) s = (Throw e, mkSys (world s) t).
Proof.
  intros Hcontent. unfold F08.write_file, destructure, lift, prop.
  unfold bind, observe, to_text, log, emit, throw, ret. cbn [world trace].
  destruct (stringable (own "path" fields));
    [| exists (TypeError "Cannot convert object to primitive value"), (trace s);
       destruct s; reflexivity].
  cbn [world trace].
  destruct (own "content" fields) as [[]|]; try (eexists; eexists; reflexivity).
  exfalso. eapply Hcontent. reflexivity.
Qed.

(** The loop body of 08 for a write_file request. *)
Lemma F08_answer_write call fields messages (s : Sys E) :
  tc_name call = "write_file" ->
  JSON_parse E (tc_arguments call) = Some (JObj fields) ->
  F08.answer call messages s =
  match F08.write_file (JObj fields)
          (mkSys (world s) (trace s ++ [EvInvoke "write_file" (JObj fields)])) with
  | (Normal result, s1) => (Normal (messages ++ [MTool (tc_id call) result]), s1)
  | (Throw e, s1) => (Throw e, s1)
  end.
Proof.
  intros Hname Hparse. unfold F08.answer, parse. cbv zeta.
  rewrite Hparse, bind_ret_l, Hname.
  change (String.eqb "write_file" "think") with false.
  change (F08.announced "write_file") with false.
  cbv iota. rewrite bind_ret_l.
  rewrite (invoke_found _ _ _ _ _ F08_lookup_write_file).
  unfold bind, emit, ret. cbn [world trace andb].
  destruct (F08.write_file _ _) as [[result|e] s1]; reflexivity.
Qed.

End WriteGate.

(** X11.  The write gate of 08-interactive-agent.ts.  For a write_file
    request whose path can be turned into text (line 206 prints it before
    the question) and whose content is a string, the user is asked once.
    When the answer is none of y, д, edit, e (in any letter case), nothing
    is written: the world after the request is the world right after the
    question, and the action result tells the service that the user has
    declined.  When the answer is y or д and the write succeeds, the world
    after the request is the one writeFileSync leaves, for the requested
    path and content.  When the content is not a string, or the path cannot
    be turned into text, the request throws before the user is asked, and
    the world is untouched. *)
Theorem X11_write_file_needs_approval (E : Env) (call : ToolCall)
    (fields : list (string * JValue)) (messages : list Message) (s : Sys E) :
  tc_name call = "write_file" ->
  JSON_parse E (tc_arguments call) = Some (JObj fields) ->
  (forall text answer w1,
     stringable (own "path" fields) = true ->
     own "content" fields = Some (JStr text) ->
     ask E "Разрешить? [y/n/edit]: " (world s) = (answer, w1) ->
     (F08.one_of (E := E) answer ["y"; "д"] = false ->
      F08.one_of (E := E) answer ["edit"; "e"] = false ->
      exists t,
        F08.answer call messages s
        = (Normal (messages ++
                   [MTool (tc_id call)
                      ("❌ Пользователь отклонил запись файла "
                       +:+ ToString E (own "path" fields))]),
           mkSys w1 t)) /\
     (forall w2,
        F08.one_of (E := E) answer ["y"; "д"] = true ->
        writeFileSync E (own "path" fields) (Some (JStr text)) w1 = (inr tt, w2) ->
        exists t,
          F08.answer call messages s
          = (Normal (messages ++
                     [MTool (tc_id call)
                        ("✅ Файл " +:+ ToString E (own "path" fields)
                         +:+ " записан (одобрено пользователем)")]),
             mkSys w2 t))) /\
  ((forall text, own "content" fields <> Some (JStr text)) ->
   exists e t, F08.answer call messages s = (Throw e, mkSys (world s) t)) /\
  (stringable (own "path" fields) = false ->
   exists e t, F08.answer call messages s = (Throw e, mkSys (world s) t)).
Proof.
  intros Hname Hparse. rewrite (F08_answer_write call fields messages s Hname Hparse).
  split; [| split].
  - intros text answer w1 Hpath Hcontent Hask.
    rewrite (F08_write_file_run fields text _ Hpath Hcontent). cbv zeta.
    cbn [world trace]. rewrite Hask. split.
    + intros Hyes Hedit. rewrite Hyes, Hedit. eexists. reflexivity.
    + intros w2 Hyes Hwrite. rewrite Hyes, Hwrite. eexists. reflexivity.
  - intros Hcontent.
    destruct (F08_write_file_unasked fields
                (mkSys (world s) (trace s ++ [EvInvoke "write_file" (JObj fields)]))
                Hcontent) as (e & t & ->).
    exists e, t. reflexivity.
  - intros Hpath.
    destruct (F08_write_file_unshown fields
                (mkSys (world s) (trace s ++ [EvInvoke "write_file" (JObj fields)]))
                Hpath) as (e & ->).
    exists e. eexists. reflexivity.
Qed.

Lemma X11_write_file_needs_approval_witness :
  let E := Demo.env Demo.finish in
  (exists t,
     F08.answer (E := E) Scenes.note_call []
       (mkSys (E := E) (Scenes.user ["n"]) [])
     = (Normal [MTool "w1" "❌ Пользователь отклонил запись файла notes.txt"],
        mkSys (E := E) (Scenes.user []) t)) /\
  (exists t,
     F08.answer (E := E) Scenes.note_call []
       (mkSys (E := E) (Scenes.user ["y"]) [])
     = (Normal [MTool "w1" "✅ Файл notes.txt записан (одобрено пользователем)"],
        mkSys (E := E) (Demo.mkState 0 [("notes.txt", "hello")] [] []) t)) /\
  (exists e t,
     F08.answer (E := E) Scenes.empty_note_call []
       (mkSys (E := E) (Scenes.user ["y"]) [])
     = (Throw e, mkSys (E := E) (Scenes.user ["y"]) t)).
Proof.
  intros E. split; [| split].
  - refine (proj1 (proj1 (X11_write_file_needs_approval E Scenes.note_call
                            Scenes.note_fields [] (mkSys (E := E) (Scenes.user ["n"]) [])
                            eq_refl _)
                     "hello" "n" (Scenes.user []) eq_refl eq_refl eq_refl) _ _);
      vm_compute; reflexivity.
  - refine (proj2 (proj1 (X11_write_file_needs_approval E Scenes.note_call
                            Scenes.note_fields [] (mkSys (E := E) (Scenes.user ["y"]) [])
                            eq_refl _)
                     "hello" "y" (Scenes.user []) eq_refl eq_refl eq_refl) _ _ _);
      vm_compute; reflexivity.
  - refine (proj1 (proj2 (X11_write_file_needs_approval E Scenes.empty_note_call
                            [("path", JStr "notes.txt")] []
                            (mkSys (E := E) (Scenes.user ["y"]) []) eq_refl _)) _).
    + vm_compute. reflexivity.
    + intros text. vm_compute. discriminate.
Defined.

(** ** The entry points *)

Section EntryPoints.
Context {E : Env}.

Lemma F06_planThenExecute_counts p userMessage :
  counts p 16 (F06.planThenExecute (E := E) userMessage).
Proof.
  unfold F06.planThenExecute.
  apply counts_quiet_bind; [apply quiet_log | intros _].
  apply counts_create_bind. intros planResponse.
  apply counts_quiet_bind; [quiet_auto | intros parsed].
  destruct parsed as [plan|]; [| apply counts_quiet, quiet_ret].
  apply counts_quiet_bind; [apply F06_showPlan_quiet | intros _].
  apply counts_quiet_bind; [apply quiet_log | intros _].
  change 15 with (15 + 0).
  apply counts_bind; [apply F06_loop_counts | intros messages].
  apply counts_quiet, quiet_ret.
Qed.

Lemma F08_interactiveAgent_counts task systemPrompt :
  counts (fun _ => true) 30 (F08.interactiveAgent (E := E) task systemPrompt).
Proof.
  intros s. rewrite !filter_all. unfold F08.interactiveAgent, F08.interactiveAgent_with.
  apply F08_loop_bound.
Qed.

Lemma F06_main_counts argument : counts (fun _ => true) 20 (F06.main (E := E) argument).
Proof.
  unfold F06.main. cbv zeta.
  destruct (String.eqb _ "plan").
  { change 20 with (20 + 0). apply counts_bind; [| intros r; apply counts_quiet, quiet_ret].
    apply counts_weaken with (k := 16); [lia | apply F06_planThenExecute_counts]. }
  destruct (String.eqb _ "react").
  { change 20 with (20 + 0). apply counts_bind; [| intros r; apply counts_quiet, quiet_ret].
    apply F06_react_loop_counts. }
  apply counts_quiet, quiet_log.
Qed.

Lemma F08_main_counts argument : counts (fun _ => true) 30 (F08.main (E := E) argument).
Proof.
  unfold F08.main. cbv zeta.
  destruct (String.eqb _ "project").
  { change 30 with (30 + 0). apply counts_bind; [| intros r; apply counts_quiet, quiet_ret].
    apply F08_interactiveAgent_counts. }
  destruct (String.eqb _ "refactor").
  { change 30 with (30 + 0). apply counts_bind; [| intros r; apply counts_quiet, quiet_ret].
    apply F08_interactiveAgent_counts. }
  destruct (String.eqb _ "free").
  { apply counts_quiet_bind; [apply quiet_log | intros _].
    apply counts_quiet_bind; [apply quiet_ask_user | intros task].
    change 30 with (30 + 0). apply counts_bind; [| intros r; apply counts_quiet, quiet_ret].
    apply F08_interactiveAgent_counts. }
  apply counts_quiet. quiet_auto.
Qed.

End EntryPoints.

(** X12.  The request budgets of the entry points, whatever the service
    answers and whatever is on the command line: [main] of 05-skills.ts
    sends at most 10 decision requests, [main] of 06-planning.ts at most 20,
    07-adaptive-agent.ts at most 84 (4 plans and 4 executions of 20), and
    [main] of 08-interactive-agent.ts at most 30.  In 06 an argument other
    than "plan" and "react" (the empty string too) sends no request at all. *)
Theorem X12_entry_points_request_budgets (E : Env) (s : Sys E) :
  length (requests_of (trace (snd (F05.main s)))) <= length (requests_of (trace s)) + 10 /\
  (forall argument,
     length (requests_of (trace (snd (F06.main argument s))))
     <= length (requests_of (trace s)) + 20) /\
  (forall approach,
     approach <> "plan" -> approach <> "react" ->
     requests_of (trace (snd (F06.main (Some approach) s))) = requests_of (trace s)) /\
  (forall argument,
     length (requests_of (trace (snd (F07.start argument s))))
     <= length (requests_of (trace s)) + 84) /\
  (forall argument,
     length (requests_of (trace (snd (F08.main argument s))))
     <= length (requests_of (trace s)) + 30).
Proof.
  split; [| split; [| split; [| split]]].
  - apply counts_length. apply F05_loop_counts.
  - intros argument. apply counts_length. apply F06_main_counts.
  - intros approach Hplan Hreact. unfold F06.main. cbv zeta.
    apply String.eqb_neq in Hplan, Hreact. rewrite Hplan, Hreact.
    apply quiet_log.
  - intros argument. unfold F07.start, F07.adaptiveAgent.
    apply counts_length. apply (F07_adaptiveAgent_budget 3).
  - intros argument. apply counts_length. apply F08_main_counts.
Qed.

Lemma X12_entry_points_request_budgets_witness :
  requests_of (trace (snd (F06.main (Some "") (Demo.boot Demo.finish Demo.start)))) = [].
Proof.
  refine (proj1 (proj2 (proj2 (X12_entry_points_request_budgets (Demo.env Demo.finish)
                                 (Demo.boot Demo.finish Demo.start)))) "" _ _);
    discriminate.
Defined.

(** ** Declared tools and registered handlers *)

Section Registry.
Context {E : Env}.

Lemma createAgent_handlers_snoc (skills : list (F05.Skill (E := E)))
    (skill : F05.Skill (E := E)) :
  F05.allHandlers (F05.createAgent (skills ++ [skill]))
  = F05.assign (F05.allHandlers (F05.createAgent skills)) (F05.handlers skill).
Proof.
  unfold F05.createAgent, F05.allHandlers.
  rewrite map_app, fold_left_app. reflexivity.
Qed.

Lemma createAgent_consistent (skills : list (F05.Skill (E := E))) :
  Forall (fun skill => consistent (F05.tools skill) (F05.handlers skill)) skills ->
  consistent (F05.allTools (F05.createAgent skills))
             (F05.allHandlers (F05.createAgent skills)).
Proof.
  unfold consistent.
  induction skills as [|skill skills IH] using rev_ind; intros H.
  - apply dom_empty_L.
  - apply Forall_app in H as [Hskills Hskill].
    apply Forall_cons in Hskill as [Hskill _].
    rewrite createAgent_tools, createAgent_handlers_snoc.
    unfold F05.assign. rewrite dom_union_L, map_app, list_to_set_app_L.
    rewrite (IH Hskills), Hskill. apply union_comm_L.
Qed.

End Registry.

(** X13.  The registry is consistent.  In 03, 04, 06, 07 and 08 the
    handlers are registered under exactly the names of the tools the
    example declares to the service.  In 05, createAgent keeps that
    property: when each skill registers its handlers under exactly the
    names of its tools, the agent's merged handler table has exactly the
    names of the agent's tool list; so the "not found" answer is only ever
    given for a name that was not declared to the service. *)
Theorem X13_declared_tools_have_handlers (E : Env)
    (skills : list (F05.Skill (E := E))) :
  Forall (fun skill => consistent (F05.tools skill) (F05.handlers skill)) skills ->
  consistent (F05.allTools (F05.createAgent skills))
             (F05.allHandlers (F05.createAgent skills)) /\
  consistent F03.tools (F03.toolHandlers (E := E)) /\
  consistent F04.tools (F04.toolHandlers (E := E)) /\
  consistent F06.tools (F06.toolHandlers (E := E)) /\
  consistent F07.executionTools (F07.toolHandlers (E := E)) /\
  consistent F08.tools (F08.toolHandlers (E := E)).
Proof.
  intros H. split; [apply createAgent_consistent; exact H |].
  unfold consistent, F03.toolHandlers, F04.toolHandlers, F06.toolHandlers,
    F07.toolHandlers, F08.toolHandlers.
  repeat split; rewrite !dom_insert_L, dom_empty_L; simpl; set_solver.
Qed.

Lemma X13_declared_tools_have_handlers_witness :
  consistent (F05.allTools (F05.agent (E := Demo.env Demo.finish)))
             (F05.allHandlers (F05.agent (E := Demo.env Demo.finish))).
Proof.
  refine (proj1 (X13_declared_tools_have_handlers (Demo.env Demo.finish)
                   [F05.filesystemSkill; F05.bashSkill; F05.mathSkill] _)).
  repeat constructor; vm_compute; reflexivity.
Defined.

(** ** Cleaning leaves no fence *)

Section Fences.

Lemma prefix_fence s : String.prefix fence s = (Nat.leb 3 (leading_backticks s)).
Proof.
  unfold fence.
  destruct s as [|a s]; [reflexivity |].
  change (String.prefix "```" (String a s))
    with (if ascii_dec backtick a then String.prefix "``" s else false).
  cbn [leading_backticks].
  destruct (ascii_dec backtick a) as [<- | Ha].
  2: { replace (Ascii.eqb a backtick) with false; [reflexivity |].
       symmetry. apply Ascii.eqb_neq. congruence. }
  rewrite Ascii.eqb_refl.
  destruct s as [|b s]; [reflexivity |].
  change (String.prefix "``" (String b s))
    with (if ascii_dec backtick b then String.prefix "`" s else false).
  cbn [leading_backticks].
  destruct (ascii_dec backtick b) as [<- | Hb].
  2: { replace (Ascii.eqb b backtick) with false; [reflexivity |].
       symmetry. apply Ascii.eqb_neq. congruence. }
  rewrite Ascii.eqb_refl.
  destruct s as [|c s]; [reflexivity |].
  change (String.prefix "`" (String c s))
    with (if ascii_dec backtick c then String.prefix "" s else false).
  cbn [leading_backticks].
  destruct (ascii_dec backtick c) as [<- | Hc].
  2: { replace (Ascii.eqb c backtick) with false; [reflexivity |].
       symmetry. apply Ascii.eqb_neq. congruence. }
  rewrite Ascii.eqb_refl. destruct s; reflexivity.
Qed.

Lemma fence_free_cons a s :
  fence_free (String a s)
  = negb (Nat.leb 3 (leading_backticks (String a s))) && fence_free s.
Proof. cbn [fence_free]. now rewrite prefix_fence. Qed.

(** Removing the fences leaves none, and creates no run of backticks
    longer than the text had at its head. *)
Lemma remove_fence_free s : forall skip,
  fence_free (remove_from fence skip s) = true /\
  (skip = 0 -> String.prefix fence s = false ->
   leading_backticks (remove_from fence 0 s) <= leading_backticks s).
Proof.
  induction s as [|a s IH]; intros skip.
  - split; [reflexivity | intros _ _; reflexivity].
  - destruct skip as [|k].
    + cbn [remove_from].
      destruct (String.prefix fence (String a s)) eqn:Hprefix.
      * split; [apply IH | intros _ H; discriminate H].
      * destruct (IH 0) as [Hfree Hlead].
        assert (Hout : leading_backticks (String a (remove_from fence 0 s))
                       <= leading_backticks (String a s)).
        { rewrite prefix_fence in Hprefix. apply Nat.leb_gt in Hprefix.
          cbn [leading_backticks] in *.
          destruct (Ascii.eqb a backtick); [| lia].
          apply le_n_S. apply Hlead; [reflexivity |].
          rewrite prefix_fence. apply Nat.leb_gt. lia. }
        split; [| intros _ _; exact Hout].
        rewrite fence_free_cons, Hfree, andb_true_r.
        apply negb_true_iff, Nat.leb_gt.
        rewrite prefix_fence in Hprefix. apply Nat.leb_gt in Hprefix. lia.
    + cbn [remove_from]. split; [apply IH | intros H; discriminate H].
Qed.

Lemma leading_backticks_app t q :
  leading_backticks t <= leading_backticks (t +:+ q).
Proof.
  induction t as [|a t IH]; [cbn [leading_backticks]; lia |].
  rewrite append_cons. cbn [leading_backticks].
  destruct (Ascii.eqb a backtick); lia.
Qed.

(** A text without fences has none in its prefixes and suffixes. *)
Lemma fence_free_prefix t q : fence_free (t +:+ q) = true -> fence_free t = true.
Proof.
  induction t as [|a t IH]; [reflexivity |].
  rewrite append_cons, !fence_free_cons. intros H.
  apply andb_true_iff in H as [Hhead Hrest].
  apply negb_true_iff, Nat.leb_gt in Hhead.
  rewrite (IH Hrest), andb_true_r.
  apply negb_true_iff, Nat.leb_gt.
  pose proof (leading_backticks_app (String a t) q) as Hlead.
  rewrite append_cons in Hlead. lia.
Qed.

Lemma fence_free_suffix p t : fence_free (p +:+ t) = true -> fence_free t = true.
Proof.
  induction p as [|a p IH]; [intros H; exact H |].
  rewrite append_cons. cbn [fence_free]. intros H.
  apply andb_true_iff in H as [_ H]. apply IH. exact H.
Qed.

Lemma fence_free_trimEnd s : fence_free s = true -> fence_free (trimEnd s) = true.
Proof.
  intros H. destruct (trimEnd_prefix s) as (q & Hq & _).
  apply (fence_free_prefix _ q). rewrite <- Hq. exact H.
Qed.

Lemma fence_free_trimStart s : fence_free s = true -> fence_free (trimStart s) = true.
Proof.
  intros H. unfold trimStart. destruct (drop_space_suffix s 0) as [p Hp].
  apply (fence_free_suffix p). rewrite <- Hp. exact H.
Qed.

(** Text without fences goes through the removal unchanged. *)
Lemma remove_fence_id s : fence_free s = true -> remove_from fence 0 s = s.
Proof.
  induction s as [|a s IH]; [reflexivity |].
  intros H. cbn [fence_free] in H. apply andb_true_iff in H as [Hhead Hrest].
  apply negb_true_iff in Hhead. cbn [remove_from]. rewrite Hhead.
  now rewrite IH.
Qed.

Lemma prefix_fence_json s :
  String.prefix fence_json s = true -> String.prefix fence s = true.
Proof.
  unfold fence_json, fence.
  destruct s as [|a s]; [discriminate |].
  change (String.prefix "```json" (String a s))
    with (if ascii_dec backtick a then String.prefix "``json" s else false).
  change (String.prefix "```" (String a s))
    with (if ascii_dec backtick a then String.prefix "``" s else false).
  destruct (ascii_dec backtick a); [| discriminate].
  destruct s as [|b s]; [discriminate |].
  change (String.prefix "``json" (String b s))
    with (if ascii_dec backtick b then String.prefix "`json" s else false).
  change (String.prefix "``" (String b s))
    with (if ascii_dec backtick b then String.prefix "`" s else false).
  destruct (ascii_dec backtick b); [| discriminate].
  destruct s as [|c s]; [discriminate |].
  change (String.prefix "`json" (String c s))
    with (if ascii_dec backtick c then String.prefix "json" s else false).
  change (String.prefix "`" (String c s))
    with (if ascii_dec backtick c then String.prefix "" s else false).
  destruct (ascii_dec backtick c); [| discriminate].
  intros _. destruct s; reflexivity.
Qed.

Lemma remove_fence_json_id s :
  fence_free s = true -> remove_from fence_json 0 s = s.
Proof.
  induction s as [|a s IH]; [reflexivity |].
  intros H. cbn [fence_free] in H. apply andb_true_iff in H as [Hhead Hrest].
  apply negb_true_iff in Hhead. cbn [remove_from].
  destruct (String.prefix fence_json (String a s)) eqn:Hjson.
  - apply prefix_fence_json in Hjson. congruence.
  - now rewrite IH.
Qed.

End Fences.

(** X14.  The plan cleaning of 06-planning.ts and 07-adaptive-agent.ts
    removes every code fence: whatever the service's text is, the text
    handed to JSON.parse contains no three backticks in a row (removing one
    fence never joins backticks into a new one).  Cleaning is idempotent:
    cleaning a cleaned text changes nothing. *)
Theorem X14_cleaning_removes_every_fence (text : string) :
  fence_free (cleanJson text) = true /\
  cleanJson (cleanJson text) = cleanJson text.
Proof.
  assert (Hfree : fence_free (cleanJson text) = true).
  { unfold cleanJson, trim, remove_all.
    apply fence_free_trimStart, fence_free_trimEnd, remove_fence_free. }
  split; [exact Hfree |].
  unfold cleanJson at 1. unfold remove_all.
  rewrite (remove_fence_json_id _ Hfree), (remove_fence_id _ Hfree).
  unfold cleanJson. apply trim_idem.
Qed.

(** ** Handlers that are registered but never called *)

Section Spared.
Context {E : Env}.

Lemma log_spares name ev : is_log ev -> spares name ev.
Proof. destruct ev; simpl; auto; contradiction. Qed.

Lemma F07_argsPreview_emits (P : Event -> Prop) name args :
  emits P (F07.argsPreview (E := E) name args).
Proof. unfold F07.argsPreview. emits_auto. Qed.

Lemma emits_invoke_other (handlers : gmap string (Handler E)) name spared args fallback :
  (forall n h, handlers !! n = Some h -> forall a, emits is_log (h a)) ->
  name <> spared ->
  emits (spares spared) (invoke handlers name args fallback).
Proof.
  intros Hh Hname. apply emits_invoke. intros h Hfound. split; [exact Hname |].
  eapply emits_weaken; [apply log_spares | eapply Hh; exact Hfound].
Qed.

(** 07: a revision request is answered with a fixed text and returns from
    the loop; the handler registered for it is not looked up. *)
Lemma F07_answer_spares call messages :
  emits (spares "request_replan") (F07.answer (E := E) call messages).
Proof.
  unfold F07.answer. cbv zeta.
  apply emits_bind; [apply emits_parse | intros args].
  eapply within_bind with
    (Q := fun returned : option F07.Flow =>
            returned = None -> tc_name call <> "request_replan").
  - destruct (String.eqb (tc_name call) "think") eqn:Hthink.
    + apply emits_bind; [apply emits_lift | intros thought].
      apply emits_bind; [apply emits_to_text | intros _].
      apply emits_bind; [apply emits_log; exact I | intros _].
      apply within_ret. intros _. apply String.eqb_eq in Hthink.
      rewrite Hthink. discriminate.
    + destruct (String.eqb (tc_name call) "request_replan") eqn:Hreplan.
      * apply emits_bind; [apply emits_lift | intros why].
        apply emits_bind; [apply emits_to_text | intros _].
        apply emits_bind; [apply emits_log; exact I | intros _].
        apply emits_bind; [apply emits_lift | intros steps].
        apply emits_bind; [apply emits_lift | intros found].
        apply within_ret. intros H. discriminate H.
      * apply String.eqb_neq in Hreplan.
        apply emits_bind; [apply F07_argsPreview_emits | intros _].
        apply emits_bind; [apply emits_log; exact I | intros _].
        apply emits_bind;
          [apply emits_invoke_other; [apply F07_handlers_log | exact Hreplan]
          | intros result].
        apply emits_bind; [apply emits_log; exact I | intros _].
        apply within_ret. intros _. exact Hreplan.
  - intros [flow|] Hname; [apply emits_ret |].
    apply emits_bind; [| intros text; apply emits_ret].
    apply emits_invoke_other; [apply F07_handlers_log | apply Hname; reflexivity].
Qed.

Lemma F07_loop_spares n : forall i messages,
  emits (spares "request_replan") (F07.loop (E := E) n i messages).
Proof.
  induction n as [|n IH]; intros i messages; cbn [F07.loop].
  - apply emits_ret.
  - apply emits_bind; [apply emits_create; exact I | intros m].
    destruct (no_calls m).
    + apply emits_bind; [apply emits_log; exact I | intros _]. apply emits_ret.
    + apply emits_bind.
      * generalize (messages ++ [MAssistant m]).
        induction (calls m) as [|call rest IHcalls]; intros acc; simpl.
        -- apply emits_ret.
        -- apply emits_bind; [apply F07_answer_spares |].
           intros [acc' | acc' result]; [apply IHcalls | apply emits_ret].
      * intros [messages' | messages' result]; [apply IH | apply emits_ret].
Qed.

Lemma F07_adaptiveAgent_spares MAX task :
  emits (spares "request_replan") (F07.adaptiveAgent_with (E := E) MAX task).
Proof.
  assert (Hplan : forall context,
            emits (spares "request_replan") (F07.createPlan (E := E) task context)).
  { intros context. apply F07_createPlan_emits. intros replan. exact I. }
  assert (Hprint : forall plan isReplan,
            emits (spares "request_replan") (F07.printPlan (E := E) plan isReplan)).
  { intros plan isReplan. eapply emits_of_within.
    apply F07_printPlan_within. intros l. exact I. }
  assert (Hattempts : forall r replanCount plan,
            emits (spares "request_replan")
                  (F07.attempts (E := E) MAX r replanCount task plan)).
  { induction r as [|r IH]; intros replanCount plan; cbn [F07.attempts].
    - apply emits_ret.
    - apply emits_bind; [apply emits_log; exact I | intros _].
      apply emits_bind; [apply F07_loop_spares | intros outcome].
      destruct (status (fst outcome)).
      { apply emits_bind; [apply emits_log; exact I | intros _]. apply emits_ret. }
      destruct (Nat.ltb MAX (S replanCount)).
      { apply emits_bind; [apply emits_log; exact I | intros _]. apply emits_ret. }
      apply emits_bind; [apply emits_log; exact I | intros _].
      apply emits_bind; [apply Hplan | intros plan'].
      apply emits_bind; [apply Hprint | intros _]. apply IH. }
  unfold F07.adaptiveAgent_with.
  apply emits_bind; [apply emits_log; exact I | intros _].
  apply emits_bind; [apply Hplan | intros plan].
  apply emits_bind; [apply Hprint | intros _]. apply Hattempts.
Qed.

(** 06: reactAgent answers a think request itself. *)
Lemma F06_react_answer_spares call messages :
  emits (spares "think") (F06.react_answer (E := E) call messages).
Proof.
  unfold F06.react_answer. cbv zeta.
  apply emits_bind; [apply emits_parse | intros args].
  destruct (String.eqb (tc_name call) "think") eqn:Hthink.
  - apply emits_bind; [apply emits_lift | intros thought].
    apply emits_bind; [apply emits_to_text | intros _].
    apply emits_bind; [apply emits_log; exact I | intros _]. apply emits_ret.
  - apply String.eqb_neq in Hthink.
    apply emits_bind; [apply F07_argsPreview_emits | intros _].
    apply emits_bind; [apply emits_log; exact I | intros _].
    apply emits_bind;
      [apply emits_invoke_other; [apply F06_handlers_log | exact Hthink]
      | intros result].
    apply emits_bind; [apply emits_log; exact I | intros _]. apply emits_ret.
Qed.

Lemma F06_react_loop_spares n : forall i messages,
  emits (spares "think") (F06.react_loop (E := E) n i messages).
Proof.
  induction n as [|n IH]; intros i messages; cbn [F06.react_loop].
  - apply emits_ret.
  - apply emits_bind; [apply emits_create; exact I | intros m].
    destruct (no_calls m).
    + apply emits_bind; [apply emits_log; exact I | intros _]. apply emits_ret.
    + apply emits_bind; [| intros messages'; apply IH].
      apply emits_for_each. intros call acc. apply F06_react_answer_spares.
Qed.

Lemma spared_invocations {A : Type} name (m : M E A) s :
  emits (spares name) m ->
  exists new,
    invocations_of (trace (snd (m s))) = invocations_of (trace s) ++ new /\
    Forall (fun call => fst call <> name) new.
Proof.
  intros H. destruct (H s) as [(delta & Ht & Hd) _].
  exists (invocations_of delta). rewrite Ht, invocations_of_app.
  split; [reflexivity |].
  apply (invocations_of_Forall (fun called _ => called <> name)). exact Hd.
Qed.

End Spared.

(** X15.  Two registered handlers are never called.  A run of
    adaptiveAgent (any number of plans and executions) never calls the
    handler registered as "request_replan": the loop answers a revision
    request itself and returns.  A run of reactAgent of 06-planning.ts never
    calls the handler registered as "think": the loop answers a think
    request itself with "OK". *)
Theorem X15_intercepted_requests_reach_no_handler (E : Env) (task : string) (s : Sys E) :
  (forall MAX,
     exists new,
       invocations_of (trace (snd (F07.adaptiveAgent_with MAX task s)))
       = invocations_of (trace s) ++ new /\
       Forall (fun call => fst call <> "request_replan") new) /\
  (exists new,
     invocations_of (trace (snd (F06.reactAgent task s)))
     = invocations_of (trace s) ++ new /\
     Forall (fun call => fst call <> "think") new).
Proof.
  split.
  - intros MAX. apply spared_invocations. apply F07_adaptiveAgent_spares.
  - apply spared_invocations. apply F06_react_loop_spares.
Qed.

(** ** Readable payloads never end a run of 03, 04 or 05 *)

Section Total.
Context {E : Env}.

Lemma ens_create (P : AssistantMessage -> Prop) request :
  (forall w, P (fst (chat_create E request w))) -> ensures (create (E := E) request) P.
Proof.
  intros H s. unfold create. specialize (H (world s)).
  destruct (chat_create E request (world s)) as [m w].
  exists m, (mkSys w (trace s ++ [EvRequest request])). split; [reflexivity | exact H].
Qed.

Lemma ens_of_nt {A : Type} (m : M E A) : never_throws m -> ensures m (fun _ => True).
Proof. intros H s. destruct (H s) as (a & s' & Hrun). exists a, s'. auto. Qed.

Lemma nt_of_ens {A : Type} (m : M E A) (P : A -> Prop) : ensures m P -> never_throws m.
Proof. intros H s. destruct (H s) as (a & s' & Hrun & _). exists a, s'. exact Hrun. Qed.

(** A loop of the shape shared by 03, 04 and 05 ends normally when its
    body does on every readable request. *)
Lemma F04_loop_total n : forall i messages,
  payloads_ok (E := E) -> never_throws (F04.loop (E := E) n i messages).
Proof.
  induction n as [|n IH]; intros i messages Hok; cbn [F04.loop].
  - apply nt_ret.
  - apply nt_bind; [apply nt_log | intros _].
    eapply nt_of_ens, ens_bind;
      [apply ens_create with (P := fun m => Forall (payload_ok (E := E)) (calls m));
       intros w; apply Hok |].
    intros m Hm. apply ens_of_nt. destruct (no_calls m).
    + apply nt_bind; [apply nt_log | intros _; apply nt_ret].
    + apply nt_bind; [| intros messages'; apply IH; exact Hok].
      apply nt_for_each with (P := payload_ok (E := E)); [| exact Hm].
      intros call acc Hcall. apply F04_answer_nothrow. exact Hcall.
Qed.

Lemma F03_loop_total n : forall i messages,
  payloads_tame (E := E) -> never_throws (F03.loop (E := E) n i messages).
Proof.
  induction n as [|n IH]; intros i messages Hok; cbn [F03.loop].
  - apply nt_bind; [apply nt_log | intros _; apply nt_ret].
  - apply nt_bind; [apply nt_log | intros _].
    eapply nt_of_ens, ens_bind;
      [apply ens_create with (P := fun m => Forall (payload_tame (E := E)) (calls m));
       intros w; apply Hok |].
    intros m Hm. apply ens_of_nt. destruct (no_calls m).
    + apply nt_bind; [apply nt_log | intros _; apply nt_ret].
    + apply nt_bind; [| intros messages'; apply IH; exact Hok].
      apply nt_for_each with (P := payload_tame (E := E)); [| exact Hm].
      intros call acc Hcall. apply F03_answer_nothrow. exact Hcall.
Qed.

(** What [eval] hands to calculate when it throws Error objects only. *)
Lemma ens_evaluate expression :
  eval_throws_errors (E := E) ->
  ensures (F05.evaluate (E := E) expression)
          (fun outcome => forall v, outcome <> inl (ThrownValue v)).
Proof.
  intros Heval s. unfold F05.evaluate.
  pose proof (Heval expression (world s)) as H.
  destruct (js_eval E expression (world s)) as [outcome w].
  exists outcome. eexists. split; [reflexivity | exact H].
Qed.

Lemma F05_handlers_nothrow n (h : Handler E) v :
  eval_throws_errors (E := E) ->
  v <> JNull -> F05.allHandlers F05.agent !! n = Some h -> never_throws (h v).
Proof.
  intros Heval Hv. unfold F05.agent. revert n h.
  apply (createAgent_handlers (fun h => never_throws (h v))).
  intros skill [<- | [<- | [<- | []]]] n h H.
  - unfold F05.filesystemSkill in H. cbn [F05.handlers] in H. table_cases H.
    + unfold F05.read_file. nothrow_auto.
    + unfold F05.write_file. nothrow_auto.
    + unfold F05.list_dir. nothrow_auto.
  - unfold F05.bashSkill in H. cbn [F05.handlers] in H. table_cases H.
    unfold F05.run_bash. nothrow_auto.
  - unfold F05.mathSkill in H. cbn [F05.handlers] in H. table_cases H.
    unfold F05.calculate.
    apply nt_bind; [auto with nothrow | intros expression].
    eapply nt_bind_ens; [apply ens_evaluate; exact Heval | intros outcome Houtcome].
    destruct outcome as [[e|x]|x].
    + unfold F05.thrown_message. nothrow_auto.
    + exfalso. apply (Houtcome x). reflexivity.
    + nothrow_auto.
Qed.

Lemma F05_answer_nothrow call messages :
  eval_throws_errors (E := E) ->
  payload_ok (E := E) call ->
  never_throws (F05.answer (E := E) F05.agent call messages).
Proof.
  intros Heval (v & Hv & Hvalue). unfold F05.answer, parse. rewrite Hv, bind_ret_l.
  nothrow_auto. apply nt_invoke. intros n h Hh.
  eapply F05_handlers_nothrow; eassumption.
Qed.

Lemma F05_loop_total n : forall i messages,
  eval_throws_errors (E := E) ->
  payloads_ok (E := E) -> never_throws (F05.loop (E := E) F05.agent n i messages).
Proof.
  induction n as [|n IH]; intros i messages Heval Hok; cbn [F05.loop].
  - apply nt_ret.
  - apply nt_bind; [apply nt_log | intros _].
    eapply nt_of_ens, ens_bind;
      [apply ens_create with (P := fun m => Forall (payload_ok (E := E)) (calls m));
       intros w; apply Hok |].
    intros m Hm. apply ens_of_nt. destruct (no_calls m).
    + apply nt_bind; [apply nt_log | intros _; apply nt_ret].
    + apply nt_bind; [| intros messages'; apply IH; assumption].
      apply nt_for_each with (P := payload_ok (E := E)); [| exact Hm].
      intros call acc Hcall. apply F05_answer_nothrow; assumption.
Qed.

End Total.



(** ** The preview of a write_file request in 06 and 07 *)

Section Preview.
Context {E : Env}.

(** The error does not depend on the state: it is the one of the path when
    the path cannot be turned into text, else the one of the content. *)
Lemma F07_argsPreview_throws fields :
  is_nullish (own "content" fields) = true ->
  exists error,
    e_name error = "TypeError" /\
    forall s : Sys E, F07.argsPreview "write_file" (JObj fields) s = (Throw error, s).
Proof.
  intros H. unfold F07.argsPreview.
  change (String.eqb "write_file" "write_file") with true. cbv iota.
  destruct (stringable (own "path" fields)) eqn:Hpath.
  - exists (TypeError "Cannot read properties of undefined"). split; [reflexivity |].
    intros s. unfold bind, lift, prop, length_of, to_text. rewrite Hpath.
    destruct (own "content" fields) as [[]|]; try discriminate H; reflexivity.
  - exists (TypeError "Cannot convert object to primitive value"). split; [reflexivity |].
    intros s. unfold bind, lift, prop, to_text. rewrite Hpath. reflexivity.
Qed.

End Preview.

(** X17.  In 06-planning.ts and 07-adaptive-agent.ts the console preview of
    a write_file request reads [args.content.length] outside any [try]:
    for a request without content (absent or null) the loop body throws a
    TypeError before it prints anything or calls the handler, and the
    exception ends the run: executeWithReact and the execution loop of
    planThenExecute reject right after the decision request, leaving the
    request unanswered. *)
Theorem X17_write_preview_throws_without_content (E : Env) (call : ToolCall)
    (fields : list (string * JValue)) (messages : list Message) (s : Sys E) :
  tc_name call = "write_file" ->
  JSON_parse E (tc_arguments call) = Some (JObj fields) ->
  is_nullish (own "content" fields) = true ->
  exists error,
  e_name error = "TypeError" /\
  F07.answer call messages s = (Throw error, s) /\
  F06.answer call messages s = (Throw error, s) /\
  F06.react_answer call messages s = (Throw error, s) /\
  (forall n i m w rest,
     chat_create E (mkRequest messages F07.executionTools) (world s) = (m, w) ->
     tool_calls m = Some (call :: rest) ->
     F07.loop (S n) i messages s
     = (Throw error, mkSys w (trace s ++ [EvRequest (mkRequest messages F07.executionTools)]))) /\
  (forall n i m w rest,
     chat_create E (mkRequest messages F06.tools) (world s) = (m, w) ->
     tool_calls m = Some (call :: rest) ->
     F06.loop (S n) i messages s
     = (Throw error,
        mkSys w (trace s ++ [EvLog (LIteration (S i));
                             EvRequest (mkRequest messages F06.tools)]))).
Proof.
  intros Hname Hparse Hcontent.
  destruct (F07_argsPreview_throws (E := E) fields Hcontent) as (error & Herror & Hpreview).
  exists error. split; [exact Herror |].
  assert (H07 : forall acc (s0 : Sys E), F07.answer call acc s0 = (Throw error, s0)).
  { intros acc s0. unfold F07.answer, parse. cbv zeta.
    rewrite Hparse, bind_ret_l, Hname.
    change (String.eqb "write_file" "think") with false.
    change (String.eqb "write_file" "request_replan") with false. cbv iota.
    unfold bind at 1. unfold bind at 1.
    rewrite (Hpreview s0). reflexivity. }
  assert (H06 : forall acc (s0 : Sys E), F06.answer call acc s0 = (Throw error, s0)).
  { intros acc s0. unfold F06.answer, parse. cbv zeta.
    rewrite Hparse, bind_ret_l, Hname.
    unfold bind at 1.
    rewrite (Hpreview s0). reflexivity. }
  split; [apply H07 | split; [apply H06 | split]].
  - unfold F06.react_answer, parse. cbv zeta.
    rewrite Hparse, bind_ret_l, Hname.
    change (String.eqb "write_file" "think") with false. cbv iota.
    unfold bind at 1.
    rewrite (Hpreview s). reflexivity.
  - split.
    + intros n i m w rest Hm Hcalls. rewrite F07_loop_step. cbv zeta. rewrite Hm.
      unfold no_calls, calls. rewrite Hcalls. cbn [F07.for_calls].
      unfold bind at 1. rewrite H07. reflexivity.
    + intros n i m w rest Hm Hcalls. cbn [F06.loop].
      unfold bind at 1. unfold log at 1, emit at 1. cbv zeta.
      unfold bind at 1. unfold create at 1. cbn [world trace]. rewrite Hm.
      unfold no_calls, calls. rewrite Hcalls. cbn [for_each].
      unfold bind at 1. unfold bind at 1. rewrite H06.
      rewrite <- app_assoc. reflexivity.
Qed.

Lemma X17_write_preview_throws_without_content_witness :
  exists error,
    e_name error = "TypeError" /\
    F07.answer (E := Demo.env Demo.finish) Scenes.empty_note_call []
      (Demo.boot Demo.finish Demo.start)
    = (Throw error, Demo.boot Demo.finish Demo.start).
Proof.
  destruct (X17_write_preview_throws_without_content (Demo.env Demo.finish)
              Scenes.empty_note_call [("path", JStr "notes.txt")] []
              (Demo.boot Demo.finish Demo.start) eq_refl)
    as (error & Hname & H07 & _).
  - vm_compute. reflexivity.
  - reflexivity.
  - exists error. split; [exact Hname | exact H07].
Defined.

(** ** 05-skills.ts: the merged table, for any list of skills *)

Section Merge.
Context {E : Env}.

Lemma createAgent_lookup (skills : list (F05.Skill (E := E))) name :
  F05.allHandlers (F05.createAgent skills) !! name
  = head (omap (fun skill => F05.handlers skill !! name) (rev skills)).
Proof.
  induction skills as [|skill skills IH] using rev_ind.
  - unfold F05.createAgent. simpl. apply lookup_empty.
  - rewrite createAgent_snoc, rev_app_distr. simpl.
    destruct (F05.handlers skill !! name) as [handler|]; [reflexivity | exact IH].
Qed.

End Merge.

(** X18.  What createAgent of 05-skills.ts registers under a name, for any
    list of skills: the handler of the last skill in the list that has a
    handler of that name; and nothing exactly when no skill has one.  The
    order of the skills therefore matters only for names that two skills
    share. *)
Theorem X18_merged_handler_is_the_last_declared (E : Env)
    (skills : list (F05.Skill (E := E))) (name : string) :
  F05.allHandlers (F05.createAgent skills) !! name
  = head (omap (fun skill => F05.handlers skill !! name) (rev skills)) /\
  (F05.allHandlers (F05.createAgent skills) !! name = None <->
   Forall (fun skill => F05.handlers skill !! name = None) skills).
Proof.
  split; [apply createAgent_lookup |].
  rewrite createAgent_lookup.
  rewrite <- (rev_involutive skills) at 2.
  induction (rev skills) as [|skill rest IH]; simpl.
  - split; constructor.
  - rewrite Forall_app, Forall_singleton.
    destruct (F05.handlers skill !! name) as [handler|] eqn:Hh; simpl.
    + split; [discriminate | intros [_ H]; discriminate H].
    + rewrite IH. tauto.
Qed.

(** ** 07-adaptive-agent.ts: the lists of a revision context *)

Section Joining.
Context {E : Env}.

Lemma bind_throw_l {A B : Type} e (k : A -> M E B) : bind (throw e) k = throw e.
Proof. reflexivity. Qed.

Lemma join_or_throws xs sep fallback :
  joinable xs = false ->
  F07.join_or (E := E) xs sep fallback = throw (TypeError "join is not a function").
Proof. destruct xs as [[]|]; simpl; intros H; try discriminate H; reflexivity. Qed.

Lemma join_or_nothing xs sep fallback :
  xs = None \/ xs = Some JNull \/ xs = Some (JArr []) ->
  F07.join_or (E := E) xs sep fallback = ret fallback.
Proof. intros [-> | [-> | ->]]; reflexivity. Qed.

(** Joining returns a text or throws a TypeError. *)
Lemma join_or_cases xs sep fallback :
  (exists text, F07.join_or (E := E) xs sep fallback = ret text) \/
  (exists error, e_name error = "TypeError" /\
                 F07.join_or (E := E) xs sep fallback = throw error).
Proof.
  unfold F07.join_or. destruct xs as [[]|]; try destruct (forallb convertible _);
    first [left; eexists; reflexivity
          | right; eexists; split; [| reflexivity]; reflexivity].
Qed.

End Joining.

(** X19.  createPlan joins the lists of a revision context unchecked
    ([completedSteps?.join(", ") || "ничего"]).  With a previous plan:
    a list that is neither absent, null nor an array (say a string, which
    a service may well send) makes createPlan throw a TypeError before it
    sends the planning request; lists that are absent, null or empty are
    replaced by the words "ничего" and "нет" in the request it sends. *)
Theorem X19_revision_lists_are_joined_unchecked (E : Env) (task : string)
    (plan : JValue) (steps found : option JValue) (s : Sys E) :
  truthy plan = true ->
  let context := Some (mkPlanContext (Some plan) steps found) in
  (joinable steps = false ->
   exists error,
     e_name error = "TypeError" /\ F07.createPlan task context s = (Throw error, s)) /\
  (joinable steps = true -> joinable found = false ->
   exists error,
     e_name error = "TypeError" /\ F07.createPlan task context s = (Throw error, s)) /\
  (steps = None \/ steps = Some JNull \/ steps = Some (JArr []) ->
   found = None \/ found = Some JNull \/ found = Some (JArr []) ->
   requests_of (trace (snd (F07.createPlan task context s)))
   = requests_of (trace s)
     ++ [mkRequest [MSystem (PlannerPrompt (Some (mkReplanSection plan "ничего" "нет")));
                    MUser task] []]).
Proof.
  intros Htruthy context. unfold context, F07.createPlan.
  cbn [previousPlan pc_completedSteps pc_discoveries]. rewrite Htruthy.
  split; [| split].
  - intros Hsteps. exists (TypeError "join is not a function").
    rewrite (join_or_throws steps _ _ Hsteps), !bind_throw_l.
    split; reflexivity.
  - intros Hsteps Hfound.
    destruct (join_or_cases (E := E) steps ", " "ничего")
      as [[done ->] | (error & Herror & ->)].
    + exists (TypeError "join is not a function").
      rewrite bind_ret_l, (join_or_throws found _ _ Hfound), !bind_throw_l.
      split; reflexivity.
    + exists error. rewrite !bind_throw_l. split; [exact Herror | reflexivity].
  - intros Hsteps Hfound.
    rewrite (join_or_nothing steps _ _ Hsteps), bind_ret_l.
    rewrite (join_or_nothing found _ _ Hfound), !bind_ret_l.
    unfold bind, create. destruct (chat_create E _ (world s)) as [m w].
    pose proof (quiet_parse (E := E) (cleanJson match content m with
                                                | Some t => t
                                                | None => ""
                                                end)) as Hq.
    rewrite Hq. cbn [trace]. rewrite requests_of_app. reflexivity.
Qed.

Lemma X19_revision_lists_are_joined_unchecked_witness :
  let s := Demo.boot Demo.replanner Demo.start in
  (exists error,
     e_name error = "TypeError" /\
     F07.createPlan "task"
       (Some (mkPlanContext (Some Demo.plan) (Some (JStr "step 1")) None)) s
     = (Throw error, s)) /\
  requests_of (trace (snd (F07.createPlan "task"
                             (Some (mkPlanContext (Some Demo.plan) (Some (JArr [])) None)) s)))
  = [] ++ [mkRequest [MSystem (PlannerPrompt
                                 (Some (mkReplanSection Demo.plan "ничего" "нет")));
                      MUser "task"] []].
Proof.
  intros s. split.
  - refine (proj1 (X19_revision_lists_are_joined_unchecked (Demo.env Demo.replanner)
                     "task" Demo.plan (Some (JStr "step 1")) None s eq_refl) eq_refl).
  - refine (proj2 (proj2 (X19_revision_lists_are_joined_unchecked
                            (Demo.env Demo.replanner)
                            "task" Demo.plan (Some (JArr [])) None s eq_refl)) _ _);
      auto.
Defined.

(** ** 08-interactive-agent.ts: the choice wizard *)

Section Choice.
Context {E : Env}.

Lemma lift_normal {A : Type} (a : A) : lift (E := E) (Normal a) = ret a.
Proof. reflexivity. Qed.

Lemma showOption_run opt (s : Sys E) :
  presentable opt -> F08.showOption opt s = (Normal tt, s).
Proof.
  intros (label & about & Hlabel & Habout & Hl & Ha).
  unfold F08.showOption, bind, lift, to_text, ret.
  rewrite Hlabel. cbv beta iota. rewrite Hl. cbv beta iota.
  rewrite Habout. cbv beta iota. rewrite Ha. reflexivity.
Qed.

Lemma options_shown items (s : Sys E) :
  Forall presentable items ->
  for_each (fun opt (_ : unit) => F08.showOption opt) items tt s = (Normal tt, s).
Proof.
  induction 1 as [|item items Hitem _ IH]; simpl; [reflexivity |].
  unfold bind at 1. rewrite (showOption_run item s Hitem). exact IH.
Qed.

(** The lookup of an option never reads outside the array. *)
Lemma chosen_option_spec items n chosen :
  F08.chosen_option items n = Some chosen <->
  (1 <= n <= Z.of_nat (length items))%Z /\
  nth_error items (Z.to_nat (n - 1)) = Some chosen.
Proof.
  unfold F08.chosen_option.
  destruct (Z.leb 1 n && Z.leb n (Z.of_nat (length items)))%bool eqn:Hrange.
  - apply andb_true_iff in Hrange as [H1 H2].
    apply Z.leb_le in H1, H2. tauto.
  - apply andb_false_iff in Hrange.
    split; [discriminate |]. intros [[H1 H2] _].
    destruct Hrange as [H | H]; apply Z.leb_gt in H; lia.
Qed.

End Choice.

(** X20.  The choice wizard of 08-interactive-agent.ts counts from one and
    checks the bounds.  For a question that can be turned into text,
    options that are an array of items the wizard can show (none is null,
    and the label and the description of each can be turned into text,
    as lines 244-249 print them) and a typed answer that reads as the
    number n: when 1 <= n <= the number of options, the text returned to
    the service names the label and the description of option n - 1 of the
    array; when n is below 1 or above the last number offered, or when the
    answer is no number at all, the text echoes the answer as typed and no
    option is read. *)
Theorem X20_choice_counts_from_one_within_bounds (E : Env)
    (fields : list (string * JValue)) (items : list JValue) (s : Sys E)
    (answer : string) (w1 : World E) :
  own "options" fields = Some (JArr items) ->
  stringable (own "question" fields) = true ->
  Forall presentable items ->
  let custom := truthy_opt (own "allow_custom" fields) in
  let count := (Z.of_nat (length items) + (if custom then 1 else 0))%Z in
  ask E ("Выбор [1-" +:+ ToString E (Some (JNum count)) +:+ "]: ") (world s)
  = (answer, w1) ->
  (forall n chosen,
     parseInt E answer = Some n ->
     (1 <= n <= Z.of_nat (length items))%Z ->
     nth_error items (Z.to_nat (n - 1)) = Some chosen ->
     exists label about,
       prop chosen "label" = Normal label /\
       prop chosen "description" = Normal about /\
       fst (F08.ask_user_choice (JObj fields) s)
       = Normal ("Пользователь выбрал: " +:+ dq +:+ ToString E label +:+ dq
                 +:+ " — " +:+ ToString E about)) /\
  (parseInt E answer = None \/
   (exists n, parseInt E answer = Some n /\ ((n < 1)%Z \/ (count < n)%Z)) ->
   fst (F08.ask_user_choice (JObj fields) s)
   = Normal ("Пользователь ответил: " +:+ dq +:+ answer +:+ dq)).
Proof.
  intros Hoptions Hquestion Hitems custom count Hask.
  assert (Hrun : F08.ask_user_choice (JObj fields) s =
    let s1 := mkSys w1 (trace s ++ [EvLog (LWizard "choice"
                [own "question" fields; Some (JArr items); own "allow_custom" fields])]) in
    (if (custom &&
         match parseInt E answer with
         | Some n => Z.eqb n (Z.of_nat (length items) + 1)%Z
         | None => false
         end)%bool
     then
       bind (F08.ask_user "Введите свой вариант: ")
         (fun reply => ret ("Пользователь выбрал свой вариант: " +:+ dq +:+ reply +:+ dq))
     else
       match parseInt E answer with
       | Some n =>
           match F08.chosen_option items n with
           | Some chosen =>
               bind (lift (prop chosen "label")) (fun label =>
               bind (to_text label) (fun name =>
               bind (lift (prop chosen "description")) (fun about =>
               bind (to_text about) (fun text =>
               ret ("Пользователь выбрал: " +:+ dq +:+ name +:+ dq
                    +:+ " — " +:+ text)))))
           | None => ret ("Пользователь ответил: " +:+ dq +:+ answer +:+ dq)
           end
       | None => ret ("Пользователь ответил: " +:+ dq +:+ answer +:+ dq)
       end) s1).
  { unfold F08.ask_user_choice, destructure. cbn [prop].
    rewrite !lift_normal, !bind_ret_l. rewrite Hoptions.
    unfold bind at 1. rewrite (to_text_run _ s Hquestion).
    unfold bind at 1. unfold log at 1, emit at 1. cbv zeta.
    unfold bind at 1. rewrite (options_shown items _ Hitems).
    unfold bind at 1. unfold F08.ask_user at 1. cbn [world trace].
    fold custom. fold count. rewrite Hask. reflexivity. }
  rewrite Hrun. cbv zeta. clear Hrun Hask. unfold count. clear count.
  clearbody custom. split.
  - intros n chosen Hn Hrange Hnth. rewrite Hn.
    replace (Z.eqb n (Z.of_nat (length items) + 1)) with false
      by (symmetry; apply Z.eqb_neq; lia).
    rewrite andb_false_r.
    rewrite (proj2 (chosen_option_spec items n chosen) (conj Hrange Hnth)).
    assert (Hchosen : presentable chosen).
    { rewrite Forall_forall in Hitems. apply Hitems.
      apply list_elem_of_In. eapply nth_error_In. exact Hnth. }
    destruct Hchosen as (label & about & Hlabel & Habout & Hl & Ha).
    exists label, about. split; [exact Hlabel | split; [exact Habout |]].
    unfold bind, lift, to_text, ret.
    rewrite Hlabel. cbv beta iota. rewrite Hl. cbv beta iota.
    rewrite Habout. cbv beta iota. rewrite Ha. reflexivity.
  - intros [Hnone | (n & Hn & Hrange)].
    + rewrite Hnone, andb_false_r. reflexivity.
    + rewrite Hn.
      assert (Hslot : (custom && Z.eqb n (Z.of_nat (length items) + 1))%bool = false).
      { destruct custom; [| reflexivity]. apply Z.eqb_neq. lia. }
      rewrite Hslot.
      destruct (F08.chosen_option items n) as [chosen|] eqn:Hchosen; [| reflexivity].
      apply chosen_option_spec in Hchosen as [Hin _].
      destruct custom; lia.
Qed.

Lemma X20_choice_counts_from_one_within_bounds_witness :
  fst (F08.ask_user_choice (E := Wizard.env) (JObj Wizard.choice_fields) (Wizard.user ["2"]))
  = Normal ("Пользователь выбрал: " +:+ dq +:+ "service" +:+ dq
            +:+ " — " +:+ "a program that runs") /\
  fst (F08.ask_user_choice (E := Wizard.env) (JObj Wizard.choice_fields) (Wizard.user ["3"]))
  = Normal ("Пользователь ответил: " +:+ dq +:+ "3" +:+ dq) /\
  fst (F08.ask_user_choice (E := Wizard.env) (JObj Wizard.choice_fields)
         (Wizard.user ["later"]))
  = Normal ("Пользователь ответил: " +:+ dq +:+ "later" +:+ dq).
Proof.
  assert (Hitems : Forall presentable Wizard.options).
  { repeat constructor; eexists; eexists; repeat split; reflexivity. }
  split; [| split].
  - destruct (proj1 (X20_choice_counts_from_one_within_bounds Wizard.env
                       Wizard.choice_fields Wizard.options (Wizard.user ["2"]) "2"
                       (Demo.mkState 0 [] [] []) eq_refl eq_refl Hitems eq_refl)
                2%Z (JObj [("label", JStr "service");
                           ("description", JStr "a program that runs")])
                eq_refl ltac:(simpl; lia) eq_refl)
      as (label & about & Hlabel & Habout & Hrun).
    rewrite Hrun. injection Hlabel as <-. injection Habout as <-. reflexivity.
  - apply (proj2 (X20_choice_counts_from_one_within_bounds Wizard.env
                    Wizard.choice_fields Wizard.options (Wizard.user ["3"]) "3"
                    (Demo.mkState 0 [] [] []) eq_refl eq_refl Hitems eq_refl)).
    right. exists 3%Z. split; [reflexivity | right; simpl; lia].
  - apply (proj2 (X20_choice_counts_from_one_within_bounds Wizard.env
                    Wizard.choice_fields Wizard.options (Wizard.user ["later"]) "later"
                    (Demo.mkState 0 [] [] []) eq_refl eq_refl Hitems eq_refl)).
    left. reflexivity.
Defined.

(** ** 05-skills.ts: what the agent returns *)

Section Returned05.
Context {E : Env}.

(** One pass of the [while] loop of [run]. *)
Lemma F05_loop_step agent n i messages (s : Sys E) :
  F05.loop agent (S n) i messages s =
  let request := mkRequest messages (F05.allTools agent) in
  let (m, w) := chat_create E request (world s) in
  let s1 := mkSys w (trace s ++ [EvLog (LIteration (S i)); EvRequest request]) in
  if no_calls m
  then (Normal (Value (content m), messages ++ [MAssistant m]),
        mkSys w (trace s1 ++ [EvLog (LAnswer (content m))]))
  else
    match for_each (F05.answer agent) (calls m) (messages ++ [MAssistant m]) s1 with
    | (Normal messages', s2) => F05.loop agent n (S i) messages' s2
    | (Throw e, s2) => (Throw e, s2)
    end.
Proof.
  simpl. unfold bind, log, emit, create. simpl.
  destruct (chat_create E _ _) as [m w]. simpl.
  rewrite <- app_assoc. simpl.
  destruct (no_calls m); reflexivity.
Qed.

Lemma F05_answer_last_line agent call messages (s : Sys E) messages' s' :
  F05.answer agent call messages s = (Normal messages', s') ->
  exists result, last (lines_of (trace s')) = Some (LResult result).
Proof.
  unfold F05.answer. intros H.
  bind_inv H. bind_inv H. bind_inv H. bind_inv H.
  injection H as _ <-. unfold log, emit in Hrun2. injection Hrun2 as _ <-.
  exists a1. cbn [trace]. rewrite lines_of_app. apply last_snoc.
Qed.

Lemma F05_for_each_last_line agent toolCalls : forall messages (s : Sys E) messages' s',
  toolCalls <> [] ->
  for_each (F05.answer agent) toolCalls messages s = (Normal messages', s') ->
  exists result, last (lines_of (trace s')) = Some (LResult result).
Proof.
  induction toolCalls as [|call rest IH]; intros messages s messages' s' Hsome H;
    [contradiction |].
  simpl in H. bind_inv H. destruct rest as [|next rest].
  - injection H as _ <-. eapply F05_answer_last_line. exact Hrun.
  - eapply IH; [discriminate | exact H].
Qed.

Lemma F05_loop_outcome n : forall i messages (s : Sys E) r messages' s',
  F05.loop F05.agent (S n) i messages s = (Normal (r, messages'), s') ->
  match r with
  | Value c =>
      last (lines_of (trace s')) = Some (LAnswer c) /\
      exists m, last messages' = Some (MAssistant m) /\ no_calls m = true /\ content m = c
  | Undefined =>
      length (requests_of (trace s')) = length (requests_of (trace s)) + S n /\
      exists result, last (lines_of (trace s')) = Some (LResult result)
  end.
Proof.
  induction n as [|n IH]; intros i messages s r messages' s' H;
    rewrite F05_loop_step in H; cbv zeta in H;
    destruct (chat_create E _ _) as [m w];
    set (s1 := mkSys w (trace s ++ [EvLog _; EvRequest _])) in H;
    (destruct (no_calls m) eqn:Hm;
     [ injection H as <- <- <-; simpl; split;
       [ rewrite !lines_of_app; simpl; apply last_snoc
       | exists m; rewrite last_snoc; auto ]
     |]);
    pose proof (quiet_for_each (F05.answer F05.agent) (calls m)
                  (fun call acc => local_quiet _ (F05_answer_local call acc))
                  (messages ++ [MAssistant m]) s1) as Hq;
    destruct (for_each (F05.answer F05.agent) _ _ s1) as [[messages1|e] s2] eqn:Hfe;
    try discriminate H; cbn [snd] in Hq;
    assert (H1 : length (requests_of (trace s2)) = length (requests_of (trace s)) + 1)
      by (rewrite Hq; unfold s1; simpl; rewrite requests_of_app, length_app; reflexivity).
  - simpl in H. injection H as <- <- <-. split; [lia |].
    eapply F05_for_each_last_line; [| exact Hfe].
    unfold no_calls in Hm. destruct (calls m); [discriminate Hm | discriminate].
  - apply IH in H. destruct r; [| exact H].
    destruct H as [Hcount Hline]. split; [lia | exact Hline].
Qed.

End Returned05.



(** ** 07-adaptive-agent.ts: plan, execute, replan *)

Section Rounds.
Context {E : Env}.

Lemma F07_execute_requests task plan (s : Sys E) :
  exists new,
    requests_of (trace (snd (F07.executeWithReact task plan s)))
    = requests_of (trace s) ++ new /\
    Forall (executes plan) new.
Proof.
  destruct (F07_loop_sound (E := E) plan 20 0 [MSystem (ExecutorPrompt plan); MUser task]
              (ex_intro _ [MUser task] eq_refl) (answered_start _ _) s)
    as [(delta & Ht & Hd) _].
  exists (requests_of delta). unfold F07.executeWithReact, F07.executeWithReact_with.
  rewrite Ht, requests_of_app. split; [reflexivity |].
  apply requests_of_Forall. eapply Forall_impl; [exact Hd |].
  intros [] Hev; simpl in *; tauto.
Qed.

(** createPlan called with the plan just executed throws before it sends
    anything, or sends one replanning request that carries that plan. *)
Lemma F07_replan_requests task plan steps found (s : Sys E) :
  truthy plan = true ->
  let run := F07.createPlan task (Some (mkPlanContext (Some plan) steps found)) s in
  ((exists e, fst run = Throw e) /\
   requests_of (trace (snd run)) = requests_of (trace s)) \/
  (exists request,
     replans task plan request /\
     requests_of (trace (snd run)) = requests_of (trace s) ++ [request]).
Proof.
  intros Htruthy. cbv zeta. unfold F07.createPlan.
  cbn [previousPlan pc_completedSteps pc_discoveries]. rewrite Htruthy.
  destruct (join_or_cases (E := E) steps ", " "ничего")
    as [[done ->] | (error & _ & ->)].
  2: { left. rewrite !bind_throw_l. split; [eexists |]; reflexivity. }
  rewrite bind_ret_l.
  destruct (join_or_cases (E := E) found "; " "нет")
    as [[news ->] | (error & _ & ->)].
  2: { left. rewrite !bind_throw_l. split; [eexists |]; reflexivity. }
  rewrite !bind_ret_l. right. eexists. split; [exists done, news; reflexivity |].
  unfold bind, create. destruct (chat_create E _ (world s)) as [m w].
  pose proof (quiet_parse (E := E) (cleanJson match content m with
                                              | Some t => t
                                              | None => ""
                                              end)) as Hq.
  rewrite Hq. cbn [trace]. rewrite requests_of_app. reflexivity.
Qed.

Lemma F07_attempts_rounds MAX task : forall r replanCount plan (s : Sys E),
  printable plan = true ->
  exists new,
    requests_of (trace (snd (F07.attempts MAX r replanCount task plan s)))
    = requests_of (trace s) ++ new /\
    rounds task plan new.
Proof.
  induction r as [|r IH]; intros replanCount plan s Hprint.
  - exists []. split; [symmetry; apply app_nil_r | apply rounds_end; constructor].
  - rewrite F07_attempts_step. cbv zeta.
    set (s0 := mkSys (world s) (trace s ++ [EvLog _])).
    assert (H0 : requests_of (trace s0) = requests_of (trace s)).
    { unfold s0. cbn [trace]. rewrite requests_of_app. simpl. apply app_nil_r. }
    destruct (F07_execute_requests task plan s0) as (execution & H1 & Hexec).
    rewrite H0 in H1.
    destruct (F07.executeWithReact task plan s0) as [[outcome|e] s1]; cbn [snd] in H1.
    2: { exists execution. split; [exact H1 | apply rounds_end; exact Hexec]. }
    destruct (status (fst outcome)).
    { exists execution. cbn [snd trace]. rewrite requests_of_app, H1. simpl.
      rewrite app_nil_r. split; [reflexivity | apply rounds_end; exact Hexec]. }
    destruct (Nat.ltb MAX (S replanCount)).
    { exists execution. cbn [snd trace]. rewrite requests_of_app, H1. simpl.
      rewrite app_nil_r. split; [reflexivity | apply rounds_end; exact Hexec]. }
    set (s2 := mkSys (world s1) (trace s1 ++ [EvLog _])).
    assert (H2 : requests_of (trace s2) = requests_of (trace s) ++ execution).
    { unfold s2. cbn [trace]. rewrite requests_of_app, H1. simpl. apply app_nil_r. }
    match goal with
    | |- context [F07.createPlan task (Some (mkPlanContext _ ?steps ?found)) s2] =>
        destruct (F07_replan_requests task plan steps found s2
                    (printable_truthy _ Hprint))
          as [[[e He] Hsame] | (request & Hcarries & Hsent)];
        destruct (F07.createPlan task (Some (mkPlanContext _ steps found)) s2)
          as [[plan'|e'] s3]
    end; cbn [fst snd] in *; try discriminate He.
    + exists execution. rewrite Hsame, H2.
      split; [reflexivity | apply rounds_end; exact Hexec].
    + pose proof (F07_printPlan_quiet (E := E) plan' true s3) as Hquiet.
      destruct (F07.printPlan plan' true s3) as [[u|e''] s4] eqn:Hprinted;
        cbn [snd] in Hquiet.
      * apply F07_printPlan_post in Hprinted.
        destruct (IH (S replanCount) plan' s4 Hprinted) as (rest & Hrest & Hrounds).
        exists (execution ++ request :: rest). split.
        -- rewrite Hrest, Hquiet, Hsent, H2, <- !app_assoc. reflexivity.
        -- apply rounds_next with (plan' := plan'); assumption.
      * exists (execution ++ [request]). cbn [snd]. split.
        -- rewrite Hquiet, Hsent, H2, <- app_assoc. reflexivity.
        -- apply rounds_next with (plan' := plan'); [assumption | assumption |].
           apply rounds_end. constructor.
    + exists (execution ++ [request]). split.
      * rewrite Hsent, H2, <- app_assoc. reflexivity.
      * apply rounds_next with (plan' := plan); [assumption | assumption |].
        apply rounds_end. constructor.
Qed.

End Rounds.

(** X22.  The protocol of adaptiveAgent, whatever the service answers.  A
    run first sends the planning request for the task, without tools and
    without a replan section.  What follows goes in rounds: the execution
    requests for the current plan, then, if the run goes on, one replanning
    request whose instructions carry that very plan as the previous plan,
    then the rounds of the next plan. *)
Theorem X22_adaptive_agent_plans_executes_replans (E : Env) (MAX : nat)
    (task : string) (s : Sys E) :
  exists plan rest,
    requests_of (trace (snd (F07.adaptiveAgent_with MAX task s)))
    = requests_of (trace s) ++ planning_request task :: rest /\
    rounds task plan rest.
Proof.
  unfold F07.adaptiveAgent_with.
  unfold bind at 1. unfold log at 1, emit at 1. cbv zeta.
  set (s0 := mkSys (world s) (trace s ++ [EvLog _])).
  unfold bind at 1.
  destruct (chat_create E (planning_request task) (world s0)) as [m w] eqn:Hm.
  rewrite (F07_createPlan_run task s0 m w Hm).
  assert (H1 : requests_of (trace s0 ++ [EvRequest (planning_request task)])
               = requests_of (trace s) ++ [planning_request task]).
  { unfold s0. cbn [trace]. rewrite !requests_of_app. simpl.
    rewrite app_nil_r. reflexivity. }
  destruct (JSON_parse E (cleanJson (text_of_message m))) as [plan|].
  2: { exists JNull, []. cbn [snd trace]. rewrite H1.
       split; [reflexivity | apply rounds_end; constructor]. }
  unfold bind at 1.
  match goal with
  | |- context [F07.printPlan plan false ?state] =>
      pose proof (F07_printPlan_quiet (E := E) plan false state) as Hquiet;
      destruct (F07.printPlan plan false state) as [[u|e] s2] eqn:Hprinted
  end; cbn [snd trace] in Hquiet.
  - apply F07_printPlan_post in Hprinted.
    destruct (F07_attempts_rounds MAX task (MAX + 1) 0 plan s2 Hprinted)
      as (rest & Hrest & Hrounds).
    exists plan, rest. split; [| exact Hrounds].
    rewrite Hrest, Hquiet, H1, <- app_assoc. reflexivity.
  - exists plan, []. cbn [snd]. rewrite Hquiet, H1.
    split; [reflexivity | apply rounds_end; constructor].
Qed.

(** ** 05-skills.ts: what calculate does with a thrown null *)

Section Thrown.
Context {E : Env}.

Lemma F05_lookup_calculate :
  F05.allHandlers (F05.agent (E := E)) !! "calculate" = Some F05.calculate.
Proof.
  unfold F05.agent. rewrite createAgent_lookup.
  cbn [rev app]. unfold omap, list_omap. unfold F05.mathSkill at 1. cbn [F05.handlers].
  rewrite lookup_insert_eq. reflexivity.
Qed.

Lemma F05_calculate_thrown fields v :
  is_nullish v = true ->
  exists error,
    e_name error = "TypeError" /\
    forall w (s : Sys E),
      js_eval E (own "expression" fields) (world s) = (inl (ThrownValue v), w) ->
      F05.calculate (JObj fields) s = (Throw error, mkSys w (trace s)).
Proof.
  intros Hv. destruct v as [[]|]; try discriminate Hv;
    (eexists; split; [| intros w s Heval;
       unfold F05.calculate, destructure; rewrite lift_prop_object, bind_ret_l;
       unfold bind at 1; unfold F05.evaluate; rewrite Heval; reflexivity]);
    reflexivity.
Qed.

End Thrown.

(** X24.  calculate of 05-skills.ts reads [e.message] in its [catch]
    clause.  When [eval] throws [null] or [undefined] (the expression
    [throw null] does), that reading throws a TypeError inside the clause:
    the handler throws instead of returning an error text, and so does the
    loop body, after it has printed the request and called the handler and
    before it appends an action-result. *)
Theorem X24_calculate_rethrows_a_thrown_null (E : Env) (call : ToolCall)
    (fields : list (string * JValue)) (messages : list Message) (s : Sys E)
    (v : option JValue) (w : World E) :
  tc_name call = "calculate" ->
  JSON_parse E (tc_arguments call) = Some (JObj fields) ->
  js_eval E (own "expression" fields) (world s) = (inl (ThrownValue v), w) ->
  is_nullish v = true ->
  exists error,
    e_name error = "TypeError" /\
    F05.calculate (JObj fields) s = (Throw error, mkSys w (trace s)) /\
    F05.answer F05.agent call messages s
    = (Throw error,
       mkSys w (trace s ++ [EvLog (LTool "calculate" (JObj fields));
                            EvInvoke "calculate" (JObj fields)])).
Proof.
  intros Hname Hparse Heval Hv.
  destruct (F05_calculate_thrown (E := E) fields v Hv) as (error & Herror & Hrun).
  exists error. split; [exact Herror | split; [exact (Hrun w s Heval) |]].
  unfold F05.answer, parse. cbv zeta. rewrite Hparse, bind_ret_l, Hname.
  rewrite (invoke_found _ _ _ _ _ F05_lookup_calculate).
  unfold bind at 1. unfold log at 1, emit at 1.
  unfold bind at 1. unfold bind at 1. unfold emit at 1.
  match goal with
  | |- context [F05.calculate (JObj fields) ?state] => rewrite (Hrun w state Heval)
  end.
  cbn [trace]. rewrite <- app_assoc. reflexivity.
Qed.

Lemma X24_calculate_rethrows_a_thrown_null_witness :
  (exists error,
     e_name error = "TypeError" /\
     F05.answer (E := Thrower.env) F05.agent Thrower.thrown_call [] Thrower.boot
     = (Throw error,
        mkSys (E := Thrower.env) Demo.start
          [EvLog (LTool "calculate" (JObj [("expression", JStr "throw null")]));
           EvInvoke "calculate" (JObj [("expression", JStr "throw null")])])) /\
  option_map e_name (error_of (fst (F05.run (E := Thrower.env) F05.agent "task" Thrower.boot)))
  = Some "TypeError".
Proof.
  split.
  - destruct (X24_calculate_rethrows_a_thrown_null Thrower.env Thrower.thrown_call
                [("expression", JStr "throw null")] [] Thrower.boot (Some JNull) Demo.start
                eq_refl)
      as (error & Hname & _ & Hanswer).
    + vm_compute. reflexivity.
    + reflexivity.
    + reflexivity.
    + exists error. split; [exact Hname | exact Hanswer].
  - vm_compute. reflexivity.
Defined.
